(** * render/v1 reference plugins: a shallow embedding

    The development follows the Go sources of the reference plugins:

      - gotemplate-render ([plugins/gotemplate-render/main.go]),
        module [GotemplateRender];
      - sourcefiles-modifier ([plugins/sourcefiles-modifier/main.go]),
        module [SourcefilesModifier];
      - echo-render, module [EchoRender];
      - test-processor, module [TestProcessor];
      - globally-installed-fallback, module [GloballyInstalledFallback];
      - the Pkl plugin, module [PklRender].

    Conventions.  Go strings and byte slices are byte sequences; both are
    modelled by [string] (a sequence of 8-bit characters), so that
    [string(file.Data)] and [[]byte(s)] are the identity.  A Go
    [map[string]string] is a [gmap string string].  A loop over a slice is a
    fold whose step is the body of the loop.  A fallible call returns a
    [result]; a run of [helm_plugin_main] is an [Outcome]: the status with the
    output message, or a panic.  Log calls ([pdk.Log]) have no effect on the
    outcome and are left out.

    The plugins call the Go standard library.  Its functions are modelled in
    the modules [utf8], [strings], [path], [base64], [json], [float64],
    [parse], [template] and [unmarshal]; error texts of the library are
    shortened (no line and column).  Where a model covers a part of a
    function only (the template language, numbers of more than 15 digits,
    format verbs, text outside ASCII) the rest is answered by an error
    marked [unsupported], and the properties that rest on it are stated for
    the covered inputs.  The plugin code itself is written against the
    decoder and the template interface it uses ([TextTemplate]), so that the
    properties that do not depend on the template language hold for every
    implementation of them. *)

From Stdlib Require Import ZArith Ascii String List Lia Bool DecimalString.

From stdpp Require Import base gmap strings list.

Local Open Scope Z_scope.

Local Open Scope stdpp_scope.

(** ** Results of fallible library calls: a value or a Go [error] message *)

Inductive result (A : Type) : Type :=
| Ok (a : A)
| Err (msg : string).

Arguments Ok {A} a.

Arguments Err {A} msg.

Definition bind {A B} (r : result A) (k : A -> result B) : result B :=
  match r with
  | Ok a => k a
  | Err e => Err e
  end.

Declare Scope result_scope.

Delimit Scope result_scope with result.

Notation "'let*' x ':=' r 'in' k" := (bind r (fun x => k))
  (at level 10, x pattern, r at level 100, k at level 200) : result_scope.

Local Open Scope result_scope.

Definition is_ok {A} (r : result A) : bool :=
  match r with Ok _ => true | Err _ => false end.

(** ** Byte sequences: indexing and slicing *)

Module bytestr.

Definition len (s : string) : nat := String.length s.

(** [s[lo:hi]] for [0 <= lo <= hi <= len(s)]. *)
Definition slice (s : string) (lo hi : nat) : string :=
  String.substring lo (hi - lo) s.

(** [s[n:]], empty when [n] exceeds the length. *)
Fixpoint drop (n : nat) (s : string) : string :=
  match n, s with
  | O, _ => s
  | S n', String _ s' => drop n' s'
  | S _, EmptyString => ""
  end.

Definition byte (a : ascii) : N := N_of_ascii a.

Definition chr (n : N) : ascii := ascii_of_N n.

End bytestr.

(** ** Package [unicode/utf8], as far as the other packages need it *)

Module utf8.

Import bytestr.

Definition cont (a : ascii) (lo hi : N) : bool :=
  ((lo <=? byte a) && (byte a <=? hi))%N.

(** [rune_size s] is the number of bytes of the UTF-8 encoding [s] starts
    with, and [None] where [utf8.DecodeRune] reports [RuneError] with
    width 1 (an invalid or incomplete encoding, or the empty string). *)
Definition rune_size (s : string) : option nat :=
  match s with
  | EmptyString => None
  | String a r =>
      let x := byte a in
      if (x <? 128)%N then Some 1%nat
      else
        match r with
        | EmptyString => None
        | String b r1 =>
            if ((194 <=? x) && (x <=? 223))%N then
              if cont b 128 191 then Some 2%nat else None
            else
              match r1 with
              | EmptyString => None
              | String c r2 =>
                  if ((224 <=? x) && (x <=? 239))%N then
                    let lo := if (x =? 224)%N then 160%N else 128%N in
                    let hi := if (x =? 237)%N then 159%N else 191%N in
                    if cont b lo hi && cont c 128 191 then Some 3%nat else None
                  else
                    match r2 with
                    | EmptyString => None
                    | String d _ =>
                        if ((240 <=? x) && (x <=? 244))%N then
                          let lo := if (x =? 240)%N then 144%N else 128%N in
                          let hi := if (x =? 244)%N then 143%N else 191%N in
                          if cont b lo hi && cont c 128 191 && cont d 128 191
                          then Some 4%nat else None
                        else None
                    end
              end
        end
  end.

(** [utf8.AppendRune]: the encoding of a code point (surrogates and values
    above U+10FFFF are encoded as U+FFFD). *)
Definition encode (cp : N) : string :=
  if (cp <? 128)%N then String (chr cp) ""
  else if (cp <? 2048)%N then
    String (chr (192 + cp / 64)) (String (chr (128 + cp mod 64)) "")
  else if ((55296 <=? cp) && (cp <=? 57343) || (1114111 <? cp))%N then
    String (chr 239) (String (chr 191) (String (chr 189) ""))
  else if (cp <? 65536)%N then
    String (chr (224 + cp / 4096))
      (String (chr (128 + (cp / 64) mod 64)) (String (chr (128 + cp mod 64)) ""))
  else
    String (chr (240 + cp / 262144))
      (String (chr (128 + (cp / 4096) mod 64))
         (String (chr (128 + (cp / 64) mod 64)) (String (chr (128 + cp mod 64)) ""))).

Definition RuneError : string := encode 65533.

(** Every invalid byte replaced by the encoding of U+FFFD, as the JSON
    reader coerces string literals. *)
Fixpoint coerce (fuel : nat) (s : string) : string :=
  match fuel, s with
  | S fuel', String a r =>
      match rune_size s with
      | Some n => slice s 0 n +:+ coerce fuel' (drop n s)
      | None => RuneError +:+ coerce fuel' r
      end
  | _, _ => ""
  end.

End utf8.

(** ** Package [strings] *)

Module strings.

Export bytestr.

Definition HasPrefix (s prefix : string) : bool :=
  (len prefix <=? len s)%nat && String.eqb (slice s 0 (len prefix)) prefix.

Definition HasSuffix (s suffix : string) : bool :=
  (len suffix <=? len s)%nat
  && String.eqb (slice s (len s - len suffix) (len s)) suffix.

Definition TrimPrefix (s prefix : string) : string :=
  if HasPrefix s prefix then slice s (len prefix) (len s) else s.

Definition TrimSuffix (s suffix : string) : string :=
  if HasSuffix s suffix then slice s 0 (len s - len suffix) else s.

Fixpoint Repeat_nat (s : string) (count : nat) : string :=
  match count with
  | O => ""
  | S n => s +:+ Repeat_nat s n
  end.

(** [LastIndexByte]: the index of the last occurrence of [c], if any. *)
Fixpoint LastIndexByte (s : string) (c : ascii) : option nat :=
  match s with
  | EmptyString => None
  | String a s' =>
      match LastIndexByte s' c with
      | Some i => Some (S i)
      | None => if Ascii.eqb a c then Some O else None
      end
  end.

(** [Split(s, sep)] for a one-byte separator, which is all the plugins use. *)
Fixpoint split_go (cur : string) (s : string) (sep : ascii) : list string :=
  match s with
  | EmptyString => [String.rev cur]
  | String a s' =>
      if Ascii.eqb a sep then String.rev cur :: split_go "" s' sep
      else split_go (String a cur) s' sep
  end.

Definition SplitByte (s : string) (sep : ascii) : list string :=
  split_go "" s sep.

Fixpoint Join (elems : list string) (sep : string) : string :=
  match elems with
  | [] => ""
  | [e] => e
  | e :: rest => e +:+ sep +:+ Join rest sep
  end.

(** White space in the sense of [unicode.IsSpace], recognised on the UTF-8
    encoding: the six ASCII characters, U+0085 and U+00A0 (two bytes) and
    the three-byte space characters U+1680, U+2000..U+200A, U+2028, U+2029,
    U+202F, U+205F and U+3000.  [leading_space s] is the number of bytes of
    the white-space character [s] starts with, [None] if it starts with
    none. *)
Definition space2 (a b : ascii) : bool :=
  ((byte a =? 194) && ((byte b =? 133) || (byte b =? 160)))%N.

Definition space3 (a b c : ascii) : bool :=
  let x := byte a in let y := byte b in let z := byte c in
  (((x =? 225) && (y =? 154) && (z =? 128))
   || ((x =? 226) && (y =? 128)
       && ((128 <=? z) && (z <=? 138) || (z =? 168) || (z =? 169) || (z =? 175)))
   || ((x =? 226) && (y =? 129) && (z =? 159))
   || ((x =? 227) && (y =? 128) && (z =? 128)))%N.

Definition leading_space (s : string) : option nat :=
  match s with
  | String a r =>
      if Ascii.is_space a then Some 1%nat
      else match r with
           | String b r' =>
               if space2 a b then Some 2%nat
               else match r' with
                    | String c _ => if space3 a b c then Some 3%nat else None
                    | EmptyString => None
                    end
           | EmptyString => None
           end
  | EmptyString => None
  end.

(** The same test at the end of a string, on the reversed string. *)
Definition trailing_space (rs : string) : option nat :=
  match rs with
  | String a r =>
      if Ascii.is_space a then Some 1%nat
      else match r with
           | String b r' =>
               if space2 b a then Some 2%nat
               else match r' with
                    | String c _ => if space3 c b a then Some 3%nat else None
                    | EmptyString => None
                    end
           | EmptyString => None
           end
  | EmptyString => None
  end.

Fixpoint trim_with (f : string -> option nat) (fuel : nat) (s : string) : string :=
  match fuel with
  | O => s
  | S fuel' =>
      match f s with
      | Some n => trim_with f fuel' (drop n s)
      | None => s
      end
  end.

Definition TrimLeftSpace (s : string) : string :=
  trim_with leading_space (len s) s.

Definition TrimSpace (s : string) : string :=
  let l := TrimLeftSpace s in
  String.rev (trim_with trailing_space (len l) (String.rev l)).

(** [strings.Repeat]: it panics on a negative count. *)
Definition Repeat (s : string) (count : Z) : result string :=
  if (count <? 0)%Z then Err "strings: negative Repeat count"
  else Ok (Repeat_nat s (Z.to_nat count)).

Fixpoint Contains (s substr : string) : bool :=
  HasPrefix s substr
  || match s with
     | String _ r => Contains r substr
     | EmptyString => false
     end.

(** [strings.ReplaceAll]; an empty [old] matches before every UTF-8
    sequence and at the end. *)
Fixpoint replace_go (fuel : nat) (s old new : string) : string :=
  match fuel with
  | O => s
  | S fuel' =>
      if String.eqb old "" then
        match s with
        | EmptyString => new
        | String a r =>
            let n := match utf8.rune_size s with Some n => n | None => 1%nat end in
            new +:+ slice s 0 n +:+ replace_go fuel' (drop n s) old new
        end
      else if HasPrefix s old then new +:+ replace_go fuel' (drop (len old) s) old new
      else match s with
           | EmptyString => ""
           | String a r => String a (replace_go fuel' r old new)
           end
  end.

Definition ReplaceAll (s old new : string) : string :=
  replace_go (S (len s)) s old new.

Definition is_ascii (s : string) : bool :=
  forallb (fun a => (byte a <? 128)%N) (list_ascii_of_string s).

Definition upper_byte (a : ascii) : ascii :=
  let x := byte a in
  if ((97 <=? x) && (x <=? 122))%N then chr (x - 32) else a.

Definition lower_byte (a : ascii) : ascii :=
  let x := byte a in
  if ((65 <=? x) && (x <=? 90))%N then chr (x + 32) else a.

Fixpoint map_bytes (f : ascii -> ascii) (s : string) : string :=
  match s with
  | EmptyString => ""
  | String a r => String (f a) (map_bytes f r)
  end.

(** [strings.ToUpper], [strings.ToLower] and [strings.Title] on ASCII
    text; the case mapping of other characters is not modelled. *)
Definition ascii_only (f : string -> string) (s : string) : result string :=
  if is_ascii s then Ok (f s) else Err "unsupported: case mapping outside ASCII".

Definition ToUpper : string -> result string := ascii_only (map_bytes upper_byte).

Definition ToLower : string -> result string := ascii_only (map_bytes lower_byte).

Definition isSeparator (a : ascii) : bool :=
  let x := byte a in
  negb (((48 <=? x) && (x <=? 57)) || ((97 <=? x) && (x <=? 122))
        || ((65 <=? x) && (x <=? 90)) || (x =? 95))%N.

Fixpoint title_go (prev : ascii) (s : string) : string :=
  match s with
  | EmptyString => ""
  | String a r =>
      String (if isSeparator prev then upper_byte a else a) (title_go a r)
  end.

Definition Title : string -> result string := ascii_only (title_go " ").

End strings.

(** ** Package [path] *)

Module path.

Import strings.

Fixpoint strip_trailing_slashes (rs : string) : string :=
  match rs with
  | String "/" r => strip_trailing_slashes r
  | _ => rs
  end.

(** [path.Base]: the last element of the path, trailing slashes removed;
    ["."] for the empty path and ["/"] for a path of slashes only. *)
Definition Base (p : string) : string :=
  if String.eqb p "" then "."
  else
    let p := String.rev (strip_trailing_slashes (String.rev p)) in
    let p := match LastIndexByte p "/" with
             | Some i => slice p (S i) (len p)
             | None => p
             end in
    if String.eqb p "" then "/" else p.

(** [path.Clean], by path elements: empty and ["."] elements are dropped,
    a [".."] removes the element before it (at the root it is dropped, at
    the start of a relative path it is kept). *)
Fixpoint clean_go (rooted : bool) (out : list string) (elems : list string)
  : list string :=
  match elems with
  | [] => rev out
  | e :: rest =>
      if String.eqb e "" || String.eqb e "." then clean_go rooted out rest
      else if String.eqb e ".." then
        match out with
        | top :: out' =>
            if String.eqb top ".." then clean_go rooted (e :: out) rest
            else clean_go rooted out' rest
        | [] =>
            if rooted then clean_go rooted out rest
            else clean_go rooted (e :: out) rest
        end
      else clean_go rooted (e :: out) rest
  end.

Definition Clean (p : string) : string :=
  if String.eqb p "" then "."
  else
    let rooted := HasPrefix p "/" in
    let body := Join (clean_go rooted [] (SplitByte p "/")) "/" in
    let r := if rooted then "/" +:+ body else body in
    if String.eqb r "" then "." else r.

(** [path.Dir]: everything up to the last slash, cleaned. *)
Definition Dir (p : string) : string :=
  match LastIndexByte p "/" with
  | Some i => Clean (slice p 0 (S i))
  | None => Clean ""
  end.

End path.

(** ** Package [encoding/base64]: [StdEncoding], the encoding of [[]byte] in JSON *)

Module base64.

Import strings.

Definition alphabet : string :=
  "ABCDEFGHIJKLMNOPQRSTUVWXYZabcdefghijklmnopqrstuvwxyz0123456789+/".

Definition digit (n : N) : ascii :=
  match String.get (N.to_nat n) alphabet with
  | Some a => a
  | None => "="%char
  end.

Fixpoint index_of (a : ascii) (s : string) : option N :=
  match s with
  | EmptyString => None
  | String b r =>
      if Ascii.eqb a b then Some 0%N
      else match index_of a r with Some i => Some (N.succ i) | None => None end
  end.

Definition value (a : ascii) : option N := index_of a alphabet.

Fixpoint EncodeToString (src : string) : string :=
  match src with
  | EmptyString => ""
  | String a EmptyString =>
      let x := byte a in
      String (digit (x / 4)) (String (digit ((x mod 4) * 16)) "==")
  | String a (String b EmptyString) =>
      let x := byte a in let y := byte b in
      String (digit (x / 4))
        (String (digit ((x mod 4) * 16 + y / 16))
           (String (digit ((y mod 16) * 4)) "="))
  | String a (String b (String c r)) =>
      let x := byte a in let y := byte b in let z := byte c in
      String (digit (x / 4))
        (String (digit ((x mod 4) * 16 + y / 16))
           (String (digit ((y mod 16) * 4 + z / 64))
              (String (digit (z mod 64)) (EncodeToString r))))
  end.

Definition corrupt : string := "illegal base64 data".

Fixpoint strip_newlines (s : string) : string :=
  match s with
  | EmptyString => ""
  | String a r =>
      if Ascii.eqb a "010" || Ascii.eqb a "013" then strip_newlines r
      else String a (strip_newlines r)
  end.

Fixpoint decode_quanta (fuel : nat) (s : string) : result string :=
  match fuel with
  | O => Err corrupt
  | S fuel' =>
      match s with
      | EmptyString => Ok ""
      | String a (String b (String c (String d r))) =>
          match value a, value b with
          | Some x, Some y =>
              let b0 := chr (x * 4 + y / 16) in
              if Ascii.eqb c "=" then
                if Ascii.eqb d "=" && String.eqb r "" then Ok (String b0 "")
                else Err corrupt
              else
                match value c with
                | None => Err corrupt
                | Some z =>
                    let b1 := chr ((y mod 16) * 16 + z / 4) in
                    if Ascii.eqb d "=" then
                      if String.eqb r "" then Ok (String b0 (String b1 ""))
                      else Err corrupt
                    else
                      match value d with
                      | None => Err corrupt
                      | Some w =>
                          let b2 := chr ((z mod 4) * 64 + w) in
                          let* rest := decode_quanta fuel' r in
                          Ok (String b0 (String b1 (String b2 rest)))
                      end
                end
          | _, _ => Err corrupt
          end
      | _ => Err corrupt
      end
  end.

Definition DecodeString (s : string) : result string :=
  let s := strip_newlines s in
  decode_quanta (S (len s)) s.

End base64.

(** ** Package [encoding/json]: documents, the writer and the reader *)

Module json.

Import strings.

(** A JSON document.  A number keeps its literal; object members keep
    their order. *)
#[warnings="-register-all"]
Inductive JSON : Type :=
| JNull
| JBool (b : bool)
| JNum (lit : string)
| JStr (s : string)
| JArr (elems : list JSON)
| JObj (members : list (string * JSON)).

Definition dquote : ascii := "034"%char.

Definition backslash : ascii := "092"%char.

Definition hex_digit (n : N) : ascii :=
  match String.get (N.to_nat n) "0123456789abcdef" with
  | Some a => a
  | None => "0"%char
  end.

(** The escape of one ASCII byte in a string literal, as [json.Marshal]
    writes it (HTML-safe: [<], [>] and [&] are escaped too). *)
Definition escape_byte (a : ascii) : string :=
  let x := byte a in
  if Ascii.eqb a dquote || Ascii.eqb a backslash then String backslash (String a "")
  else if (x =? 8)%N then String backslash "b"
  else if (x =? 12)%N then String backslash "f"
  else if (x =? 10)%N then String backslash "n"
  else if (x =? 13)%N then String backslash "r"
  else if (x =? 9)%N then String backslash "t"
  else if (x <? 32)%N || Ascii.eqb a "<" || Ascii.eqb a ">" || Ascii.eqb a "&"
  then String backslash ("u00" +:+ String (hex_digit (x / 16)) (String (hex_digit (x mod 16)) ""))
  else String a "".

Fixpoint escape (fuel : nat) (s : string) : string :=
  match fuel, s with
  | S fuel', String a r =>
      if (byte a <? 128)%N then escape_byte a +:+ escape fuel' r
      else
        match utf8.rune_size s with
        | None => String backslash "ufffd" +:+ escape fuel' r
        | Some n =>
            let enc := slice s 0 n in
            if String.eqb enc (utf8.encode 8232) then
              String backslash "u2028" +:+ escape fuel' (drop n s)
            else if String.eqb enc (utf8.encode 8233) then
              String backslash "u2029" +:+ escape fuel' (drop n s)
            else enc +:+ escape fuel' (drop n s)
        end
  | _, _ => ""
  end.

Definition quote (s : string) : string :=
  String dquote (escape (len s) s) +:+ String dquote "".

(** [json.Marshal]: the compact form. *)
Fixpoint write (j : JSON) : string :=
  match j with
  | JNull => "null"
  | JBool true => "true"
  | JBool false => "false"
  | JNum lit => lit
  | JStr s => quote s
  | JArr elems =>
      "[" +:+
      (fix go (l : list JSON) : string :=
         match l with
         | [] => ""
         | x :: r => write x +:+ match r with [] => "" | _ => "," +:+ go r end
         end) elems +:+ "]"
  | JObj members =>
      "{" +:+
      (fix go (l : list (string * JSON)) : string :=
         match l with
         | [] => ""
         | (k, x) :: r =>
             quote k +:+ ":" +:+ write x
             +:+ match r with [] => "" | _ => "," +:+ go r end
         end) members +:+ "}"
  end.

Definition newline : string := String "010"%char "".

(** [json.MarshalIndent(v, "", indent)] at nesting depth [depth]. *)
Fixpoint write_indent (indent : string) (depth : nat) (j : JSON) : string :=
  let pad := newline +:+ Repeat_nat indent (S depth) in
  let close := newline +:+ Repeat_nat indent depth in
  match j with
  | JArr ((_ :: _) as elems) =>
      "[" +:+
      (fix go (l : list JSON) : string :=
         match l with
         | [] => ""
         | x :: r =>
             pad +:+ write_indent indent (S depth) x
             +:+ match r with [] => "" | _ => "," +:+ go r end
         end) elems +:+ close +:+ "]"
  | JObj ((_ :: _) as members) =>
      "{" +:+
      (fix go (l : list (string * JSON)) : string :=
         match l with
         | [] => ""
         | (k, x) :: r =>
             pad +:+ quote k +:+ ": " +:+ write_indent indent (S depth) x
             +:+ match r with [] => "" | _ => "," +:+ go r end
         end) members +:+ close +:+ "}"
  | _ => write j
  end.

(** *** The reader *)

Definition eof : string := "unexpected end of JSON input".

Definition invalid (a : ascii) (where_ : string) : string :=
  "invalid character '" +:+ String a "' " +:+ where_.

Definition is_ws (a : ascii) : bool :=
  Ascii.eqb a " " || Ascii.eqb a "009" || Ascii.eqb a "010" || Ascii.eqb a "013".

Fixpoint skip_ws (s : string) : string :=
  match s with
  | String a r => if is_ws a then skip_ws r else s
  | EmptyString => s
  end.

Definition is_digit (a : ascii) : bool := ((48 <=? byte a) && (byte a <=? 57))%N.

Fixpoint span_digits (s : string) : string * string :=
  match s with
  | String a r =>
      if is_digit a then let '(d, rest) := span_digits r in (String a d, rest)
      else ("", s)
  | EmptyString => ("", s)
  end.

(** A number literal: an optional minus sign, an integer part without
    leading zero, an optional fraction and an optional exponent. *)
Definition scan_number (s : string) : result (string * string) :=
  let '(sign, s1) := match s with
                     | String "-" r => ("-", r)
                     | _ => ("", s)
                     end in
  let '(int, s2) := span_digits s1 in
  match int with
  | EmptyString =>
      match s1 with
      | EmptyString => Err eof
      | String a _ => Err (invalid a "in numeric literal")
      end
  | String lead more =>
      if Ascii.eqb lead "0" && negb (String.eqb more "") then
        Err (invalid (default "0"%char (String.get 0 more)) "after top-level value")
      else
        let* (frac, s3) :=
          match s2 with
          | String "." r =>
              let '(f, r') := span_digits r in
              match f, r' with
              | EmptyString, EmptyString => Err eof
              | EmptyString, String a _ =>
                  Err (invalid a "after decimal point in numeric literal")
              | _, _ => Ok ("." +:+ f, r')
              end
          | _ => Ok ("", s2)
          end in
        let* (exp, s4) :=
          match s3 with
          | String e r =>
              if Ascii.eqb e "e" || Ascii.eqb e "E" then
                let '(sg, r1) := match r with
                                 | String "+" r' => ("+", r')
                                 | String "-" r' => ("-", r')
                                 | _ => ("", r)
                                 end in
                let '(x, r2) := span_digits r1 in
                match x, r2 with
                | EmptyString, EmptyString => Err eof
                | EmptyString, String a _ =>
                    Err (invalid a "in exponent of numeric literal")
                | _, _ => Ok (String e (sg +:+ x), r2)
                end
              else Ok ("", s3)
          | EmptyString => Ok ("", s3)
          end in
        Ok (sign +:+ int +:+ frac +:+ exp, s4)
  end.

Definition hex_value (a : ascii) : option N :=
  let x := byte a in
  if is_digit a then Some (x - 48)%N
  else if ((97 <=? x) && (x <=? 102))%N then Some (x - 87)%N
  else if ((65 <=? x) && (x <=? 70))%N then Some (x - 55)%N
  else None.

Definition scan_hex4 (s : string) : result (N * string) :=
  match s with
  | String a (String b (String c (String d r))) =>
      match hex_value a, hex_value b, hex_value c, hex_value d with
      | Some w, Some x, Some y, Some z => Ok (((w * 16 + x) * 16 + y) * 16 + z, r)%N
      | None, _, _, _ => Err (invalid a "in \u hexadecimal character escape")
      | _, None, _, _ => Err (invalid b "in \u hexadecimal character escape")
      | _, _, None, _ => Err (invalid c "in \u hexadecimal character escape")
      | _, _, _, None => Err (invalid d "in \u hexadecimal character escape")
      end
  | _ => Err eof
  end.

Definition is_high (u : N) : bool := ((55296 <=? u) && (u <=? 56319))%N.

Definition is_low (u : N) : bool := ((56320 <=? u) && (u <=? 57343))%N.

(** The body of a string literal, after its opening quote: the decoded
    bytes and the input after the closing quote. *)
Fixpoint scan_string (fuel : nat) (s : string) : result (string * string) :=
  match fuel with
  | O => Err eof
  | S fuel' =>
      match s with
      | EmptyString => Err eof
      | String a r =>
          if Ascii.eqb a dquote then Ok ("", r)
          else if Ascii.eqb a backslash then
            match r with
            | EmptyString => Err eof
            | String e r1 =>
                let simple (c : ascii) :=
                  let* (body, rest) := scan_string fuel' r1 in
                  Ok (String c body, rest) in
                if Ascii.eqb e dquote || Ascii.eqb e backslash || Ascii.eqb e "/"
                then simple e
                else if Ascii.eqb e "b" then simple "008"%char
                else if Ascii.eqb e "f" then simple "012"%char
                else if Ascii.eqb e "n" then simple "010"%char
                else if Ascii.eqb e "r" then simple "013"%char
                else if Ascii.eqb e "t" then simple "009"%char
                else if Ascii.eqb e "u" then
                  let* (u, r2) := scan_hex4 r1 in
                  let pair :=
                    if is_high u then
                      match r2 with
                      | String b1 (String b2 r3) =>
                          if Ascii.eqb b1 backslash && Ascii.eqb b2 "u" then
                            match scan_hex4 r3 with
                            | Ok (u2, r4) =>
                                if is_low u2 then
                                  Some (65536 + (u - 55296) * 1024 + (u2 - 56320), r4)%N
                                else None
                            | Err _ => None
                            end
                          else None
                      | _ => None
                      end
                    else None in
                  let '(cp, r') := match pair with
                                   | Some p => p
                                   | None => (u, r2)
                                   end in
                  let* (body, rest) := scan_string fuel' r' in
                  Ok (utf8.encode cp +:+ body, rest)
                else Err (invalid e "in string escape code")
            end
          else if (byte a <? 32)%N then Err (invalid a "in string literal")
          else
            let* (body, rest) := scan_string fuel' r in
            Ok (String a body, rest)
      end
  end.

Definition expect (word : string) (s : string) (v : JSON) : result (JSON * string) :=
  if HasPrefix s word then Ok (v, drop (len word) s)
  else if HasPrefix word s then Err eof
  else Err ("invalid character in literal " +:+ word).

Fixpoint scan_value (fuel : nat) (s : string) : result (JSON * string) :=
  match fuel with
  | O => Err eof
  | S fuel' =>
      match skip_ws s with
      | EmptyString => Err eof
      | String a r as s' =>
          if Ascii.eqb a "{" then
            match skip_ws r with
            | String "}" r' => Ok (JObj [], r')
            | _ => let* (ms, rest) := scan_members fuel' r in Ok (JObj ms, rest)
            end
          else if Ascii.eqb a "[" then
            match skip_ws r with
            | String "]" r' => Ok (JArr [], r')
            | _ => let* (es, rest) := scan_elems fuel' r in Ok (JArr es, rest)
            end
          else if Ascii.eqb a dquote then
            let* (str, rest) := scan_string (S (len r)) r in
            Ok (JStr (utf8.coerce (len str) str), rest)
          else if Ascii.eqb a "t" then expect "true" s' (JBool true)
          else if Ascii.eqb a "f" then expect "false" s' (JBool false)
          else if Ascii.eqb a "n" then expect "null" s' JNull
          else if Ascii.eqb a "-" || is_digit a then
            let* (lit, rest) := scan_number s' in Ok (JNum lit, rest)
          else Err (invalid a "looking for beginning of value")
      end
  end
with scan_elems (fuel : nat) (s : string) : result (list JSON * string) :=
  match fuel with
  | O => Err eof
  | S fuel' =>
      let* (v, rest) := scan_value fuel' s in
      match skip_ws rest with
      | String "," r =>
          let* (vs, rest') := scan_elems fuel' r in Ok (v :: vs, rest')
      | String "]" r => Ok ([v], r)
      | String a _ => Err (invalid a "after array element")
      | EmptyString => Err eof
      end
  end
with scan_members (fuel : nat) (s : string)
  : result (list (string * JSON) * string) :=
  match fuel with
  | O => Err eof
  | S fuel' =>
      match skip_ws s with
      | EmptyString => Err eof
      | String a r =>
          if Ascii.eqb a dquote then
            let* (key, rest) := scan_string (S (len r)) r in
            let key := utf8.coerce (len key) key in
            match skip_ws rest with
            | String ":" r1 =>
                let* (v, rest1) := scan_value fuel' r1 in
                match skip_ws rest1 with
                | String "," r2 =>
                    let* (ms, rest2) := scan_members fuel' r2 in
                    Ok ((key, v) :: ms, rest2)
                | String "}" r2 => Ok ([(key, v)], r2)
                | String b _ => Err (invalid b "after object key:value pair")
                | EmptyString => Err eof
                end
            | String b _ => Err (invalid b "after object key")
            | EmptyString => Err eof
            end
          else Err (invalid a "looking for beginning of object key string")
      end
  end.

(** The syntax check and reading of a whole input: one value, white space
    around it and nothing else. *)
Definition Parse (data : string) : result JSON :=
  let* (v, rest) := scan_value (2 * len data + 2) data in
  match skip_ws rest with
  | EmptyString => Ok v
  | String a _ => Err (invalid a "after top-level value")
  end.

End json.

Import json(JSON(..)).

(** Test inputs are written with ['] for the double quote. *)
Fixpoint q (s : string) : string :=
  match s with
  | EmptyString => ""
  | String a r => String (if Ascii.eqb a "'" then json.dquote else a) (q r)
  end.

(** ** [float64] numbers in JSON

    A JSON number decodes into the [float64] nearest to its literal, and
    [json.Marshal] writes a [float64] with the fewest digits that read back
    as the same number: in positional notation when [1e-6 <= |x| < 1e21], with
    an exponent otherwise.  For a literal of at most 15 significant digits
    within the range of normal numbers those digits are the literal's own,
    without leading and trailing zeros; longer literals and exponents beyond
    300 are not modelled. *)

Module float64.

Import bytestr.

(** A decimal number [0.d1 d2 ... * 10^(exp10 + 1)]: the digits [mant] have
    neither a leading nor a trailing zero, and are empty for zero. *)
Record Decimal : Type := mkDecimal {
  neg : bool;
  mant : string;
  exp10 : Z
}.

Fixpoint strip_zeros (s : string) : string :=
  match s with
  | String a r => if Ascii.eqb a "0" then strip_zeros r else s
  | EmptyString => s
  end.

Fixpoint trim_zeros (s : string) : string :=
  match s with
  | String a r =>
      let r' := trim_zeros r in
      if Ascii.eqb a "0" && String.eqb r' "" then "" else String a r'
  | EmptyString => ""
  end.

Fixpoint zeros (n : nat) : string :=
  match n with
  | O => ""
  | S n' => String "0" (zeros n')
  end.

Fixpoint number (acc : Z) (ds : string) : Z :=
  match ds with
  | String a r => number (10 * acc + Z.of_N (byte a - 48)) r
  | EmptyString => acc
  end.

(** The exponent part of a literal: nothing, or [e] or [E], a sign and
    digits. *)
Definition exponent (s : string) : option Z :=
  match s with
  | EmptyString => Some 0
  | String e r =>
      if Ascii.eqb e "e" || Ascii.eqb e "E" then
        let '(minus, r1) :=
          match r with
          | String sg r' =>
              if Ascii.eqb sg "-" then (true, r')
              else if Ascii.eqb sg "+" then (false, r')
              else (false, r)
          | EmptyString => (false, r)
          end in
        let '(ds, rest) := json.span_digits r1 in
        if String.eqb ds "" || negb (String.eqb rest "") then None
        else Some (if minus then - number 0 ds else number 0 ds)
      else None
  end.

(** The value of a number literal. *)
Definition decimal (lit : string) : option Decimal :=
  let '(minus, s1) :=
    match lit with
    | String a r => if Ascii.eqb a "-" then (true, r) else (false, lit)
    | EmptyString => (false, lit)
    end in
  let '(int, s2) := json.span_digits s1 in
  let '(frac, s3) :=
    match s2 with
    | String a r => if Ascii.eqb a "." then json.span_digits r else ("", s2)
    | EmptyString => ("", s2)
    end in
  if String.eqb int "" then None
  else
    match exponent s3 with
    | None => None
    | Some e =>
        let all := int +:+ frac in
        let sig := strip_zeros all in
        Some (mkDecimal minus (trim_zeros sig)
                (Z.of_nat (len int) - 1 - Z.of_nat (len all - len sig) + e))
    end.

Definition itoa (n : Z) : string := NilZero.string_of_int (Z.to_int n).

(** [strconv.AppendFloat(b, f, fmt, -1, 64)] with the format that
    [encoding/json] chooses, and its removal of the zero of a one-digit
    exponent. *)
Definition format (d : Decimal) : string :=
  let sign := if neg d then "-" else "" in
  match mant d with
  | EmptyString => sign +:+ "0"
  | String lead more =>
      let e := exp10 d in
      if (e <? -6) || (20 <? e) then
        sign +:+ String lead (if String.eqb more "" then "" else "." +:+ more)
        +:+ "e" +:+ (if e <? 0 then "-" else "+") +:+ itoa (Z.abs e)
      else if e <? 0 then
        sign +:+ "0." +:+ zeros (Z.to_nat (- e - 1)) +:+ mant d
      else
        let n := Z.to_nat (e + 1) in
        if (len (mant d) <=? n)%nat
        then sign +:+ mant d +:+ zeros (n - len (mant d))
        else sign +:+ slice (mant d) 0 n +:+ "." +:+ drop n (mant d)
  end.

Definition covered (d : Decimal) : bool :=
  String.eqb (mant d) ""
  || ((len (mant d) <=? 15)%nat && (-300 <=? exp10 d) && (exp10 d <=? 300)).

(** The text that [json.Marshal] writes for the [float64] that the literal
    [lit] decodes to. *)
Definition FormatJSON (lit : string) : result string :=
  match decimal lit with
  | None => Err ("unsupported: number literal " +:+ lit)
  | Some d =>
      if covered d then Ok (format d)
      else Err "unsupported: float64 of more than 15 digits"
  end.

End float64.

(** ** Dynamic values

    A Go [interface{}] as the templates see it: the closed variant of nil,
    booleans, numbers, strings, [[]interface{}] sequences and
    [map[string]interface{}] mappings, and struct values through their
    exported fields.  [VInt] is a Go [int] (an integer constant of a template);
    [VFloat lit] is the [float64] that the JSON number literal [lit] decodes
    to.  The keys of a [VMap] are unique. *)

#[warnings="-register-all"]
Inductive Value : Type :=
| VNil
| VBool (b : bool)
| VInt (n : Z)
| VFloat (lit : string)
| VString (s : string)
| VList (items : list Value)
| VMap (entries : list (string * Value))
| VStruct (fields : list (string * Value)).

Module dyn.

Import strings.

(** [m[key] = v] on a mapping kept as a list of unique keys. *)
Fixpoint map_set {A} (key : string) (v : A) (m : list (string * A))
  : list (string * A) :=
  match m with
  | [] => [(key, v)]
  | (k, x) :: r =>
      if String.eqb k key then (k, v) :: r else (k, x) :: map_set key v r
  end.

Fixpoint map_get {A} (key : string) (m : list (string * A)) : option A :=
  match m with
  | [] => None
  | (k, x) :: r => if String.eqb k key then Some x else map_get key r
  end.

Fixpoint insert_sorted {A} (kv : string * A) (l : list (string * A))
  : list (string * A) :=
  match l with
  | [] => [kv]
  | kv' :: r =>
      if String.leb (fst kv) (fst kv') then kv :: l
      else kv' :: insert_sorted kv r
  end.

(** Members ordered by key, byte-wise, as [json.Marshal] writes a map. *)
Definition sort_keys {A} (l : list (string * A)) : list (string * A) :=
  fold_right insert_sorted [] l.

Definition digits (n : Z) : string := NilZero.string_of_int (Z.to_int n).

(** The document that [json.Marshal] writes for a dynamic value; a
    [float64] is written as [float64.FormatJSON] prints it. *)
Fixpoint to_json (v : Value) : result JSON :=
  match v with
  | VNil => Ok JNull
  | VBool b => Ok (JBool b)
  | VInt n => Ok (JNum (digits n))
  | VFloat lit => let* text := float64.FormatJSON lit in Ok (JNum text)
  | VString s => Ok (JStr s)
  | VList items =>
      let* elems :=
        (fix go (l : list Value) : result (list JSON) :=
           match l with
           | [] => Ok []
           | x :: r => let* j := to_json x in let* js := go r in Ok (j :: js)
           end) items in
      Ok (JArr elems)
  | VMap entries =>
      let* members :=
        (fix go (l : list (string * Value)) : result (list (string * JSON)) :=
           match l with
           | [] => Ok []
           | (k, x) :: r =>
               let* j := to_json x in let* js := go r in Ok ((k, j) :: js)
           end) entries in
      Ok (JObj (sort_keys members))
  | VStruct fields =>
      let* members :=
        (fix go (l : list (string * Value)) : result (list (string * JSON)) :=
           match l with
           | [] => Ok []
           | (k, x) :: r =>
               let* j := to_json x in let* js := go r in Ok ((k, j) :: js)
           end) fields in
      Ok (JObj members)
  end.

(** Decoding a document into an [interface{}]. *)
Fixpoint of_json (j : JSON) : Value :=
  match j with
  | JNull => VNil
  | JBool b => VBool b
  | JNum lit => VFloat lit
  | JStr s => VString s
  | JArr elems => VList (List.map of_json elems)
  | JObj members =>
      VMap ((fix go (acc : list (string * Value)) (l : list (string * JSON))
               : list (string * Value) :=
               match l with
               | [] => acc
               | (k, x) :: r => go (map_set k (of_json x) acc) r
               end) [] members)
  end.

(** [json.Marshal(v)] and [json.MarshalIndent(v, "", indent)] on a dynamic
    value.  Go fails on none of the values of this variant: an error is the
    model's, for a [float64] that [float64.FormatJSON] does not cover. *)
Definition Marshal (v : Value) : result string :=
  let* j := to_json v in Ok (json.write j).

Definition MarshalIndent (v : Value) (indent : string) : result string :=
  let* j := to_json v in Ok (json.write_indent indent 0 j).

(** The limit of the model of [json.Marshal]: an error for a value with a
    number that it does not format. *)
Definition covered (v : Value) : result unit :=
  let* _ := to_json v in Ok tt.

End dyn.

(** A function of a [template.FuncMap], called with its evaluated arguments:
    the arity and type checks that [text/template] performs by reflection are
    part of the function. *)
Definition GoFunc : Type := list Value -> result Value.

Definition FuncMap : Type := list (string * GoFunc).

(** ** Package [text/template/parse]

    The fragment of the template language that is modelled: text, comments,
    trim markers, [{{define "name"}} ... {{end}}], [{{template "name"}}],
    [{{template "name" pipeline}}] and actions [{{pipeline}}] whose commands
    are built from function names, string, integer and boolean constants,
    [nil], the dot and parenthesised pipelines.  Every other construct
    (fields, variables, [if], [range], [with], [block], ...) is reported as a
    parse error marked [unsupported]; Go accepts those. *)

Module parse.

Import strings.

#[warnings="-register-all"]
Inductive Expr : Type :=
| EDot
| ENil
| EBool (b : bool)
| EInt (n : Z)
| EString (s : string)
| EIdent (fn : string)
| EParen (pipe : list (list Expr)).

Definition Command : Type := list Expr.

Definition Pipe : Type := list Command.

Inductive Node : Type :=
| NText (text : string)
| NAction (pipe : Pipe)
| NTemplate (name : string) (pipe : option Pipe).

Definition Tree : Type := list Node.

(** [IsEmptyTree]: nothing but white space. *)
Definition empty_node (n : Node) : bool :=
  match n with
  | NText text => String.eqb (TrimSpace text) ""
  | NAction _ => false
  | NTemplate _ _ => false
  end.

Definition IsEmptyTree (t : Tree) : bool := forallb empty_node t.

Definition unsupported (what : string) : string := "unsupported: " +:+ what.

(** *** Lexer *)

Inductive Token : Type :=
| TIdent (word : string)
| TStr (s : string)
| TInt (n : Z)
| TDot
| TPipe
| TLParen
| TRParen.

Inductive Item : Type :=
| IText (text : string)
| IAction (toks : list Token).

Definition is_space (a : ascii) : bool := json.is_ws a.

Definition is_alpha (a : ascii) : bool :=
  let x := byte a in
  (((65 <=? x) && (x <=? 90)) || ((97 <=? x) && (x <=? 122)) || (x =? 95))%N.

Definition is_alnum (a : ascii) : bool := is_alpha a || json.is_digit a.

(** After an operand: a space, a pipe, a right parenthesis or the right
    delimiter. *)
Definition boundary (s : string) : bool :=
  match s with
  | EmptyString => true
  | String a _ =>
      is_space a || Ascii.eqb a "|" || Ascii.eqb a ")" || HasPrefix s "}}"
  end.

Fixpoint span (p : ascii -> bool) (s : string) : string * string :=
  match s with
  | String a r => if p a then let '(w, rest) := span p r in (String a w, rest)
                  else ("", s)
  | EmptyString => ("", s)
  end.

(** The bytes of an interpreted string constant, after its opening quote,
    with the escapes replaced. *)
Fixpoint lex_quoted (s : string) : result (string * string) :=
  match s with
  | EmptyString => Err "unterminated quoted string"
  | String a r =>
      if Ascii.eqb a json.dquote then Ok ("", r)
      else if Ascii.eqb a "010" then Err "unterminated quoted string"
      else if Ascii.eqb a json.backslash then
        match r with
        | EmptyString => Err "unterminated quoted string"
        | String e r' =>
            let* c :=
              (if Ascii.eqb e json.dquote || Ascii.eqb e json.backslash then Ok e
               else if Ascii.eqb e "n" then Ok "010"%char
               else if Ascii.eqb e "t" then Ok "009"%char
               else if Ascii.eqb e "r" then Ok "013"%char
               else if Ascii.eqb e "a" then Ok "007"%char
               else if Ascii.eqb e "b" then Ok "008"%char
               else if Ascii.eqb e "f" then Ok "012"%char
               else if Ascii.eqb e "v" then Ok "011"%char
               else if Ascii.eqb e "010" then Err "unterminated quoted string"
               else Err (unsupported "escape sequence in a string constant")) in
            let* (body, rest) := lex_quoted r' in
            Ok (String c body, rest)
        end
      else let* (body, rest) := lex_quoted r in Ok (String a body, rest)
  end.

(** The value of an interpreted string constant, after its opening quote,
    as [strconv.Unquote] returns it: the escapes are replaced, and every
    byte that is not part of a UTF-8 encoding is replaced by the encoding
    of U+FFFD. *)
Definition Unquote (s : string) : result (string * string) :=
  let* (body, rest) := lex_quoted s in
  Ok (utf8.coerce (len body) body, rest).

(** The body of a raw string constant; carriage returns are dropped. *)
Fixpoint lex_raw (s : string) : result (string * string) :=
  match s with
  | EmptyString => Err "unterminated raw quoted string"
  | String a r =>
      if Ascii.eqb a "`" then Ok ("", r)
      else
        let* (body, rest) := lex_raw r in
        Ok (if Ascii.eqb a "013" then body else String a body, rest)
  end.

Definition int64_ok (n : Z) : bool :=
  (- 9223372036854775808 <=? n) && (n <=? 9223372036854775807).

Definition lex_number (sign : string) (s : string) : result (Token * string) :=
  let '(ds, rest) := span json.is_digit s in
  let plain := match ds with
               | String "0" (String _ _) => false
               | EmptyString => false
               | _ => true
               end in
  match NilZero.int_of_string (sign +:+ ds) with
  | Some i =>
      if plain && boundary rest && int64_ok (Z.of_int i)
      then Ok (TInt (Z.of_int i), rest)
      else Err (unsupported "number syntax")
  | None => Err (unsupported "number syntax")
  end.

(** The tokens of an action up to its right delimiter; the flag tells
    whether the delimiter carries a trim marker. *)
Fixpoint lex_inside (fuel : nat) (s : string) (acc : list Token)
  : result (list Token * bool * string) :=
  match fuel with
  | O => Err "unclosed action"
  | S fuel' =>
      if HasPrefix s "}}" then Ok (rev acc, false, drop 2 s)
      else
        match s with
        | EmptyString => Err "unclosed action"
        | String a r =>
            let operand (x : result (Token * string)) :=
              let* (tok, rest) := x in
              if boundary rest then lex_inside fuel' rest (tok :: acc)
              else Err "unexpected character after operand" in
            if is_space a then
              if HasPrefix r "-}}" then Ok (rev acc, true, drop 3 r)
              else lex_inside fuel' r acc
            else if Ascii.eqb a "|" then lex_inside fuel' r (TPipe :: acc)
            else if Ascii.eqb a "(" then lex_inside fuel' r (TLParen :: acc)
            else if Ascii.eqb a ")" then operand (Ok (TRParen, r))
            else if Ascii.eqb a json.dquote then
              operand (let* (str, rest) := Unquote r in Ok (TStr str, rest))
            else if Ascii.eqb a "`" then
              operand (let* (str, rest) := lex_raw r in Ok (TStr str, rest))
            else if Ascii.eqb a "." then
              if boundary r then lex_inside fuel' r (TDot :: acc)
              else Err (unsupported "field or number after a dot")
            else if json.is_digit a then operand (lex_number "" s)
            else if Ascii.eqb a "-" || Ascii.eqb a "+" then
              match r with
              | String d _ =>
                  if json.is_digit d
                  then operand (lex_number (if Ascii.eqb a "-" then "-" else "") r)
                  else Err (unsupported "operator")
              | EmptyString => Err "unclosed action"
              end
            else if is_alpha a then
              let '(word, rest) := span is_alnum s in
              operand (Ok (TIdent word, rest))
            else Err (unsupported "character in action")
        end
  end.

(** The text before the first left delimiter, and the input after it. *)
Fixpoint find (delim : string) (s : string) : string * option string :=
  if HasPrefix s delim then ("", Some (drop (len delim) s))
  else match s with
       | EmptyString => ("", None)
       | String a r => let '(text, rest) := find delim r in (String a text, rest)
       end.

Fixpoint trim_left (s : string) : string :=
  match s with
  | String a r => if is_space a then trim_left r else s
  | EmptyString => s
  end.

Definition trim_right (s : string) : string :=
  String.rev (trim_left (String.rev s)).

Definition hasLeftTrimMarker (s : string) : bool :=
  match s with
  | String "-" (String b _) => is_space b
  | _ => false
  end.

Definition hasRightTrimMarker (s : string) : bool :=
  match s with
  | String a (String "-" _) => is_space a
  | _ => false
  end.

Definition text_item (text : string) : list Item :=
  if String.eqb text "" then [] else [IText text].

Fixpoint lex (fuel : nat) (trim : bool) (s : string) : result (list Item) :=
  match fuel with
  | O => Err "unclosed action"
  | S fuel' =>
      let s := if trim then trim_left s else s in
      match find "{{" s with
      | (text, None) => Ok (text_item text)
      | (text, Some r) =>
          let marked := hasLeftTrimMarker r in
          let text := if marked then trim_right text else text in
          let r := if marked then drop 2 r else r in
          if HasPrefix r "/*" then
            match find "*/" (drop 2 r) with
            | (_, None) => Err "unclosed comment"
            | (_, Some r') =>
                if HasPrefix r' "}}" then
                  let* rest := lex fuel' false (drop 2 r') in
                  Ok (text_item text ++ rest)
                else if hasRightTrimMarker r' && HasPrefix (drop 2 r') "}}" then
                  let* rest := lex fuel' true (drop 4 r') in
                  Ok (text_item text ++ rest)
                else Err "comment ends before closing delimiter"
            end
          else
            let* (toks, rtrim, r') := lex_inside (S (len r)) r [] in
            let* rest := lex fuel' rtrim r' in
            Ok (text_item text ++ IAction toks :: rest)
      end
  end.

(** *** Parser *)

Definition keywords : list string :=
  ["block"; "break"; "continue"; "define"; "else"; "end"; "if"; "range";
   "template"; "with"].

Definition is_keyword (w : string) : bool :=
  existsb (String.eqb w) keywords.

Definition literal (e : Expr) : bool :=
  match e with
  | EDot | ENil | EBool _ | EInt _ | EString _ => true
  | EIdent _ | EParen _ => false
  end.

(** Only the first command of a pipeline may start with a constant. *)
Definition checkPipeline (p : Pipe) : result Pipe :=
  match p with
  | [] => Err "missing value for command"
  | _ :: later =>
      if existsb (fun c => match c with e :: _ => literal e | [] => true end) later
      then Err "non executable command in pipeline stage"
      else Ok p
  end.

Definition close_command (cur : list Expr) (cmds : list Command)
  : result (list Command) :=
  match cur with
  | [] => Err "missing value for command"
  | _ => Ok (rev cur :: cmds)
  end.

(** A pipeline, up to the end of the tokens or to a right parenthesis
    (which is left in the input).  [defined] tells which function names
    exist. *)
Fixpoint pipeline (fuel : nat) (defined : string -> bool) (toks : list Token)
  (cur : list Expr) (cmds : list Command) : result (Pipe * list Token) :=
  match fuel with
  | O => Err "unclosed left paren"
  | S fuel' =>
      match toks with
      | [] | TRParen :: _ =>
          let* cmds := close_command cur cmds in
          let* p := checkPipeline (rev cmds) in
          Ok (p, toks)
      | TPipe :: r =>
          let* cmds := close_command cur cmds in
          pipeline fuel' defined r [] cmds
      | TLParen :: r =>
          let* (p, r') := pipeline fuel' defined r [] [] in
          match r' with
          | TRParen :: r'' => pipeline fuel' defined r'' (EParen p :: cur) cmds
          | _ => Err "unclosed left paren"
          end
      | TIdent w :: r =>
          if String.eqb w "true" then pipeline fuel' defined r (EBool true :: cur) cmds
          else if String.eqb w "false" then pipeline fuel' defined r (EBool false :: cur) cmds
          else if String.eqb w "nil" then pipeline fuel' defined r (ENil :: cur) cmds
          else if is_keyword w then Err ("unexpected <" +:+ w +:+ "> in command")
          else if defined w then pipeline fuel' defined r (EIdent w :: cur) cmds
          else Err ("function " +:+ json.quote w +:+ " not defined")
      | TStr str :: r => pipeline fuel' defined r (EString str :: cur) cmds
      | TInt n :: r => pipeline fuel' defined r (EInt n :: cur) cmds
      | TDot :: r => pipeline fuel' defined r (EDot :: cur) cmds
      end
  end.

Definition action_pipeline (defined : string -> bool) (toks : list Token)
  : result Pipe :=
  let* (p, rest) := pipeline (S (length toks)) defined toks [] [] in
  match rest with
  | [] => Ok p
  | _ => Err "unexpected right paren"
  end.

Definition node (defined : string -> bool) (it : Item) : result Node :=
  match it with
  | IText text => Ok (NText text)
  | IAction (TIdent w :: toks) =>
      if String.eqb w "template" then
        match toks with
        | [TStr name] => Ok (NTemplate name None)
        | TStr name :: toks' =>
            let* p := action_pipeline defined toks' in Ok (NTemplate name (Some p))
        | _ => Err "unexpected token in template clause"
        end
      else if is_keyword w then Err (unsupported ("{{" +:+ w +:+ "}}"))
      else let* p := action_pipeline defined (TIdent w :: toks) in Ok (NAction p)
  | IAction toks => let* p := action_pipeline defined toks in Ok (NAction p)
  end.

(** The keyword an action starts with, if any. *)
Definition starts_with (it : Item) (w : string) : option (list Token) :=
  match it with
  | IAction (TIdent w' :: toks) => if String.eqb w' w then Some toks else None
  | _ => None
  end.

(** The nodes of a definition, up to its [{{end}}]. *)
Fixpoint body (defined : string -> bool) (items : list Item) (acc : list Node)
  : result (Tree * list Item) :=
  match items with
  | [] => Err "unexpected EOF"
  | it :: rest =>
      match starts_with it "end", starts_with it "define" with
      | Some [], _ => Ok (rev acc, rest)
      | Some _, _ => Err "unexpected token in end"
      | None, Some _ => Err "unexpected <define> in command"
      | None, None => let* n := node defined it in body defined rest (n :: acc)
      end
  end.

(** [Tree.add]: a non-empty tree is not redefined within one text. *)
Definition add (name : string) (t : Tree) (treeSet : list (string * Tree))
  : result (list (string * Tree)) :=
  match dyn.map_get name treeSet with
  | None => Ok (dyn.map_set name t treeSet)
  | Some old =>
      if IsEmptyTree old then Ok (dyn.map_set name t treeSet)
      else if IsEmptyTree t then Ok treeSet
      else Err ("template: multiple definition of template " +:+ json.quote name)
  end.

Fixpoint top (fuel : nat) (defined : string -> bool) (name : string)
  (items : list Item) (root : list Node) (treeSet : list (string * Tree))
  : result (list (string * Tree)) :=
  match fuel with
  | O => Err "unexpected EOF"
  | S fuel' =>
      match items with
      | [] => add name (rev root) treeSet
      | it :: rest =>
          match starts_with it "define", starts_with it "end" with
          | Some [TStr defname], _ =>
              let* (t, rest') := body defined rest [] in
              let* treeSet := add defname t treeSet in
              top fuel' defined name rest' root treeSet
          | Some _, _ => Err "unexpected token in define clause"
          | None, Some _ => Err "unexpected {{end}}"
          | None, None =>
              let* n := node defined it in
              top fuel' defined name rest (n :: root) treeSet
          end
      end
  end.

(** [parse.Parse(name, text, ...)]: the trees that the text defines, by
    name; the tree of the text itself is among them, under [name]. *)
Definition Parse (name text : string) (defined : string -> bool)
  : result (list (string * Tree)) :=
  let* items := lex (S (len text)) false text in
  top (S (length items)) defined name items [] [].

End parse.

(** ** Package [text/template] *)

Module template.

Import strings.

Import parse.

(** A [*Template]: its name, its own tree, and the name space and
    functions it shares with the templates associated with it.  Go shares
    the name space by reference; here it travels with the value, and a
    call that changes it returns the changed receiver. *)
Record Template : Type := mkTemplate {
  name : string;
  Tree : option parse.Tree;
  tmpl : gmap string parse.Tree;
  execFuncs : FuncMap;
}.

Definition New (name : string) : Template :=
  {| name := name; Tree := None; tmpl := ∅; execFuncs := [] |}.

(** [t.Funcs(funcMap)]: later entries replace earlier ones of that name. *)
Definition Funcs (t : Template) (funcMap : FuncMap) : Template :=
  {| name := name t; Tree := Tree t; tmpl := tmpl t;
     execFuncs := funcMap ++ execFuncs t |}.

Definition builtins : list string :=
  ["and"; "call"; "html"; "index"; "slice"; "js"; "len"; "not"; "or";
   "print"; "printf"; "println"; "urlquery"; "eq"; "ge"; "gt"; "le"; "lt";
   "ne"].

Definition findFunction (funcs : FuncMap) (fn : string) : option GoFunc :=
  dyn.map_get fn funcs.

Definition defined (funcs : FuncMap) (fn : string) : bool :=
  match findFunction funcs fn with
  | Some _ => true
  | None => existsb (String.eqb fn) builtins
  end.

(** [associate]: the tree is installed under its name, unless it is empty
    and the name is already defined. *)
Definition associate (ns : gmap string parse.Tree) (name : string)
  (tree : parse.Tree) : gmap string parse.Tree :=
  match ns !! name with
  | Some _ => if IsEmptyTree tree then ns else <[name := tree]> ns
  | None => <[name := tree]> ns
  end.

Definition AddParseTrees (ns : gmap string parse.Tree)
  (trees : list (string * parse.Tree)) : gmap string parse.Tree :=
  fold_left (fun ns '(name, tree) => associate ns name tree) trees ns.

(** [t.New(name).Parse(text)]: the receiver after the call, and the new
    template or the error.  Nothing is installed when the text does not
    parse. *)
Definition New_Parse (t : Template) (name text : string)
  : Template * result Template :=
  match parse.Parse name text (defined (execFuncs t)) with
  | Err e => (t, Err ("template: " +:+ name +:+ ": " +:+ e))
  | Ok trees =>
      let ns := AddParseTrees (tmpl t) trees in
      ({| name := template.name t; Tree := Tree t; tmpl := ns;
          execFuncs := execFuncs t |},
       Ok {| name := name; Tree := dyn.map_get name trees; tmpl := ns;
             execFuncs := execFuncs t |})
  end.

(** [t.Clone()]: a copy with a name space of its own; it does not fail.
    In Go the copy takes the place of the receiver in its own name space: a
    fragment defined under the name of the receiver is not carried over
    (its entry is the copy, which has no tree).  The model keeps the
    entry; a property that depends on what fragments are bound to is stated
    for name spaces without a fragment of that name. *)
Definition Clone (t : Template) : result Template := Ok t.

Definition Lookup (t : Template) (name : string) : option parse.Tree :=
  tmpl t !! name.

(** *** Execution *)

(** The depth of nested [{{template}}] invocations, on [GOARCH=wasm]. *)
Definition maxExecDepth : nat := 1000.

Definition call (funcs : FuncMap) (fn : string) (args : list Value)
  : result Value :=
  match findFunction funcs fn with
  | Some f =>
      match f args with
      | Ok v => Ok v
      | Err e => Err ("error calling " +:+ fn +:+ ": " +:+ e)
      end
  | None => Err (unsupported ("builtin function " +:+ fn))
  end.

Section Eval.

Variable funcs : FuncMap.

Variable dot : Value.

Definition notAFunction : string := "can't give argument to non-function".

(** [evalArg] on an operand; a pipeline passes the value of each command
    to the next one as its last argument. *)
Fixpoint evalArg (e : Expr) : result Value :=
  match e with
  | EDot => Ok dot
  | ENil => Ok VNil
  | EBool b => Ok (VBool b)
  | EInt n => Ok (VInt n)
  | EString s => Ok (VString s)
  | EIdent fn => call funcs fn []
  | EParen pipe =>
      (fix commands (cmds : list (list Expr)) (final : option Value)
         : result Value :=
         match cmds with
         | [] =>
             match final with
             | Some v => Ok v
             | None => Err "missing value for command"
             end
         | cmd :: rest =>
             let* v :=
               match cmd with
               | [] => Err "missing value for command"
               | EIdent fn :: args =>
                   let* vs :=
                     (fix operands (l : list Expr) : result (list Value) :=
                        match l with
                        | [] => Ok []
                        | a :: r =>
                            let* v := evalArg a in
                            let* vs := operands r in
                            Ok (v :: vs)
                        end) args in
                   call funcs fn (vs ++ option_list final)
               | x :: args =>
                   match args, final with
                   | [], None =>
                       match x with
                       | ENil => Err "nil is not a command"
                       | _ => evalArg x
                       end
                   | _, _ => Err notAFunction
                   end
               end in
             commands rest (Some v)
         end) pipe None
  end.

Definition evalPipeline (p : Pipe) : result Value := evalArg (EParen p).

End Eval.

(** [fmt.Fprint] of a value inside a sequence or a mapping. *)
Fixpoint sprint (v : Value) : result string :=
  match v with
  | VNil => Ok "<nil>"
  | VBool true => Ok "true"
  | VBool false => Ok "false"
  | VInt n => Ok (dyn.digits n)
  | VString s => Ok s
  | VList items =>
      let* body :=
        (fix go (l : list Value) : result string :=
           match l with
           | [] => Ok ""
           | x :: r =>
               let* s := sprint x in
               let* rest := go r in
               Ok (s +:+ match r with [] => "" | _ => " " +:+ rest end)
           end) items in
      Ok ("[" +:+ body +:+ "]")
  | VMap entries =>
      let* pairs :=
        (fix go (l : list (string * Value)) : result (list (string * string)) :=
           match l with
           | [] => Ok []
           | (k, x) :: r =>
               let* s := sprint x in
               let* rest := go r in
               Ok ((k, s) :: rest)
           end) entries in
      Ok ("map[" +:+ Join (List.map (fun '(k, s) => k +:+ ":" +:+ s)
                             (dyn.sort_keys pairs)) " " +:+ "]")
  | VFloat _ => Err (unsupported "printing a float64")
  | VStruct _ => Err (unsupported "printing a struct")
  end.

(** [printValue]: what an action writes. *)
Definition printValue (v : Value) : result string :=
  match v with
  | VNil => Ok "<no value>"
  | _ => sprint v
  end.

(** [walk]: the text written and the error, if any.  [depth] is the number
    of nested template invocations still allowed. *)
Fixpoint walk (depth : nat) (t : Template) (dot : Value) (nodes : parse.Tree)
  : string * option string :=
  (fix list_ (l : list Node) : string * option string :=
     match l with
     | [] => ("", None)
     | n :: rest =>
         let '(out, err) :=
           match n with
           | NText text => (text, None)
           | NAction pipe =>
               match evalPipeline (execFuncs t) dot pipe with
               | Err e => ("", Some e)
               | Ok v =>
                   match printValue v with
                   | Ok s => (s, None)
                   | Err e => ("", Some e)
                   end
               end
           | NTemplate name pipe =>
               match Lookup t name with
               | None => ("", Some ("template " +:+ json.quote name +:+ " not defined"))
               | Some body =>
                   match depth with
                   | O => ("", Some "exceeded maximum template depth (1000)")
                   | S depth' =>
                       match pipe with
                       | None => walk depth' t VNil body
                       | Some p =>
                           match evalPipeline (execFuncs t) dot p with
                           | Err e => ("", Some e)
                           | Ok dot' => walk depth' t dot' body
                           end
                       end
                   end
               end
           end in
         match err with
         | Some e => (out, Some e)
         | None => let '(out', err') := list_ rest in (out +:+ out', err')
         end
     end) nodes.

(** [t.Execute(&buf, data)]: the bytes written to the buffer and the error. *)
Definition Execute (t : Template) (data : Value) : string * option string :=
  match Tree t with
  | None => ("", Some ("template: " +:+ json.quote (name t)
                       +:+ " is an incomplete or empty template"))
  | Some root =>
      match walk maxExecDepth t data root with
      | (out, Some e) =>
          (out, Some ("template: " +:+ name t +:+ ": executing "
                      +:+ json.quote (name t) +:+ ": " +:+ e))
      | r => r
      end
  end.

End template.

(** The part of [text/template] that a plugin calls, as an interface: the
    plugin code below is written against it, and the model above is one
    implementation.  [Data] is the type of the value handed to [Execute]. *)
Class TextTemplate (Data : Type) : Type := {
  Tmpl : Type;
  tmpl_New : string -> Tmpl;
  tmpl_Funcs : Tmpl -> FuncMap -> Tmpl;
  (** [t.New(name).Parse(text)]: the receiver afterwards, and the result *)
  tmpl_New_Parse : Tmpl -> string -> string -> Tmpl * result Tmpl;
  tmpl_Clone : Tmpl -> result Tmpl;
  (** [t.Execute(&buf, data)]: the contents of the buffer, and the error *)
  tmpl_Execute : Tmpl -> Data -> string * option string;
}.

(** The model of [template] as an implementation; [reflect] is the view of
    the data as a dynamic value. *)
Definition GoTextTemplate {Data : Type} (reflect : Data -> Value)
  : TextTemplate Data :=
  {| Tmpl := template.Template;
     tmpl_New := template.New;
     tmpl_Funcs := template.Funcs;
     tmpl_New_Parse := template.New_Parse;
     tmpl_Clone := template.Clone;
     tmpl_Execute := fun t data => template.Execute t (reflect data) |}.

(** ** [json.Unmarshal] into Go types

    A struct is filled member by member, in the order of the document; a
    member is matched with a field by its JSON name, exactly or without
    regard to (ASCII) case; unknown members are skipped; [null] leaves a
    field of a value type unchanged and empties a slice or a map.  The first
    mismatch of types is the error. *)

Module unmarshal.

Import strings.

Definition kind (j : JSON) : string :=
  match j with
  | JNull => "null"
  | JBool _ => "bool"
  | JNum lit => "number " +:+ lit
  | JStr _ => "string"
  | JArr _ => "array"
  | JObj _ => "object"
  end.

Definition typeError (j : JSON) (target : string) : string :=
  "json: cannot unmarshal " +:+ kind j +:+ " into Go value of type " +:+ target.

Definition lower (a : ascii) : ascii :=
  let x := byte a in
  if ((65 <=? x) && (x <=? 90))%N then chr (x + 32) else a.

Fixpoint fold (s : string) : string :=
  match s with
  | EmptyString => ""
  | String a r => String (lower a) (fold r)
  end.

Definition Setter (S : Type) : Type := JSON -> S -> result S.

Definition find_field {S} (fields : list (string * Setter S)) (key : string)
  : option (Setter S) :=
  match dyn.map_get key fields with
  | Some f => Some f
  | None =>
      snd <$> List.find (fun '(k, _) => String.eqb (fold k) (fold key)) fields
  end.

Definition object {S} (target : string) (fields : list (string * Setter S))
  : Setter S :=
  fun j init =>
    match j with
    | JNull => Ok init
    | JObj members =>
        fold_left
          (fun acc '(key, v) =>
             let* st := acc in
             match find_field fields key with
             | Some set => set v st
             | None => Ok st
             end)
          members (Ok init)
    | _ => Err (typeError j target)
    end.

Definition str : Setter string :=
  fun j old =>
    match j with
    | JStr s => Ok s
    | JNull => Ok old
    | _ => Err (typeError j "string")
    end.

Definition boolean : Setter bool :=
  fun j old =>
    match j with
    | JBool b => Ok b
    | JNull => Ok old
    | _ => Err (typeError j "bool")
    end.

(** A number literal without fraction and exponent that fits the type. *)
Definition integer_in (lo hi : Z) (target : string) : Setter Z :=
  fun j old =>
    match j with
    | JNum lit =>
        match NilZero.int_of_string lit with
        | Some i =>
            let n := Z.of_int i in
            if (lo <=? n) && (n <=? hi) then Ok n else Err (typeError j target)
        | None => Err (typeError j target)
        end
    | JNull => Ok old
    | _ => Err (typeError j target)
    end.

Definition int : Setter Z :=
  integer_in (- 9223372036854775808) 9223372036854775807 "int".

Fixpoint each {A} (elem : Setter A) (zero : A) (l : list JSON)
  : result (list A) :=
  match l with
  | [] => Ok []
  | j :: r =>
      let* x := elem j zero in
      let* xs := each elem zero r in
      Ok (x :: xs)
  end.

(** A slice: an array replaces it, [null] makes it nil. *)
Definition slice_of {A} (target : string) (elem : Setter A) (zero : A)
  : Setter (list A) :=
  fun j _ =>
    match j with
    | JArr elems => each elem zero elems
    | JNull => Ok []
    | _ => Err (typeError j target)
    end.

(** [[]byte]: a base64 string, or an array of numbers. *)
Definition bytes : Setter string :=
  fun j _ =>
    match j with
    | JStr s => base64.DecodeString s
    | JArr elems =>
        let* ns := each (integer_in 0 255 "uint8") 0 elems in
        Ok (string_of_list_ascii (List.map (fun n => chr (Z.to_N n)) ns))
    | JNull => Ok ""
    | _ => Err (typeError j "[]uint8")
    end.

(** [map[string]interface{}], as a dynamic value: [VNil] is the nil map;
    an object is merged into the map that is there. *)
Definition any_map : Setter Value :=
  fun j old =>
    match j with
    | JObj members =>
        let start := match old with VMap entries => entries | _ => [] end in
        Ok (VMap (fold_left (fun acc '(k, v) => dyn.map_set k (dyn.of_json v) acc)
                    members start))
    | JNull => Ok VNil
    | _ => Err (typeError j "map[string]interface {}")
    end.

(** [json.Unmarshal(data, &v)]: the syntax of the whole input is checked
    first. *)
Definition Unmarshal {S} (decode : Setter S) (zero : S) (data : string)
  : result S :=
  let* j := json.Parse data in decode j zero.

End unmarshal.

(** ** Messages of the render/v1 contract

    Every plugin declares the same [SourceFile] and the same output message. *)

Record SourceFile : Type := mkSourceFile {
  Name : string;
  Data : string;
}.

Record OutputMessageRenderV1 : Type := mkOutput {
  RenderedFiles : gmap string string;      (* json:"renderedFiles" *)
  ModifiedSourceFiles : list SourceFile;   (* json:"modifiedSourceFiles,omitempty" *)
  Errors : list string;                    (* json:"errors,omitempty" *)
}.

(** What [helm_plugin_main] does: it hands [json.Marshal(output)] to the host
    and returns a status, or it panics (a trap of the Wasm module, with no
    output). *)
Inductive Outcome (Output : Type) : Type :=
| Exit (status : Z) (output : Output)
| Panic (msg : string).

Arguments Exit {Output} status output.

Arguments Panic {Output} msg.

(** The members that [json.Marshal] writes for an output message: a slice
    tagged [omitempty] is left out when its length is 0. *)
Definition json_fields (output : OutputMessageRenderV1) : list string :=
  ["renderedFiles"]
  ++ (if ModifiedSourceFiles output is [] then [] else ["modifiedSourceFiles"])
  ++ (if Errors output is [] then [] else ["errors"]).

Definition decodeSourceFile : unmarshal.Setter SourceFile :=
  unmarshal.object "main.SourceFile"
    [("name", fun j sf => let* v := unmarshal.str j (Name sf) in
                          Ok {| Name := v; Data := Data sf |});
     ("data", fun j sf => let* v := unmarshal.bytes j (Data sf) in
                          Ok {| Name := Name sf; Data := v |})].

Definition decodeSourceFiles : unmarshal.Setter (list SourceFile) :=
  unmarshal.slice_of "[]main.SourceFile" decodeSourceFile
    {| Name := ""; Data := "" |}.

(** Modelled from the spec: the host-side pipeline orchestrator, which is not
    part of this repository.  It hands a stage's [ModifiedSourceFiles] to the
    next stage as its [SourceFiles]; an output without the field requests no
    change. *)
Definition nextSourceFiles (received : list SourceFile)
  (output : OutputMessageRenderV1) : list SourceFile :=
  if bool_decide ("modifiedSourceFiles" ∈ json_fields output)
  then ModifiedSourceFiles output
  else received.

(** * The gotemplate-render plugin ([plugins/gotemplate-render/main.go]) *)

Module GotemplateRender.

Import strings.

Module ReleaseInfo.

Record t : Type := mk {
  Name : string;        (* json:"name" *)
  Namespace : string;   (* json:"namespace" *)
  Revision : Z;         (* json:"revision" *)
  IsInstall : bool;     (* json:"isInstall" *)
  IsUpgrade : bool;     (* json:"isUpgrade" *)
  Service : string;     (* json:"service" *)
}.

Definition zero : t := mk "" "" 0 false false "".

End ReleaseInfo.

Module ChartInfo.

Record t : Type := mk {
  Name : string;          (* json:"name" *)
  Version : string;       (* json:"version" *)
  AppVersion : string;    (* json:"appVersion,omitempty" *)
  Description : string;   (* json:"description,omitempty" *)
  Type_ : string;         (* Type, json:"type,omitempty" *)
  IsRoot : bool;          (* json:"isRoot" *)
}.

Definition zero : t := mk "" "" "" "" "" false.

End ChartInfo.

Module CapabilitiesInfo.

Record t : Type := mk {
  KubeVersion : Value;                 (* map[string]interface{} *)
  APIVersions : option (list string);  (* []string; [None] is nil *)
  HelmVersion : string;
}.

Definition zero : t := mk VNil None "".

End CapabilitiesInfo.

Record InputMessageRenderV1 : Type := mkInput {
  Release : ReleaseInfo.t;
  Values : Value;                        (* map[string]interface{} *)
  Chart : ChartInfo.t;
  Subcharts : Value;                     (* map[string]interface{} *)
  Files : list SourceFile;
  Capabilities : CapabilitiesInfo.t;
  SourceFiles : list SourceFile;
}.

Definition zeroInput : InputMessageRenderV1 :=
  mkInput ReleaseInfo.zero VNil ChartInfo.zero VNil [] CapabilitiesInfo.zero [].

Module TemplateInfo.

Record t : Type := mk {
  Name : string;
  BasePath : string;
}.

End TemplateInfo.

(** [Files]: access to the non-template files. *)
Module Files.

Record t : Type := mk { files : gmap string string }.

Definition Get (f : t) (name : string) : string :=
  match files f !! name with
  | Some data => data
  | None => ""
  end.

Definition GetBytes (f : t) (name : string) : string :=
  default "" (files f !! name).

Definition Lines (f : t) (name : string) : option (list string) :=
  match files f !! name with
  | Some data => Some (SplitByte data "010")
  | None => None
  end.

(** [Glob], [AsConfig] and [AsSecrets] loop over the map with
    [for name, data := range f.files].  Such a loop visits every entry once,
    in an order that Go leaves open: [range] is the order of the visit, and
    the properties hold for every [range] that enumerates the entries. *)
Section Range.

Variable range : gmap string string -> list (string * string).

(** [path.Match(pattern, name)] *)
Variable Match : string -> string -> result bool.

Definition Glob (f : t) (pattern : string) : gmap string string :=
  fold_left
    (fun result '(name, data) =>
       match Match pattern name with
       | Ok true => <[name := data]> result
       | _ => result
       end)
    (range (files f)) ∅.

Definition AsConfig (f : t) : gmap string string :=
  fold_left (fun result '(name, data) => <[path.Base name := data]> result)
    (range (files f)) ∅.

Definition AsSecrets (f : t) : gmap string string :=
  fold_left (fun result '(name, data) => <[path.Base name := data]> result)
    (range (files f)) ∅.

End Range.

(** An order of visit: every entry of the map, once. *)
Definition enumerates (range : gmap string string -> list (string * string))
  : Prop :=
  forall m, range m ≡ₚ map_to_list m.

End Files.

Record TemplateData : Type := mkData {
  data_Release : ReleaseInfo.t;
  data_Values : Value;
  data_Chart : ChartInfo.t;
  data_Subcharts : Value;
  data_Files : Files.t;
  data_Capabilities : CapabilitiesInfo.t;
  data_Template : TemplateInfo.t;
}.

(** *** Decoding the input message, by the [json] tags of the structs *)

Definition decodeRelease : unmarshal.Setter ReleaseInfo.t :=
  let mk := ReleaseInfo.mk in
  unmarshal.object "main.ReleaseInfo"
    [("name", fun j r =>
        let* v := unmarshal.str j (ReleaseInfo.Name r) in
        Ok (mk v (ReleaseInfo.Namespace r) (ReleaseInfo.Revision r)
              (ReleaseInfo.IsInstall r) (ReleaseInfo.IsUpgrade r) (ReleaseInfo.Service r)));
     ("namespace", fun j r =>
        let* v := unmarshal.str j (ReleaseInfo.Namespace r) in
        Ok (mk (ReleaseInfo.Name r) v (ReleaseInfo.Revision r)
              (ReleaseInfo.IsInstall r) (ReleaseInfo.IsUpgrade r) (ReleaseInfo.Service r)));
     ("revision", fun j r =>
        let* v := unmarshal.int j (ReleaseInfo.Revision r) in
        Ok (mk (ReleaseInfo.Name r) (ReleaseInfo.Namespace r) v
              (ReleaseInfo.IsInstall r) (ReleaseInfo.IsUpgrade r) (ReleaseInfo.Service r)));
     ("isInstall", fun j r =>
        let* v := unmarshal.boolean j (ReleaseInfo.IsInstall r) in
        Ok (mk (ReleaseInfo.Name r) (ReleaseInfo.Namespace r) (ReleaseInfo.Revision r)
              v (ReleaseInfo.IsUpgrade r) (ReleaseInfo.Service r)));
     ("isUpgrade", fun j r =>
        let* v := unmarshal.boolean j (ReleaseInfo.IsUpgrade r) in
        Ok (mk (ReleaseInfo.Name r) (ReleaseInfo.Namespace r) (ReleaseInfo.Revision r)
              (ReleaseInfo.IsInstall r) v (ReleaseInfo.Service r)));
     ("service", fun j r =>
        let* v := unmarshal.str j (ReleaseInfo.Service r) in
        Ok (mk (ReleaseInfo.Name r) (ReleaseInfo.Namespace r) (ReleaseInfo.Revision r)
              (ReleaseInfo.IsInstall r) (ReleaseInfo.IsUpgrade r) v))].

Definition decodeChart : unmarshal.Setter ChartInfo.t :=
  let mk := ChartInfo.mk in
  unmarshal.object "main.ChartInfo"
    [("name", fun j c =>
        let* v := unmarshal.str j (ChartInfo.Name c) in
        Ok (mk v (ChartInfo.Version c) (ChartInfo.AppVersion c)
              (ChartInfo.Description c) (ChartInfo.Type_ c) (ChartInfo.IsRoot c)));
     ("version", fun j c =>
        let* v := unmarshal.str j (ChartInfo.Version c) in
        Ok (mk (ChartInfo.Name c) v (ChartInfo.AppVersion c)
              (ChartInfo.Description c) (ChartInfo.Type_ c) (ChartInfo.IsRoot c)));
     ("appVersion", fun j c =>
        let* v := unmarshal.str j (ChartInfo.AppVersion c) in
        Ok (mk (ChartInfo.Name c) (ChartInfo.Version c) v
              (ChartInfo.Description c) (ChartInfo.Type_ c) (ChartInfo.IsRoot c)));
     ("description", fun j c =>
        let* v := unmarshal.str j (ChartInfo.Description c) in
        Ok (mk (ChartInfo.Name c) (ChartInfo.Version c) (ChartInfo.AppVersion c)
              v (ChartInfo.Type_ c) (ChartInfo.IsRoot c)));
     ("type", fun j c =>
        let* v := unmarshal.str j (ChartInfo.Type_ c) in
        Ok (mk (ChartInfo.Name c) (ChartInfo.Version c) (ChartInfo.AppVersion c)
              (ChartInfo.Description c) v (ChartInfo.IsRoot c)));
     ("isRoot", fun j c =>
        let* v := unmarshal.boolean j (ChartInfo.IsRoot c) in
        Ok (mk (ChartInfo.Name c) (ChartInfo.Version c) (ChartInfo.AppVersion c)
              (ChartInfo.Description c) (ChartInfo.Type_ c) v))].

Definition decodeAPIVersions : unmarshal.Setter (option (list string)) :=
  fun j _ =>
    match j with
    | JNull => Ok None
    | _ => let* l := unmarshal.slice_of "[]string" unmarshal.str "" j [] in
           Ok (Some l)
    end.

Definition decodeCapabilities : unmarshal.Setter CapabilitiesInfo.t :=
  let mk := CapabilitiesInfo.mk in
  unmarshal.object "main.CapabilitiesInfo"
    [("kubeVersion", fun j c =>
        let* v := unmarshal.any_map j (CapabilitiesInfo.KubeVersion c) in
        Ok (mk v (CapabilitiesInfo.APIVersions c) (CapabilitiesInfo.HelmVersion c)));
     ("apiVersions", fun j c =>
        let* v := decodeAPIVersions j (CapabilitiesInfo.APIVersions c) in
        Ok (mk (CapabilitiesInfo.KubeVersion c) v (CapabilitiesInfo.HelmVersion c)));
     ("helmVersion", fun j c =>
        let* v := unmarshal.str j (CapabilitiesInfo.HelmVersion c) in
        Ok (mk (CapabilitiesInfo.KubeVersion c) (CapabilitiesInfo.APIVersions c) v))].

Definition decodeInput : unmarshal.Setter InputMessageRenderV1 :=
  unmarshal.object "main.InputMessageRenderV1"
    [("release", fun j i =>
        let* v := decodeRelease j (Release i) in
        Ok (mkInput v (Values i) (Chart i) (Subcharts i) (Files i)
              (Capabilities i) (SourceFiles i)));
     ("values", fun j i =>
        let* v := unmarshal.any_map j (Values i) in
        Ok (mkInput (Release i) v (Chart i) (Subcharts i) (Files i)
              (Capabilities i) (SourceFiles i)));
     ("chart", fun j i =>
        let* v := decodeChart j (Chart i) in
        Ok (mkInput (Release i) (Values i) v (Subcharts i) (Files i)
              (Capabilities i) (SourceFiles i)));
     ("subcharts", fun j i =>
        let* v := unmarshal.any_map j (Subcharts i) in
        Ok (mkInput (Release i) (Values i) (Chart i) v (Files i)
              (Capabilities i) (SourceFiles i)));
     ("files", fun j i =>
        let* v := decodeSourceFiles j (Files i) in
        Ok (mkInput (Release i) (Values i) (Chart i) (Subcharts i) v
              (Capabilities i) (SourceFiles i)));
     ("capabilities", fun j i =>
        let* v := decodeCapabilities j (Capabilities i) in
        Ok (mkInput (Release i) (Values i) (Chart i) (Subcharts i) (Files i)
              v (SourceFiles i)));
     ("sourceFiles", fun j i =>
        let* v := decodeSourceFiles j (SourceFiles i) in
        Ok (mkInput (Release i) (Values i) (Chart i) (Subcharts i) (Files i)
              (Capabilities i) v))].

(** [json.Unmarshal(inputBytes, &input)] *)
Definition json_Unmarshal (inputBytes : string) : result InputMessageRenderV1 :=
  unmarshal.Unmarshal decodeInput zeroInput inputBytes.

(** *** The function library, [funcMap()] *)

(** [fmt.Errorf(msg)] without operands: the text of the error is [msg]
    itself when [msg] has no [%].  In a format with a [%] Go replaces [%%] by
    [%] and every verb by a mark such as [%!v(MISSING)]; that text is not
    modelled, and the error is marked as such. *)
Definition fmt_Errorf (msg : string) : string :=
  if Contains msg "%" then parse.unsupported "format verbs in " +:+ msg
  else msg.

Definition wrongNumber (name : string) (want got : nat) : string :=
  "wrong number of args for " +:+ name +:+ ": want "
  +:+ dyn.digits (Z.of_nat want) +:+ " got " +:+ dyn.digits (Z.of_nat got).

Definition wrongType (expected : string) : string :=
  "wrong type for value; expected " +:+ expected.

(** Arguments are checked against the parameter types when a function is
    called. *)
Definition arg_any (v : Value) : result Value := Ok v.

Definition arg_string (v : Value) : result string :=
  match v with VString s => Ok s | _ => Err (wrongType "string") end.

Definition arg_int (v : Value) : result Z :=
  match v with VInt n => Ok n | _ => Err (wrongType "int") end.

Definition arg_bool (v : Value) : result bool :=
  match v with VBool b => Ok b | _ => Err (wrongType "bool") end.

Definition func1 {A} (name : string) (p1 : Value -> result A)
  (f : A -> result Value) : GoFunc :=
  fun args =>
    match args with
    | [x] => let* a := p1 x in f a
    | _ => Err (wrongNumber name 1 (length args))
    end.

Definition func2 {A B} (name : string) (p1 : Value -> result A)
  (p2 : Value -> result B) (f : A -> B -> result Value) : GoFunc :=
  fun args =>
    match args with
    | [x; y] => let* a := p1 x in let* b := p2 y in f a b
    | _ => Err (wrongNumber name 2 (length args))
    end.

Definition func3 {A B C} (name : string) (p1 : Value -> result A)
  (p2 : Value -> result B) (p3 : Value -> result C)
  (f : A -> B -> C -> result Value) : GoFunc :=
  fun args =>
    match args with
    | [x; y; z] => let* a := p1 x in let* b := p2 y in let* c := p3 z in f a b c
    | _ => Err (wrongNumber name 3 (length args))
    end.

Definition variadic (f : list Value -> Value) : GoFunc := fun args => Ok (f args).

Definition ret_string (r : result string) : result Value :=
  let* s := r in Ok (VString s).

Module funcs.

(** ["default"]: [val == nil || val == ""] *)
Definition default (def val : Value) : Value :=
  match val with
  | VNil => def
  | VString "" => def
  | _ => val
  end.

(** ["required"] *)
Definition required (msg : string) (val : Value) : result Value :=
  match val with
  | VNil => Err (fmt_Errorf msg)
  | VString "" => Err (fmt_Errorf msg)
  | _ => Ok val
  end.

(** ["ternary"] *)
Definition ternary (trueVal falseVal : Value) (cond : bool) : Value :=
  if cond then trueVal else falseVal.

(** ["coalesce"]: the first value that is neither nil nor [""] *)
Fixpoint coalesce (vals : list Value) : Value :=
  match vals with
  | [] => VNil
  | v :: rest =>
      match v with
      | VNil => coalesce rest
      | VString "" => coalesce rest
      | _ => v
      end
  end.

(** ["quote"]: [fmt.Sprintf("%q", s)], on ASCII text *)
Definition quote_byte (a : ascii) : string :=
  let x := byte a in
  let esc (c : string) := String json.backslash c in
  if Ascii.eqb a json.dquote || Ascii.eqb a json.backslash then esc (String a "")
  else if (x =? 7)%N then esc "a"
  else if (x =? 8)%N then esc "b"
  else if (x =? 12)%N then esc "f"
  else if (x =? 10)%N then esc "n"
  else if (x =? 13)%N then esc "r"
  else if (x =? 9)%N then esc "t"
  else if (x =? 11)%N then esc "v"
  else if (x <? 32)%N || (x =? 127)%N then
    esc ("x" +:+ String (json.hex_digit (x / 16)) (String (json.hex_digit (x mod 16)) ""))
  else String a "".

Definition quote (s : string) : result string :=
  if is_ascii s then
    Ok (String json.dquote
          (String.concat "" (List.map quote_byte (list_ascii_of_string s)))
        +:+ String json.dquote "")
  else Err "unsupported: quoting outside ASCII".

(** ["squote"] *)
Definition squote (s : string) : string := "'" +:+ s +:+ "'".

(** ["fail"] *)
Definition fail (msg : string) : result string := Err (fmt_Errorf msg).

(** ["include"]: a placeholder *)
Definition include (name : string) (data : Value) : result string :=
  Err (fmt_Errorf "include not fully implemented in plugin").

(** ["tpl"]: a placeholder *)
Definition tpl (tpl : string) (data : Value) : result string :=
  Err (fmt_Errorf "tpl not fully implemented in plugin").

(** ["toYaml"]: [json.MarshalIndent(v, "", "  ")], and the empty string
    when it fails.  The first line is the model's: a value with a number
    that the model of [json.Marshal] does not format is answered by an
    error, not by a text. *)
Definition toYaml (v : Value) : result string :=
  let* _ := dyn.covered v in
  Ok (match dyn.MarshalIndent v "  " with
      | Err _ => ""
      | Ok data => data
      end).

(** ["toJson"] *)
Definition toJson (v : Value) : result string :=
  let* _ := dyn.covered v in
  Ok (match dyn.Marshal v with
      | Err _ => ""
      | Ok data => data
      end).

(** ["toPrettyJson"] *)
Definition toPrettyJson (v : Value) : result string :=
  let* _ := dyn.covered v in
  Ok (match dyn.MarshalIndent v "  " with
      | Err _ => ""
      | Ok data => data
      end).

Definition prefix_lines (prefix : string) (s : string) : string :=
  Join (List.map (fun line => if String.eqb line "" then line else prefix +:+ line)
          (SplitByte s "010")) json.newline.

(** ["indent"] *)
Definition indent (spaces : Z) (s : string) : result string :=
  let* prefix := Repeat " " spaces in
  Ok (prefix_lines prefix s).

(** ["nindent"] *)
Definition nindent (spaces : Z) (s : string) : result string :=
  let* prefix := Repeat " " spaces in
  Ok (json.newline +:+ prefix_lines prefix s).

(** ["dict"]: [for i := 0; i < len(vals)-1; i += 2] *)
Fixpoint dict_loop (vals : list Value) (result : list (string * Value))
  : list (string * Value) :=
  match vals with
  | k :: v :: rest =>
      dict_loop rest
        (match k with
         | VString key => dyn.map_set key v result
         | _ => result
         end)
  | _ => result
  end.

Definition dict (vals : list Value) : Value := VMap (dict_loop vals []).

(** ["empty"] *)
Definition empty (val : Value) : bool :=
  match val with
  | VNil => true
  | VString v => String.eqb v ""
  | VList v => Nat.eqb (length v) 0
  | VMap v => Nat.eqb (length v) 0
  | _ => false
  end.

(** ["list"] *)
Definition list (items : Datatypes.list Value) : Value := VList items.

End funcs.

Definition not_modelled (name : string) : GoFunc :=
  fun _ => Err ("unsupported: function " +:+ name).

(** [funcMap()], in the order of the source.  [join] and [split] (slices of
    strings) and [printf] ([fmt.Sprintf]) are not modelled: a call of one of
    them is reported as unsupported.  [upper], [lower], [title] and [quote]
    are modelled on ASCII text, [toYaml], [toJson] and [toPrettyJson] on
    values whose numbers have at most 15 digits, and the messages of
    [required] and [fail] when they have no [%]. *)
Definition funcMap : FuncMap :=
  [ ("upper", func1 "upper" arg_string (fun s => ret_string (ToUpper s)));
    ("lower", func1 "lower" arg_string (fun s => ret_string (ToLower s)));
    ("title", func1 "title" arg_string (fun s => ret_string (Title s)));
    ("trim", func1 "trim" arg_string (fun s => Ok (VString (TrimSpace s))));
    ("trimPrefix", func2 "trimPrefix" arg_string arg_string
                     (fun s p => Ok (VString (TrimPrefix s p))));
    ("trimSuffix", func2 "trimSuffix" arg_string arg_string
                     (fun s p => Ok (VString (TrimSuffix s p))));
    ("contains", func2 "contains" arg_string arg_string
                   (fun s sub => Ok (VBool (Contains s sub))));
    ("hasPrefix", func2 "hasPrefix" arg_string arg_string
                    (fun s p => Ok (VBool (HasPrefix s p))));
    ("hasSuffix", func2 "hasSuffix" arg_string arg_string
                    (fun s p => Ok (VBool (HasSuffix s p))));
    ("replace", func3 "replace" arg_string arg_string arg_string
                  (fun s old new => Ok (VString (ReplaceAll s old new))));
    ("repeat", func2 "repeat" arg_string arg_int
                 (fun s count => ret_string (Repeat s count)));
    ("join", not_modelled "join");
    ("split", not_modelled "split");
    ("default", func2 "default" arg_any arg_any
                  (fun def val => Ok (funcs.default def val)));
    ("required", func2 "required" arg_string arg_any funcs.required);
    ("ternary", func3 "ternary" arg_any arg_any arg_bool
                  (fun a b cond => Ok (funcs.ternary a b cond)));
    ("empty", func1 "empty" arg_any (fun v => Ok (VBool (funcs.empty v))));
    ("coalesce", variadic funcs.coalesce);
    ("quote", func1 "quote" arg_string (fun s => ret_string (funcs.quote s)));
    ("squote", func1 "squote" arg_string (fun s => Ok (VString (funcs.squote s))));
    ("printf", not_modelled "printf");
    ("fail", func1 "fail" arg_string (fun msg => ret_string (funcs.fail msg)));
    ("include", func2 "include" arg_string arg_any
                  (fun name data => ret_string (funcs.include name data)));
    ("tpl", func2 "tpl" arg_string arg_any
              (fun tpl data => ret_string (funcs.tpl tpl data)));
    ("toYaml", func1 "toYaml" arg_any (fun v => ret_string (funcs.toYaml v)));
    ("toJson", func1 "toJson" arg_any (fun v => ret_string (funcs.toJson v)));
    ("toPrettyJson", func1 "toPrettyJson" arg_any
                       (fun v => ret_string (funcs.toPrettyJson v)));
    ("indent", func2 "indent" arg_int arg_string
                 (fun n s => ret_string (funcs.indent n s)));
    ("nindent", func2 "nindent" arg_int arg_string
                  (fun n s => ret_string (funcs.nindent n s)));
    ("list", variadic funcs.list);
    ("dict", variadic funcs.dict) ].

(** *** [HelmPluginMain] *)

Definition Output : Type := Outcome OutputMessageRenderV1.

Definition outputError (msg : string) : Output :=
  let output := {| RenderedFiles := ∅; ModifiedSourceFiles := [];
                   Errors := [msg] |} in
  Exit 1 output.

Definition appendError (output : OutputMessageRenderV1) (msg : string)
  : OutputMessageRenderV1 :=
  {| RenderedFiles := RenderedFiles output;
     ModifiedSourceFiles := ModifiedSourceFiles output;
     Errors := Errors output ++ [msg] |}.

Definition setRendered (output : OutputMessageRenderV1) (name rendered : string)
  : OutputMessageRenderV1 :=
  {| RenderedFiles := <[name := rendered]> (RenderedFiles output);
     ModifiedSourceFiles := ModifiedSourceFiles output;
     Errors := Errors output |}.

(** The recognised template extensions of the second pass. *)
Definition hasTemplateSuffix (name : string) : bool :=
  HasSuffix name ".yaml" || HasSuffix name ".yml"
  || HasSuffix name ".tpl" || HasSuffix name ".txt".

Section Main.

(** [json.Unmarshal] and [text/template], as the plugin calls them. *)
Variable Unmarshal : string -> result InputMessageRenderV1.

Context `{TextTemplate TemplateData}.

Definition isPartial (file : SourceFile) : bool :=
  HasPrefix (path.Base (Name file)) "_".

(** The body of the first loop: a partial is parsed into the master
    template. *)
Definition parsePartial (state : Tmpl * OutputMessageRenderV1)
  (file : SourceFile) : Tmpl * OutputMessageRenderV1 :=
  let '(masterTmpl, output) := state in
  if isPartial file then
    match tmpl_New_Parse masterTmpl (Name file) (Data file) with
    | (masterTmpl, Err err) =>
        (masterTmpl,
         appendError output ("parse error in " +:+ Name file +:+ ": " +:+ err))
    | (masterTmpl, Ok _) => (masterTmpl, output)
    end
  else state.

Definition templateData (input : InputMessageRenderV1) (files : Files.t)
  (file : SourceFile) : TemplateData :=
  {| data_Release := Release input;
     data_Values := Values input;
     data_Chart := Chart input;
     data_Subcharts := Subcharts input;
     data_Files := files;
     data_Capabilities := Capabilities input;
     data_Template :=
       {| TemplateInfo.Name := Name file;
          TemplateInfo.BasePath := path.Dir (Name file) |} |}.

(** A regular template is parsed into a clone of the master template and
    executed: the rendered text, or the entry for [output.Errors]. *)
Definition executeFile (input : InputMessageRenderV1) (files : Files.t)
  (masterTmpl : Tmpl) (file : SourceFile) : result string :=
  let data := templateData input files file in
  match tmpl_Clone masterTmpl with
  | Err err => Err ("clone error for " +:+ Name file +:+ ": " +:+ err)
  | Ok tmpl =>
      match snd (tmpl_New_Parse tmpl (Name file) (Data file)) with
      | Err err => Err ("parse error in " +:+ Name file +:+ ": " +:+ err)
      | Ok tmpl =>
          match tmpl_Execute tmpl data with
          | (_, Some err) =>
              Err ("render error in " +:+ Name file +:+ ": " +:+ err)
          | (rendered, None) => Ok rendered
          end
      end
  end.

(** The body of the second loop. *)
Definition renderFile (input : InputMessageRenderV1) (files : Files.t)
  (masterTmpl : Tmpl) (output : OutputMessageRenderV1) (file : SourceFile)
  : OutputMessageRenderV1 :=
  let baseName := path.Base (Name file) in
  (* skip partials *)
  if HasPrefix baseName "_" then output
  (* skip non-template files *)
  else if negb (HasSuffix (Name file) ".yaml")
          && negb (HasSuffix (Name file) ".yml")
          && negb (HasSuffix (Name file) ".tpl")
          && negb (HasSuffix (Name file) ".txt") then output
  else
    match executeFile input files masterTmpl file with
    | Err msg => appendError output msg
    | Ok rendered =>
        (* skip empty output *)
        if String.eqb (TrimSpace rendered) "" then output
        else setRendered output (Name file) rendered
    end.

Definition emptyOutput : OutputMessageRenderV1 :=
  {| RenderedFiles := ∅; ModifiedSourceFiles := []; Errors := [] |}.

Definition filesMap (files : list SourceFile) : gmap string string :=
  fold_left (fun m f => <[Name f := Data f]> m) files ∅.

(** [json.Marshal(output)] does not fail on an output message (a map with
    string keys, strings and byte slices), so the run ends with status 0
    once the input is decoded. *)
Definition HelmPluginMain (inputBytes : string) : Output :=
  match Unmarshal inputBytes with
  | Err err => outputError ("failed to parse input: " +:+ err)
  | Ok input =>
      let output := emptyOutput in
      let files := Files.mk (filesMap (Files input)) in
      let masterTmpl := tmpl_New "gotpl" in
      let masterTmpl := tmpl_Funcs masterTmpl funcMap in
      let '(masterTmpl, output) :=
        fold_left parsePartial (SourceFiles input) (masterTmpl, output) in
      let output :=
        fold_left (renderFile input files masterTmpl) (SourceFiles input)
          output in
      Exit 0 output
  end.

End Main.

(** The view of the template data as a dynamic value: the exported fields,
    under the names that [json.Marshal] writes for them. *)
Definition reflectData (d : TemplateData) : Value :=
  let r := data_Release d in
  let c := data_Chart d in
  let k := data_Capabilities d in
  let optional (name value : string) :=
    if String.eqb value "" then [] else [(name, VString value)] in
  VStruct
    [("Release",
      VStruct [("name", VString (ReleaseInfo.Name r));
               ("namespace", VString (ReleaseInfo.Namespace r));
               ("revision", VInt (ReleaseInfo.Revision r));
               ("isInstall", VBool (ReleaseInfo.IsInstall r));
               ("isUpgrade", VBool (ReleaseInfo.IsUpgrade r));
               ("service", VString (ReleaseInfo.Service r))]);
     ("Values", data_Values d);
     ("Chart",
      VStruct ([("name", VString (ChartInfo.Name c));
                ("version", VString (ChartInfo.Version c))]
               ++ optional "appVersion" (ChartInfo.AppVersion c)
               ++ optional "description" (ChartInfo.Description c)
               ++ optional "type" (ChartInfo.Type_ c)
               ++ [("isRoot", VBool (ChartInfo.IsRoot c))]));
     ("Subcharts", data_Subcharts d);
     ("Files", VStruct []);
     ("Capabilities",
      VStruct [("kubeVersion", CapabilitiesInfo.KubeVersion k);
               ("apiVersions",
                match CapabilitiesInfo.APIVersions k with
                | None => VNil
                | Some l => VList (List.map VString l)
                end);
               ("helmVersion", VString (CapabilitiesInfo.HelmVersion k))]);
     ("Template",
      VStruct [("Name", VString (TemplateInfo.Name (data_Template d)));
               ("BasePath", VString (TemplateInfo.BasePath (data_Template d)))])].

(** The plugin on the models of [encoding/json] and [text/template]. *)
Definition Engine : TextTemplate TemplateData := GoTextTemplate reflectData.

Definition run (inputBytes : string) : Output :=
  @HelmPluginMain json_Unmarshal Engine inputBytes.

End GotemplateRender.

(** An input envelope that carries the given source files and nothing else:
    the JSON text a host would send. *)
Definition envelope (files : list SourceFile) : string :=
  json.write
    (JObj [("sourceFiles",
            JArr (List.map (fun f => JObj [("name", JStr (Name f));
                                           ("data", JStr (base64.EncodeToString (Data f)))])
                    files))]).

(** * The sourcefiles-modifier plugin ([plugins/sourcefiles-modifier/main.go]) *)

Module SourcefilesModifier.

Import strings.

Record InputMessageRenderV1 : Type := mkInput {
  Release : Value;        (* map[string]interface{} *)
  Values : Value;
  Chart : Value;
  Subcharts : Value;
  Files : list SourceFile;
  Capabilities : Value;
  SourceFiles : list SourceFile;
}.

Definition zeroInput : InputMessageRenderV1 := mkInput VNil VNil VNil VNil [] VNil [].

Definition decodeInput : unmarshal.Setter InputMessageRenderV1 :=
  unmarshal.object "main.InputMessageRenderV1"
    [("release", fun j i =>
        let* v := unmarshal.any_map j (Release i) in
        Ok (mkInput v (Values i) (Chart i) (Subcharts i) (Files i)
              (Capabilities i) (SourceFiles i)));
     ("values", fun j i =>
        let* v := unmarshal.any_map j (Values i) in
        Ok (mkInput (Release i) v (Chart i) (Subcharts i) (Files i)
              (Capabilities i) (SourceFiles i)));
     ("chart", fun j i =>
        let* v := unmarshal.any_map j (Chart i) in
        Ok (mkInput (Release i) (Values i) v (Subcharts i) (Files i)
              (Capabilities i) (SourceFiles i)));
     ("subcharts", fun j i =>
        let* v := unmarshal.any_map j (Subcharts i) in
        Ok (mkInput (Release i) (Values i) (Chart i) v (Files i)
              (Capabilities i) (SourceFiles i)));
     ("files", fun j i =>
        let* v := decodeSourceFiles j (Files i) in
        Ok (mkInput (Release i) (Values i) (Chart i) (Subcharts i) v
              (Capabilities i) (SourceFiles i)));
     ("capabilities", fun j i =>
        let* v := unmarshal.any_map j (Capabilities i) in
        Ok (mkInput (Release i) (Values i) (Chart i) (Subcharts i) (Files i)
              v (SourceFiles i)));
     ("sourceFiles", fun j i =>
        let* v := decodeSourceFiles j (SourceFiles i) in
        Ok (mkInput (Release i) (Values i) (Chart i) (Subcharts i) (Files i)
              (Capabilities i) v))].

Definition json_Unmarshal (inputBytes : string) : result InputMessageRenderV1 :=
  unmarshal.Unmarshal decodeInput zeroInput inputBytes.

Definition Output : Type := Outcome OutputMessageRenderV1.

Definition outputError (msg : string) : Output :=
  let output := {| RenderedFiles := ∅; ModifiedSourceFiles := [];
                   Errors := [msg] |} in
  Exit 1 output.

Fixpoint formatActions (actions : list string) : string :=
  match actions with
  | [] => ""
  | action :: rest => "    - " +:+ action +:+ json.newline +:+ formatActions rest
  end.

(** The body of the loop over the source files, at index [i]: the modified
    set and the actions after the file. *)
Definition processFile (i : nat) (file : SourceFile)
  (state : list SourceFile * list string) : list SourceFile * list string :=
  let '(modified, actions) := state in
  match i with
  | 0%nat =>
      (* the first file is removed: it is not added *)
      (modified, actions ++ ["REMOVED: " +:+ Name file])
  | 1%nat =>
      let newContent := "[MODIFIED BY PLUGIN 1]" +:+ json.newline +:+ Data file in
      (modified ++ [{| Name := Name file; Data := newContent |}],
       actions ++ ["MODIFIED: " +:+ Name file])
  | 2%nat =>
      let newName := TrimSuffix (Name file) ".test" +:+ ".renamed" in
      (modified ++ [{| Name := newName; Data := Data file |}],
       actions ++ ["RENAMED: " +:+ Name file +:+ " -> " +:+ newName])
  | _ =>
      (modified ++ [file], actions ++ ["PASSED: " +:+ Name file])
  end.

Fixpoint processFiles (i : nat) (files : list SourceFile)
  (state : list SourceFile * list string) : list SourceFile * list string :=
  match files with
  | [] => state
  | file :: rest => processFiles (S i) rest (processFile i file state)
  end.

Definition newFileName : string := "templates/file4.test".

Definition newFileContent : string :=
  "# This file was added by sourcefiles-modifier plugin" +:+ json.newline
  +:+ "key: added-by-plugin-1".

Definition summary (actions : list string) (received output : nat) : string :=
  "# SourceFiles Modifier Plugin Summary" +:+ json.newline
  +:+ "# This manifest documents the modifications made to source files" +:+ json.newline
  +:+ "apiVersion: v1" +:+ json.newline
  +:+ "kind: ConfigMap" +:+ json.newline
  +:+ "metadata:" +:+ json.newline
  +:+ "  name: sourcefiles-modifier-summary" +:+ json.newline
  +:+ "data:" +:+ json.newline
  +:+ "  actions: |" +:+ json.newline
  +:+ formatActions actions +:+ json.newline
  +:+ "  filesReceived: " +:+ json.quote (dyn.digits (Z.of_nat received)) +:+ json.newline
  +:+ "  filesOutput: " +:+ json.quote (dyn.digits (Z.of_nat output)) +:+ json.newline.

Section Main.

Variable Unmarshal : string -> result InputMessageRenderV1.

Definition HelmPluginMain (inputBytes : string) : Output :=
  match Unmarshal inputBytes with
  | Err err => outputError ("failed to parse input: " +:+ err)
  | Ok input =>
      let '(modified, actions) :=
        processFiles 0 (SourceFiles input) ([], []) in
      let modified :=
        modified ++ [{| Name := newFileName; Data := newFileContent |}] in
      let actions := actions ++ ["ADDED: " +:+ newFileName] in
      let summaryContent :=
        summary actions (length (SourceFiles input)) (length modified) in
      Exit 0 {| RenderedFiles :=
                  <["sourcefiles-modifier-summary.yaml" := summaryContent]> ∅;
                ModifiedSourceFiles := modified;
                Errors := [] |}
  end.

End Main.

Definition run (inputBytes : string) : Output :=
  HelmPluginMain json_Unmarshal inputBytes.

End SourcefilesModifier.

(** * The echo-render plugin *)

Module EchoRender.

Import strings.

Record InputMessage : Type := mkInput {
  Release : Value;        (* map[string]interface{} *)
  Values : Value;
  Chart : Value;
  SourceFiles : list SourceFile;
}.

Definition zeroInput : InputMessage := mkInput VNil VNil VNil [].

Record OutputMessage : Type := mkOutput {
  RenderedFiles : gmap string string;   (* json:"renderedFiles" *)
  Errors : list string;                 (* json:"errors,omitempty" *)
}.

Definition decodeInput : unmarshal.Setter InputMessage :=
  unmarshal.object "main.InputMessage"
    [("release", fun j i =>
        let* v := unmarshal.any_map j (Release i) in
        Ok (mkInput v (Values i) (Chart i) (SourceFiles i)));
     ("values", fun j i =>
        let* v := unmarshal.any_map j (Values i) in
        Ok (mkInput (Release i) v (Chart i) (SourceFiles i)));
     ("chart", fun j i =>
        let* v := unmarshal.any_map j (Chart i) in
        Ok (mkInput (Release i) (Values i) v (SourceFiles i)));
     ("sourceFiles", fun j i =>
        let* v := decodeSourceFiles j (SourceFiles i) in
        Ok (mkInput (Release i) (Values i) (Chart i) v))].

Definition json_Unmarshal (inputData : string) : result InputMessage :=
  unmarshal.Unmarshal decodeInput zeroInput inputData.

Definition Output : Type := Outcome OutputMessage.

(** [setError] writes the message; the caller returns 1. *)
Definition setError (msg : string) : OutputMessage :=
  {| RenderedFiles := ∅; Errors := [msg] |}.

(** [input.Release["name"].(string)] *)
Definition releaseName (release : Value) : string :=
  match release with
  | VMap entries =>
      match dyn.map_get "name" entries with
      | Some (VString name) => name
      | _ => "unknown"
      end
  | _ => "unknown"
  end.

(** [sf.Name[:len(sf.Name)-5]]: the slice expression panics when the bound
    is negative. *)
Definition dropLast5 (name : string) : result string :=
  if (len name <? 5)%nat then
    Err ("runtime error: slice bounds out of range [:"
         +:+ dyn.digits (Z.of_nat (len name) - 5) +:+ "]")
  else Ok (slice name 0 (len name - 5)).

(** The loop over the source files; a panic ends the run. *)
Fixpoint renderFiles (releaseName : string) (files : list SourceFile)
  (rendered : gmap string string) : result (gmap string string) :=
  match files with
  | [] => Ok rendered
  | sf :: rest =>
      let* stem := dropLast5 (Name sf) in
      let outName := stem +:+ ".yaml" in
      let content := "# Rendered by echo-render plugin" +:+ json.newline in
      let content := content +:+ "# Release: " +:+ releaseName +:+ json.newline in
      let content := content +:+ Data sf in
      renderFiles releaseName rest (<[outName := content]> rendered)
  end.

Section Main.

Variable Unmarshal : string -> result InputMessage.

Definition HelmPluginMain (inputData : string) : Output :=
  if (len inputData =? 0)%nat then Exit 1 (setError "no input provided")
  else
    match Unmarshal inputData with
    | Err err => Exit 1 (setError ("failed to parse input: " +:+ err))
    | Ok input =>
        let releaseName := releaseName (Release input) in
        match renderFiles releaseName (SourceFiles input) ∅ with
        | Err panic => Panic panic
        | Ok rendered => Exit 0 {| RenderedFiles := rendered; Errors := [] |}
        end
    end.

End Main.

Definition run (inputData : string) : Output :=
  HelmPluginMain json_Unmarshal inputData.

End EchoRender.

(** * The test-processor plugin (second program of
      [plugins/sourcefiles-modifier/main.go]) *)

Module TestProcessor.

Import strings.

(** The input message is declared field by field as in sourcefiles-modifier,
    and is decoded in the same way. *)
Definition InputMessageRenderV1 : Type := SourcefilesModifier.InputMessageRenderV1.

Definition SourceFiles : InputMessageRenderV1 -> list SourceFile :=
  SourcefilesModifier.SourceFiles.

Definition json_Unmarshal : string -> result InputMessageRenderV1 :=
  SourcefilesModifier.json_Unmarshal.

Definition Output : Type := Outcome OutputMessageRenderV1.

Definition outputError (msg : string) : Output :=
  let output := {| RenderedFiles := ∅; ModifiedSourceFiles := [];
                   Errors := [msg] |} in
  Exit 1 output.

Definition sanitizeName (name : string) : string :=
  let name := ReplaceAll name "/" "-" in
  let name := ReplaceAll name "." "-" in
  let name := TrimPrefix name "templates-" in
  name.

(** The loop of [indentContent] over the lines. *)
Fixpoint writeLines (lines : list string) : string :=
  match lines with
  | [] => ""
  | line :: rest => "    " +:+ line +:+ json.newline +:+ writeLines rest
  end.

Definition indentContent (content : string) : string :=
  let lines := SplitByte content "010" in
  writeLines lines.

Fixpoint formatFileList (files : list string) : string :=
  match files with
  | [] => ""
  | f :: rest => "    - " +:+ f +:+ json.newline +:+ formatFileList rest
  end.

Definition outputName (file : SourceFile) : string :=
  TrimSuffix (Name file) ".test" +:+ ".yaml".

Definition content (file : SourceFile) : string :=
  "# Rendered by test-processor plugin" +:+ json.newline
  +:+ "# Original file: " +:+ Name file +:+ json.newline
  +:+ "apiVersion: v1" +:+ json.newline
  +:+ "kind: ConfigMap" +:+ json.newline
  +:+ "metadata:" +:+ json.newline
  +:+ "  name: " +:+ sanitizeName (Name file) +:+ json.newline
  +:+ "data:" +:+ json.newline
  +:+ "  originalContent: |" +:+ json.newline
  +:+ indentContent (Data file) +:+ json.newline.

(** The body of the loop over the source files: the rendered files and the
    file list after the file. *)
Definition processFile (state : gmap string string * list string)
  (file : SourceFile) : gmap string string * list string :=
  let '(rendered, fileList) := state in
  let fileList := fileList ++ [Name file] in
  (<[outputName file := content file]> rendered, fileList).

Definition summaryName : string := "test-processor-summary.yaml".

Definition summaryContent (received : nat) (fileList : list string) : string :=
  "# Test Processor Plugin Summary" +:+ json.newline
  +:+ "# Documents what files were received from the previous plugin" +:+ json.newline
  +:+ "apiVersion: v1" +:+ json.newline
  +:+ "kind: ConfigMap" +:+ json.newline
  +:+ "metadata:" +:+ json.newline
  +:+ "  name: test-processor-summary" +:+ json.newline
  +:+ "data:" +:+ json.newline
  +:+ "  filesReceived: " +:+ json.quote (dyn.digits (Z.of_nat received)) +:+ json.newline
  +:+ "  fileList: |" +:+ json.newline
  +:+ formatFileList fileList +:+ json.newline.

Section Main.

Variable Unmarshal : string -> result InputMessageRenderV1.

Definition HelmPluginMain (inputBytes : string) : Output :=
  match Unmarshal inputBytes with
  | Err err => outputError ("failed to parse input: " +:+ err)
  | Ok input =>
      let '(rendered, fileList) :=
        fold_left processFile (SourceFiles input) (∅, []) in
      let summaryContent :=
        summaryContent (length (SourceFiles input)) fileList in
      Exit 0 {| RenderedFiles := <[summaryName := summaryContent]> rendered;
                ModifiedSourceFiles := [];
                Errors := [] |}
  end.

End Main.

Definition run (inputBytes : string) : Output :=
  HelmPluginMain json_Unmarshal inputBytes.

End TestProcessor.

(** * The globally-installed-fallback plugin *)

Module GloballyInstalledFallback.

Import strings.

(** The input message is declared field by field as in sourcefiles-modifier,
    and is decoded in the same way. *)
Definition InputMessageRenderV1 : Type := SourcefilesModifier.InputMessageRenderV1.

Definition SourceFiles : InputMessageRenderV1 -> list SourceFile :=
  SourcefilesModifier.SourceFiles.

Definition json_Unmarshal : string -> result InputMessageRenderV1 :=
  SourcefilesModifier.json_Unmarshal.

Definition Output : Type := Outcome OutputMessageRenderV1.

Definition outputError (msg : string) : Output :=
  let output := {| RenderedFiles := ∅; ModifiedSourceFiles := [];
                   Errors := [msg] |} in
  Exit 1 output.

Definition resultName : string := "fallback-test-result.yaml".

Definition content (file : SourceFile) : string :=
  "# Rendered by globally-installed-fallback plugin" +:+ json.newline
  +:+ "# This proves the fallback to non-versioned path worked" +:+ json.newline
  +:+ "apiVersion: v1" +:+ json.newline
  +:+ "kind: ConfigMap" +:+ json.newline
  +:+ "metadata:" +:+ json.newline
  +:+ "  name: fallback-test-result" +:+ json.newline
  +:+ "data:" +:+ json.newline
  +:+ q "  plugin: 'globally-installed-fallback'" +:+ json.newline
  +:+ q "  version: '0.1.0'" +:+ json.newline
  +:+ q "  fallbackWorked: 'true'" +:+ json.newline
  +:+ q "  sourceFile: '" +:+ Name file +:+ q "'" +:+ json.newline
  +:+ "  originalContent: |" +:+ json.newline
  +:+ "    " +:+ Data file +:+ json.newline.

(** The body of the loop over the source files. *)
Definition processFile (rendered : gmap string string) (file : SourceFile)
  : gmap string string :=
  <[resultName := content file]> rendered.

Section Main.

Variable Unmarshal : string -> result InputMessageRenderV1.

Definition HelmPluginMain (inputBytes : string) : Output :=
  match Unmarshal inputBytes with
  | Err err => outputError ("failed to parse input: " +:+ err)
  | Ok input =>
      let rendered := fold_left processFile (SourceFiles input) ∅ in
      Exit 0 {| RenderedFiles := rendered;
                ModifiedSourceFiles := [];
                Errors := [] |}
  end.

End Main.

Definition run (inputBytes : string) : Output :=
  HelmPluginMain json_Unmarshal inputBytes.

End GloballyInstalledFallback.

(** * The Pkl render plugin *)

Module PklRender.

Import strings.

(** [ReleaseInfo] and [ChartInfo] are declared field by field as in
    gotemplate-render, whose records and decoders are used. *)
Module SubchartInfo.

Record t : Type := mk {
  Name : string;      (* json:"name" *)
  Version : string;   (* json:"version,omitempty" *)
  Enabled : bool;     (* json:"enabled" *)
}.

Definition zero : t := mk "" "" false.

End SubchartInfo.

Module KubeVersionInfo.

Record t : Type := mk {
  Version : string;   (* json:"version" *)
  Major : string;     (* json:"major" *)
  Minor : string;     (* json:"minor" *)
}.

Definition zero : t := mk "" "" "".

End KubeVersionInfo.

Module CapabilitiesInfo.

Record t : Type := mk {
  KubeVersion : KubeVersionInfo.t;
  APIVersions : option (list string);  (* []string; [None] is nil *)
  HelmVersion : string;
}.

Definition zero : t := mk KubeVersionInfo.zero None "".

End CapabilitiesInfo.

Record InputMessageRenderV1 : Type := mkInput {
  Release : GotemplateRender.ReleaseInfo.t;
  Values : Value;                        (* map[string]interface{} *)
  Chart : GotemplateRender.ChartInfo.t;
  Subcharts : option (list (string * SubchartInfo.t));  (* [None] is nil *)
  Files : list SourceFile;
  Capabilities : CapabilitiesInfo.t;
  SourceFiles : list SourceFile;
}.

Definition zeroInput : InputMessageRenderV1 :=
  mkInput GotemplateRender.ReleaseInfo.zero VNil GotemplateRender.ChartInfo.zero None [] CapabilitiesInfo.zero [].

Record OutputMessageRenderV1 : Type := mkOutput {
  RenderedFiles : gmap string string;   (* json:"renderedFiles" *)
  Errors : list string;                 (* json:"errors,omitempty" *)
}.

Definition decodeSubchart : unmarshal.Setter SubchartInfo.t :=
  let mk := SubchartInfo.mk in
  unmarshal.object "main.SubchartInfo"
    [("name", fun j s =>
        let* v := unmarshal.str j (SubchartInfo.Name s) in
        Ok (mk v (SubchartInfo.Version s) (SubchartInfo.Enabled s)));
     ("version", fun j s =>
        let* v := unmarshal.str j (SubchartInfo.Version s) in
        Ok (mk (SubchartInfo.Name s) v (SubchartInfo.Enabled s)));
     ("enabled", fun j s =>
        let* v := unmarshal.boolean j (SubchartInfo.Enabled s) in
        Ok (mk (SubchartInfo.Name s) (SubchartInfo.Version s) v))].

(** [map[string]SubchartInfo]: an object is merged into the map that is
    there, every member decoded into a fresh element; [null] makes it nil. *)
Definition decodeSubcharts
  : unmarshal.Setter (option (list (string * SubchartInfo.t))) :=
  fun j old =>
    match j with
    | JObj members =>
        let* m :=
          fold_left
            (fun acc '(k, v) =>
               let* m := acc in
               let* s := decodeSubchart v SubchartInfo.zero in
               Ok (dyn.map_set k s m))
            members (Ok (default [] old)) in
        Ok (Some m)
    | JNull => Ok None
    | _ => Err (unmarshal.typeError j "map[string]main.SubchartInfo")
    end.

Definition decodeKubeVersion : unmarshal.Setter KubeVersionInfo.t :=
  let mk := KubeVersionInfo.mk in
  unmarshal.object "main.KubeVersionInfo"
    [("version", fun j k =>
        let* v := unmarshal.str j (KubeVersionInfo.Version k) in
        Ok (mk v (KubeVersionInfo.Major k) (KubeVersionInfo.Minor k)));
     ("major", fun j k =>
        let* v := unmarshal.str j (KubeVersionInfo.Major k) in
        Ok (mk (KubeVersionInfo.Version k) v (KubeVersionInfo.Minor k)));
     ("minor", fun j k =>
        let* v := unmarshal.str j (KubeVersionInfo.Minor k) in
        Ok (mk (KubeVersionInfo.Version k) (KubeVersionInfo.Major k) v))].

Definition decodeCapabilities : unmarshal.Setter CapabilitiesInfo.t :=
  let mk := CapabilitiesInfo.mk in
  unmarshal.object "main.CapabilitiesInfo"
    [("kubeVersion", fun j c =>
        let* v := decodeKubeVersion j (CapabilitiesInfo.KubeVersion c) in
        Ok (mk v (CapabilitiesInfo.APIVersions c) (CapabilitiesInfo.HelmVersion c)));
     ("apiVersions", fun j c =>
        let* v := GotemplateRender.decodeAPIVersions j (CapabilitiesInfo.APIVersions c) in
        Ok (mk (CapabilitiesInfo.KubeVersion c) v (CapabilitiesInfo.HelmVersion c)));
     ("helmVersion", fun j c =>
        let* v := unmarshal.str j (CapabilitiesInfo.HelmVersion c) in
        Ok (mk (CapabilitiesInfo.KubeVersion c) (CapabilitiesInfo.APIVersions c) v))].

Definition decodeInput : unmarshal.Setter InputMessageRenderV1 :=
  unmarshal.object "main.InputMessageRenderV1"
    [("release", fun j i =>
        let* v := GotemplateRender.decodeRelease j (Release i) in
        Ok (mkInput v (Values i) (Chart i) (Subcharts i) (Files i)
              (Capabilities i) (SourceFiles i)));
     ("values", fun j i =>
        let* v := unmarshal.any_map j (Values i) in
        Ok (mkInput (Release i) v (Chart i) (Subcharts i) (Files i)
              (Capabilities i) (SourceFiles i)));
     ("chart", fun j i =>
        let* v := GotemplateRender.decodeChart j (Chart i) in
        Ok (mkInput (Release i) (Values i) v (Subcharts i) (Files i)
              (Capabilities i) (SourceFiles i)));
     ("subcharts", fun j i =>
        let* v := decodeSubcharts j (Subcharts i) in
        Ok (mkInput (Release i) (Values i) (Chart i) v (Files i)
              (Capabilities i) (SourceFiles i)));
     ("files", fun j i =>
        let* v := decodeSourceFiles j (Files i) in
        Ok (mkInput (Release i) (Values i) (Chart i) (Subcharts i) v
              (Capabilities i) (SourceFiles i)));
     ("capabilities", fun j i =>
        let* v := decodeCapabilities j (Capabilities i) in
        Ok (mkInput (Release i) (Values i) (Chart i) (Subcharts i) (Files i)
              v (SourceFiles i)));
     ("sourceFiles", fun j i =>
        let* v := decodeSourceFiles j (SourceFiles i) in
        Ok (mkInput (Release i) (Values i) (Chart i) (Subcharts i) (Files i)
              (Capabilities i) v))].

Definition json_Unmarshal (inputBytes : string) : result InputMessageRenderV1 :=
  unmarshal.Unmarshal decodeInput zeroInput inputBytes.

Definition Output : Type := Outcome OutputMessageRenderV1.

Definition outputError (msg : string) : Output :=
  let output := {| RenderedFiles := ∅; Errors := [msg] |} in
  Exit 1 output.

(** [m[key]] on a [map[string]interface{}]; the nil map has no entries. *)
Definition index (m : Value) (key : string) : option Value :=
  match m with
  | VMap entries => dyn.map_get key entries
  | _ => None
  end.

Section Main.

Variable Unmarshal : string -> result InputMessageRenderV1.

(** [fmt.Sprintf("%v", v)] on a decoded value *)
Variable Sprintv : Value -> string.

Definition renderPklFile (file : SourceFile) (input : InputMessageRenderV1)
  : result string :=
  let content := Data file in
  let content :=
    ReplaceAll content "${release.name}"
      (GotemplateRender.ReleaseInfo.Name (Release input)) in
  let content :=
    ReplaceAll content "${release.namespace}"
      (GotemplateRender.ReleaseInfo.Namespace (Release input)) in
  let content :=
    ReplaceAll content "${chart.name}"
      (GotemplateRender.ChartInfo.Name (Chart input)) in
  let content :=
    ReplaceAll content "${chart.version}"
      (GotemplateRender.ChartInfo.Version (Chart input)) in
  let content :=
    match index (Values input) "replicas" with
    | Some replicas => ReplaceAll content "${values.replicas}" (Sprintv replicas)
    | None => content
    end in
  let content :=
    match index (Values input) "image" with
    | Some (VMap image) =>
        let content :=
          match dyn.map_get "repository" image with
          | Some repo =>
              ReplaceAll content "${values.image.repository}" (Sprintv repo)
          | None => content
          end in
        let content :=
          match dyn.map_get "tag" image with
          | Some tag => ReplaceAll content "${values.image.tag}" (Sprintv tag)
          | None => content
          end in
        content
    | _ => content
    end in
  Ok content.

(** The body of the loop over the source files. *)
Definition processFile (input : InputMessageRenderV1)
  (output : OutputMessageRenderV1) (file : SourceFile) : OutputMessageRenderV1 :=
  (* only process .pkl files *)
  if negb (HasSuffix (Name file) ".pkl") then output
  else
    match renderPklFile file input with
    | Err err =>
        {| RenderedFiles := RenderedFiles output;
           Errors := Errors output
                     ++ ["error rendering " +:+ Name file +:+ ": " +:+ err] |}
    | Ok rendered =>
        let outputName := TrimSuffix (Name file) ".pkl" +:+ ".yaml" in
        {| RenderedFiles := <[outputName := rendered]> (RenderedFiles output);
           Errors := Errors output |}
    end.

Definition HelmPluginMain (inputBytes : string) : Output :=
  match Unmarshal inputBytes with
  | Err err => outputError ("failed to parse input: " +:+ err)
  | Ok input =>
      let output := {| RenderedFiles := ∅; Errors := [] |} in
      let output := fold_left (processFile input) (SourceFiles input) output in
      Exit 0 output
  end.

End Main.

Definition run (Sprintv : Value -> string) (inputBytes : string) : Output :=
  HelmPluginMain json_Unmarshal Sprintv inputBytes.

End PklRender.

(** * Vocabulary of the properties *)

(** ** The two passes of gotemplate-render, file by file *)

Section RenderVocabulary.
Import strings GotemplateRender.
Context `{TT : TextTemplate TemplateData}.

(** The master template after the first pass, and what the second pass
    does with one file. *)
Definition master0 : Tmpl := tmpl_Funcs (tmpl_New "gotpl") funcMap.

Definition register (masterTmpl : Tmpl) (file : SourceFile) : Tmpl :=
  if isPartial file
  then fst (tmpl_New_Parse masterTmpl (Name file) (Data file))
  else masterTmpl.

Definition registerError (masterTmpl : Tmpl) (file : SourceFile)
  : list string :=
  if isPartial file then
    match snd (tmpl_New_Parse masterTmpl (Name file) (Data file)) with
    | Err err => ["parse error in " +:+ Name file +:+ ": " +:+ err]
    | Ok _ => []
    end
  else [].

Fixpoint registerErrors (masterTmpl : Tmpl) (files : list SourceFile)
  : list string :=
  match files with
  | [] => []
  | file :: rest =>
      registerError masterTmpl file ++ registerErrors (register masterTmpl file) rest
  end.

Definition masterOf (input : InputMessageRenderV1) : Tmpl :=
  fold_left register (SourceFiles input) master0.

Definition filesOf (input : InputMessageRenderV1) : Files.t :=
  Files.mk (filesMap (Files input)).

(** A primary file: not a partial, and with a template extension. *)
Definition isPrimary (file : SourceFile) : bool :=
  negb (isPartial file) && hasTemplateSuffix (Name file).

(** The text a primary file renders to, or its error entry. *)
Definition outcome (input : InputMessageRenderV1) (file : SourceFile)
  : result string :=
  executeFile input (filesOf input) (masterOf input) file.

Definition whitespace (s : string) : bool := String.eqb (TrimSpace s) "".

(** What a file contributes to [RenderedFiles] and to [Errors]. *)
Definition emitted (input : InputMessageRenderV1) (file : SourceFile)
  : option string :=
  if isPrimary file then
    match outcome input file with
    | Ok rendered => if whitespace rendered then None else Some rendered
    | Err _ => None
    end
  else None.

Definition failure (input : InputMessageRenderV1) (file : SourceFile)
  : list string :=
  if isPrimary file then
    match outcome input file with
    | Ok _ => []
    | Err msg => [msg]
    end
  else [].

Definition emit (input : InputMessageRenderV1) (m : gmap string string)
  (file : SourceFile) : gmap string string :=
  match emitted input file with
  | Some rendered => <[Name file := rendered]> m
  | None => m
  end.

Definition withSourceFiles (input : InputMessageRenderV1)
  (files : list SourceFile) : InputMessageRenderV1 :=
  mkInput (Release input) (Values input) (Chart input) (Subcharts input)
    (Files input) (Capabilities input) files.

(** A primary file renders to white space only. *)
Definition rendersBlank (input : InputMessageRenderV1) (f : SourceFile) : Prop :=
  isPrimary f = true ->
  exists rendered, outcome input f = Ok rendered /\ TrimSpace rendered = "".

End RenderVocabulary.

(** ** The plugin on the model of [text/template] *)

Section ModelVocabulary.
Import strings parse template GotemplateRender.
Local Existing Instance Engine.






Definition inputOf (files : list SourceFile) : InputMessageRenderV1 :=
  withSourceFiles zeroInput files.



End ModelVocabulary.

(** ** Predicates on values and names, and the inputs of the scenarios *)

Section ScenarioInputs.
Import strings.

(** A value that [default] replaces: nil or the empty string. *)
Definition nilOrEmpty (val : Value) : bool :=
  match val with
  | VNil => true
  | VString s => String.eqb s ""
  | _ => false
  end.



Definition long_enough (sf : SourceFile) : Prop := (5 <= len (Name sf))%nat.

Definition too_short (sf : SourceFile) : Prop := (len (Name sf) < 5)%nat.

Definition handoff_files : list SourceFile :=
  [ {| Name := "templates/a.test"; Data := "a: 1" |};
    {| Name := "templates/b.test"; Data := "b: 2" |};
    {| Name := "templates/c.test"; Data := "c: 3" |} ].

(** Two partials that define the fragment X, and a template that invokes it. *)
Definition partial_a : SourceFile :=
  {| Name := "templates/_a.tpl"; Data := q "{{define 'X'}}from a{{end}}" |}.


Definition main_template : SourceFile :=
  {| Name := "templates/main.yaml"; Data := q "{{template 'X' .}}" |}.





(** Two source files of one name: the first renders a manifest, the second
    white space only. *)
Definition manifest_file : SourceFile :=
  {| Name := "templates/a.yaml"; Data := "kind: ConfigMap" |}.

Definition blank_same_name : SourceFile :=
  {| Name := "templates/a.yaml"; Data := "  " +:+ json.newline |}.

(** A file of directives that leave blank lines only. *)
Definition blank_file : SourceFile :=
  {| Name := "templates/blank.yaml";
     Data := q "{{/* nothing to emit */}}" +:+ json.newline
             +:+ q "{{define 'unused'}}text{{end}}" +:+ json.newline |}.


End ScenarioInputs.

(** ** Vocabulary of the further properties *)

Section FurtherVocabulary.

Import strings.

(** The arguments of a call of [dict] that lists the given pairs. *)
Fixpoint pairs_args (pairs : list (string * Value)) : list Value :=
  match pairs with
  | [] => []
  | (k, v) :: rest => VString k :: v :: pairs_args rest
  end.

(** In a loop that writes into a map, [entry a] is what the element [a]
    writes: a key and a value, or nothing.  [writes entry k a]: the element
    writes under the key [k]. *)
Definition writes {A : Type} (entry : A -> option (string * string))
  (k : string) (a : A) : Prop :=
  exists v, entry a = Some (k, v).

(** The output name and the content that echo-render writes for a source
    file. *)
Definition echoName (name : string) : string :=
  slice name 0 (len name - 5) +:+ ".yaml".

Definition echoContent (releaseName : string) (sf : SourceFile) : string :=
  let content := "# Rendered by echo-render plugin" +:+ json.newline in
  let content := content +:+ "# Release: " +:+ releaseName +:+ json.newline in
  content +:+ Data sf.

(** What the loop of the Pkl plugin writes for a source file. *)
Definition pklEntry (Sprintv : Value -> string)
  (input : PklRender.InputMessageRenderV1) (file : SourceFile)
  : option (string * string) :=
  if HasSuffix (Name file) ".pkl" then
    match PklRender.renderPklFile Sprintv file input with
    | Ok rendered => Some (TrimSuffix (Name file) ".pkl" +:+ ".yaml", rendered)
    | Err _ => None
    end
  else None.

(** Inputs of the scenarios: static files of a chart, two of one name. *)
Definition asset_files : list SourceFile :=
  [ {| Name := "config/a.txt"; Data := "one" |};
    {| Name := "config/b.txt"; Data := "two" +:+ json.newline +:+ "three" |};
    {| Name := "config/a.txt"; Data := "four" |} ].

Definition assets_input : GotemplateRender.InputMessageRenderV1 :=
  GotemplateRender.mkInput GotemplateRender.ReleaseInfo.zero VNil
    GotemplateRender.ChartInfo.zero VNil asset_files
    GotemplateRender.CapabilitiesInfo.zero [].

Definition assets : GotemplateRender.Files.t :=
  GotemplateRender.Files.mk
    {[ "config/a.txt" := "one"; "other/b.txt" := "two" ]}.

(** [path.Match] for a pattern without special characters: a name matches
    when it is the pattern. *)
Definition Match_literal (pattern name : string) : result bool :=
  Ok (String.eqb pattern name).

(** Four source files for the file transform stage, and the output of the
    stage on three. *)
Definition four_files : list SourceFile :=
  handoff_files ++ [ {| Name := "templates/d.test"; Data := "d: 4" |} ].

Definition handoff_output : OutputMessageRenderV1 :=
  match SourcefilesModifier.run (envelope handoff_files) with
  | Exit _ output => output
  | Panic _ =>
      {| RenderedFiles := ∅; ModifiedSourceFiles := []; Errors := [] |}
  end.

(** Two source files that test-processor writes under one name. *)
Definition colliding_files : list SourceFile :=
  [ {| Name := "templates/x.test"; Data := "first" |};
    {| Name := "templates/x"; Data := "second" |} ].

(** A Pkl file without placeholders, and the envelope of a release. *)
Definition plain_pkl : SourceFile :=
  {| Name := "templates/app.pkl"; Data := "replicas = 1" |}.

Definition pkl_envelope : string :=
  q "{'release': {'name': 'demo', 'namespace': 'prod'}, 'sourceFiles': [{'name': 'templates/app.pkl', 'data': 'cmVwbGljYXMgPSAx'}, {'name': 'notes.txt', 'data': ''}]}".

Definition pkl_input : PklRender.InputMessageRenderV1 :=
  PklRender.mkInput
    (GotemplateRender.ReleaseInfo.mk "demo" "prod" 0 false false "")
    VNil GotemplateRender.ChartInfo.zero None []
    PklRender.CapabilitiesInfo.zero
    [plain_pkl; {| Name := "notes.txt"; Data := "" |}].

End FurtherVocabulary.

(** * Properties *)

(** ** Checks of the library models on small inputs *)

Example Base_helpers : path.Base "templates/_helpers.tpl" = "_helpers.tpl".
Proof. reflexivity. Qed.

Example Base_dir : path.Base "a/b/" = "b".
Proof. reflexivity. Qed.

Example Dir_templates : path.Dir "templates/sub/x.yaml" = "templates/sub".
Proof. reflexivity. Qed.

Example Dir_plain : path.Dir "x.yaml" = ".".
Proof. reflexivity. Qed.

Example Dir_root : path.Dir "/x" = "/".
Proof. reflexivity. Qed.

Example Dir_dotdot : path.Dir "a/../../b/c" = "../b".
Proof. reflexivity. Qed.

Example TrimSpace_ex : strings.TrimSpace (String "010" "  a b " +:+ String "009" "") = "a b".
Proof. reflexivity. Qed.

Example TrimSuffix_ex : strings.TrimSuffix "templates/c.test" ".test" = "templates/c".
Proof. reflexivity. Qed.

Example utf8_euro : utf8.encode 8364 = String (bytestr.chr 226) (String (bytestr.chr 130) (String (bytestr.chr 172) "")).
Proof. reflexivity. Qed.

Example utf8_euro_size : utf8.rune_size (utf8.encode 8364 +:+ "x") = Some 3%nat.
Proof. reflexivity. Qed.

Example utf8_bad : utf8.rune_size (String (bytestr.chr 133) "x") = None.
Proof. reflexivity. Qed.

Example base64_enc : base64.EncodeToString "hello" = "aGVsbG8=".
Proof. reflexivity. Qed.

Example base64_dec : base64.DecodeString "aGVsbG8=" = Ok "hello".
Proof. reflexivity. Qed.

Example base64_dec_bad : base64.DecodeString "aGVsbG8" = Err base64.corrupt.
Proof. reflexivity. Qed.

Example json_parse_ex :
  json.Parse (q "{ 'a' : [1, -2.5e3, true, null], 'b': 'x\ny\u00e9' }")
  = Ok (JObj [("a", JArr [JNum "1"; JNum "-2.5e3"; JBool true; JNull]);
              ("b", JStr ("x" +:+ json.newline +:+ "y" +:+ utf8.encode 233))]).
Proof. reflexivity. Qed.

Example json_parse_truncated : json.Parse (q "{'sourceFiles': [") = Err json.eof.
Proof. reflexivity. Qed.

Example json_write_ex :
  json.write (JObj [("a", JArr [JNum "1"; JStr "<x>"]); ("b", JObj [])])
  = q "{'a':[1,'\u003cx\u003e'],'b':{}}".
Proof. reflexivity. Qed.

Example marshal_indent_ex :
  dyn.MarshalIndent (VMap [("b", VList [VInt 1; VString "x"]); ("a", VNil)]) "  "
  = Ok (q "{
  'a': null,
  'b': [
    1,
    'x'
  ]
}").
Proof. reflexivity. Qed.

Example FormatJSON_ex :
  List.map float64.FormatJSON
    ["1.50"; "1E2"; "1.0"; "-0"; "0.000001"; "0.0000001"; "12.5e-9";
     "100000000000000000000"; "1e21"; "-12.345e3"]
  = [Ok "1.5"; Ok "100"; Ok "1"; Ok "-0"; Ok "0.000001"; Ok "1e-7";
     Ok "1.25e-8"; Ok "100000000000000000000"; Ok "1e+21"; Ok "-12345"].
Proof. vm_compute. reflexivity. Qed.

Example marshal_float_ex :
  dyn.Marshal (VList [VFloat "2.50"; VFloat "1e3"; VInt 7])
  = Ok "[2.5,1000,7]".
Proof. vm_compute. reflexivity. Qed.

Example Unquote_invalid_ex :
  parse.Unquote (String (bytestr.chr 255) (q "a' rest"))
  = Ok (utf8.RuneError +:+ "a", " rest").
Proof. vm_compute. reflexivity. Qed.

Example fmt_Errorf_ex :
  GotemplateRender.fmt_Errorf "a name is required" = "a name is required".
Proof. reflexivity. Qed.

Example parse_ex :
  parse.Parse "_a.tpl" (q "{{/* helpers */ -}}
{{define 'X'}}body {{upper 'a' | quote}}{{end}}
")
    (fun _ => true)
  = Ok [("X", [parse.NText "body ";
               parse.NAction [[parse.EIdent "upper"; parse.EString "a"];
                              [parse.EIdent "quote"]]]);
        ("_a.tpl", [parse.NText json.newline])].
Proof. reflexivity. Qed.

Example parse_template_ex :
  parse.Parse "main.yaml" (q "a: {{- template 'X' . }} b") (fun _ => true)
  = Ok [("main.yaml", [parse.NText "a:"; parse.NTemplate "X" (Some [[parse.EDot]]);
                       parse.NText " b"])].
Proof. reflexivity. Qed.

Example parse_twice_ex :
  parse.Parse "f" (q "{{define 'X'}}a{{end}}{{define 'X'}}b{{end}}") (fun _ => true)
  = Err ("template: multiple definition of template " +:+ json.quote "X").
Proof. reflexivity. Qed.

Example decode_ex :
  GotemplateRender.json_Unmarshal
    (q "{'release':{'name':'r','revision':2,'isInstall':true},
         'values':{'replicas':3},
         'sourceFiles':[{'name':'templates/a.yaml','data':'YTogMQ=='}]}")
  = Ok (GotemplateRender.mkInput
          (GotemplateRender.ReleaseInfo.mk "r" "" 2 true false "")
          (VMap [("replicas", VFloat "3")])
          GotemplateRender.ChartInfo.zero VNil []
          GotemplateRender.CapabilitiesInfo.zero
          [{| Name := "templates/a.yaml"; Data := "a: 1" |}]).
Proof. reflexivity. Qed.

(** ** Slicing lemmas *)

Section StringFacts.

Import strings.

Lemma len_app (a b : string) : len (a +:+ b) = (len a + len b)%nat.
Proof. unfold len. induction a as [|c a IH]; simpl; [done | by rewrite IH]. Qed.

Lemma substring_all (b : string) : String.substring 0 (String.length b) b = b.
Proof. induction b as [|c b IH]; simpl; [done | by rewrite IH]. Qed.

Lemma substring_app_r (a b : string) :
  String.substring (String.length a) (String.length b) (a +:+ b) = b.
Proof. induction a as [|c a IH]; simpl; [apply substring_all | exact IH]. Qed.

Lemma substring_app_l (a b : string) :
  String.substring 0 (String.length a) (a +:+ b) = a.
Proof.
  induction a as [|c a IH]; simpl.
  - by destruct b.
  - by rewrite IH.
Qed.

Lemma HasSuffix_app (stem suffix : string) :
  HasSuffix (stem +:+ suffix) suffix = true.
Proof.
  unfold HasSuffix, slice. rewrite len_app.
  replace (len stem + len suffix - len suffix)%nat with (len stem) by lia.
  replace (len stem + len suffix - len stem)%nat with (len suffix) by lia.
  unfold len. rewrite substring_app_r, String.eqb_refl, andb_true_r.
  apply Nat.leb_le. lia.
Qed.

Lemma TrimSuffix_app (stem suffix : string) :
  TrimSuffix (stem +:+ suffix) suffix = stem.
Proof.
  unfold TrimSuffix. rewrite HasSuffix_app. unfold slice.
  rewrite len_app.
  replace (len stem + len suffix - len suffix - 0)%nat with (len stem) by lia.
  apply substring_app_l.
Qed.

Lemma app_assoc_s (a b c : string) : a +:+ (b +:+ c) = (a +:+ b) +:+ c.
Proof.
  induction a as [|x a IH]; [done|].
  change (String x (a +:+ (b +:+ c)) = String x ((a +:+ b) +:+ c)). by rewrite IH.
Qed.

End StringFacts.

(** ** The file transform stage (sourcefiles-modifier) *)

Section SequentialHandoff.

Import SourcefilesModifier.

Variable Unmarshal : string -> result InputMessageRenderV1.

(** The summary manifest is the only rendered file. *)
Lemma modifier_status (inputBytes : string) (input : InputMessageRenderV1) :
  Unmarshal inputBytes = Ok input ->
  exists output,
    HelmPluginMain Unmarshal inputBytes = Exit 0 output
    /\ dom (RenderedFiles output) = {["sourcefiles-modifier-summary.yaml"]}.
Proof.
  intros Hin. unfold HelmPluginMain. rewrite Hin.
  destruct (processFiles 0 (SourceFiles input) ([], [])) as [modified actions].
  eexists. split; [reflexivity|]. simpl.
  rewrite dom_insert_L. set_solver.
Qed.

(** C5. For an input whose source files are [A; B; C], the third one named
    with the suffix [.test], the plugin returns status 0 and
    [ModifiedSourceFiles] is exactly [B'; C'; D]: B with its name and the
    content prefixed by the marker line, C with its bytes and the suffix
    replaced by [.renamed], and the appended file [templates/file4.test];
    the sequence has length 3 with these names. *)
Theorem C5_sequential_handoff
  (inputBytes : string) (input : InputMessageRenderV1)
  (A B C : SourceFile) (stem : string) :
  Unmarshal inputBytes = Ok input ->
  SourceFiles input = [A; B; C] ->
  Name C = stem +:+ ".test" ->
  exists output,
    HelmPluginMain Unmarshal inputBytes = Exit 0 output
    /\ ModifiedSourceFiles output =
         [ {| Name := Name B;
              Data := "[MODIFIED BY PLUGIN 1]" +:+ json.newline +:+ Data B |};
           {| Name := stem +:+ ".renamed"; Data := Data C |};
           {| Name := "templates/file4.test"; Data := newFileContent |} ]
    /\ length (ModifiedSourceFiles output) = 3%nat
    /\ List.map Name (ModifiedSourceFiles output) =
         [Name B; stem +:+ ".renamed"; "templates/file4.test"]
    /\ Errors output = [].
Proof.
  intros Hin Hfiles HC. unfold HelmPluginMain. rewrite Hin, Hfiles.
  simpl. rewrite HC, TrimSuffix_app.
  eexists. split; [reflexivity|]. simpl. auto.
Qed.

End SequentialHandoff.

Lemma C5_sequential_handoff_witness :
  exists output,
    SourcefilesModifier.run (envelope handoff_files) = Exit 0 output
    /\ ModifiedSourceFiles output =
         [ {| Name := "templates/b.test";
              Data := "[MODIFIED BY PLUGIN 1]" +:+ json.newline +:+ "b: 2" |};
           {| Name := "templates/c.renamed"; Data := "c: 3" |};
           {| Name := "templates/file4.test";
              Data := SourcefilesModifier.newFileContent |} ]
    /\ length (ModifiedSourceFiles output) = 3%nat
    /\ List.map Name (ModifiedSourceFiles output) =
         ["templates/b.test"; "templates/c.renamed"; "templates/file4.test"]
    /\ Errors output = [].
Proof.
  apply (C5_sequential_handoff SourcefilesModifier.json_Unmarshal
           (envelope handoff_files)
           (SourcefilesModifier.mkInput VNil VNil VNil VNil [] VNil handoff_files)
           {| Name := "templates/a.test"; Data := "a: 1" |}
           {| Name := "templates/b.test"; Data := "b: 2" |}
           {| Name := "templates/c.test"; Data := "c: 3" |}
           "templates/c");
    vm_compute; reflexivity.
Defined.

(** ** The echo-render plugin: output names *)

Section EchoNames.

Import strings EchoRender.

Variable Unmarshal : string -> result InputMessage.

Lemma dropLast5_ok (name : string) :
  (5 <= len name)%nat -> dropLast5 name = Ok (slice name 0 (len name - 5)).
Proof.
  intros Hlen. unfold dropLast5.
  destruct (Nat.ltb_spec (len name) 5) as [Hlt|_]; [lia | done].
Qed.

(** The loop stops at the first name that is too short. *)
Lemma renderFiles_first_short (releaseName : string) (pre post : list SourceFile)
  (sf : SourceFile) :
  Forall long_enough pre -> too_short sf ->
  forall rendered,
    renderFiles releaseName (pre ++ sf :: post) rendered
    = Err ("runtime error: slice bounds out of range [:"
           +:+ dyn.digits (Z.of_nat (len (Name sf)) - 5) +:+ "]").
Proof.
  intros Hpre Hshort. induction Hpre as [|g pre Hg _ IH]; intros rendered.
  - cbn [app renderFiles]. unfold dropLast5.
    destruct (Nat.ltb_spec (len (Name sf)) 5) as [_|Hge]; [done|].
    unfold too_short in Hshort. lia.
  - cbn [app renderFiles]. rewrite (dropLast5_ok _ Hg). cbn [bind]. apply IH.
Qed.

Lemma first_short (files : list SourceFile) :
  Exists too_short files ->
  exists pre sf post,
    files = pre ++ sf :: post /\ Forall long_enough pre /\ too_short sf.
Proof.
  induction files as [|g files IH]; intros Hex; [by apply Exists_nil in Hex|].
  destruct (Nat.lt_ge_cases (len (Name g)) 5) as [Hlt|Hge].
  - exists [], g, files. split; [done|]. split; [constructor | exact Hlt].
  - apply Exists_cons in Hex as [Hshort|Hrest];
      [unfold too_short in Hshort; lia|].
    destruct (IH Hrest) as (pre & sf & post & -> & Hpre & Hsf).
    exists (g :: pre), sf, post. split; [done|]. split; [|done].
    by constructor.
Qed.

End EchoNames.

(** ** The gotemplate-render plugin, for every decoder and template engine *)

Section Render.

Import strings GotemplateRender.

Variable Unmarshal : string -> result InputMessageRenderV1.

Context `{TT : TextTemplate TemplateData}.

Lemma parsePartial_step (masterTmpl : Tmpl) (output : OutputMessageRenderV1)
  (file : SourceFile) :
  parsePartial (masterTmpl, output) file
  = (register masterTmpl file,
     {| RenderedFiles := RenderedFiles output;
        ModifiedSourceFiles := ModifiedSourceFiles output;
        Errors := Errors output ++ registerError masterTmpl file |}).
Proof.
  unfold parsePartial, register, registerError.
  destruct (isPartial file).
  - destruct (tmpl_New_Parse masterTmpl (Name file) (Data file))
      as [m [t|err]]; simpl; [|done].
    rewrite app_nil_r. by destruct output.
  - rewrite app_nil_r. by destruct output.
Qed.

Lemma parsePartial_fold (files : list SourceFile) :
  forall masterTmpl output,
    fold_left parsePartial files (masterTmpl, output)
    = (fold_left register files masterTmpl,
       {| RenderedFiles := RenderedFiles output;
          ModifiedSourceFiles := ModifiedSourceFiles output;
          Errors := Errors output ++ registerErrors masterTmpl files |}).
Proof.
  induction files as [|file rest IH]; intros masterTmpl output.
  - simpl. rewrite app_nil_r. by destruct output.
  - change (fold_left parsePartial (file :: rest) (masterTmpl, output))
      with (fold_left parsePartial rest (parsePartial (masterTmpl, output) file)).
    rewrite parsePartial_step, IH. simpl. by rewrite <- app_assoc.
Qed.

Lemma isPrimary_false (file : SourceFile) :
  isPrimary file = false ->
  HasPrefix (path.Base (Name file)) "_" = true
  \/ negb (HasSuffix (Name file) ".yaml") && negb (HasSuffix (Name file) ".yml")
     && negb (HasSuffix (Name file) ".tpl") && negb (HasSuffix (Name file) ".txt")
     = true.
Proof.
  unfold isPrimary, isPartial, hasTemplateSuffix.
  destruct (HasPrefix _ "_"); [auto|]. simpl.
  destruct (HasSuffix _ ".yaml"), (HasSuffix _ ".yml"), (HasSuffix _ ".tpl"),
    (HasSuffix _ ".txt"); simpl; auto; discriminate.
Qed.

Lemma isPrimary_true (file : SourceFile) :
  isPrimary file = true ->
  HasPrefix (path.Base (Name file)) "_" = false
  /\ negb (HasSuffix (Name file) ".yaml") && negb (HasSuffix (Name file) ".yml")
     && negb (HasSuffix (Name file) ".tpl") && negb (HasSuffix (Name file) ".txt")
     = false.
Proof.
  unfold isPrimary, isPartial, hasTemplateSuffix.
  destruct (HasPrefix _ "_"); [discriminate|]. simpl.
  destruct (HasSuffix _ ".yaml"), (HasSuffix _ ".yml"), (HasSuffix _ ".tpl"),
    (HasSuffix _ ".txt"); simpl; auto; discriminate.
Qed.

Lemma renderFile_step (input : InputMessageRenderV1)
  (output : OutputMessageRenderV1) (file : SourceFile) :
  renderFile input (filesOf input) (masterOf input) output file
  = {| RenderedFiles := emit input (RenderedFiles output) file;
       ModifiedSourceFiles := ModifiedSourceFiles output;
       Errors := Errors output ++ failure input file |}.
Proof.
  unfold renderFile, emit, emitted, failure, outcome, whitespace.
  destruct (isPrimary file) eqn:Hp.
  - apply isPrimary_true in Hp as [-> ->].
    destruct (executeFile _ _ _ file) as [rendered|msg]; simpl.
    + destruct (String.eqb (TrimSpace rendered) "");
        [rewrite app_nil_r; by destruct output | by rewrite app_nil_r].
    + done.
  - rewrite app_nil_r.
    apply isPrimary_false in Hp as [-> | Hs]; [by destruct output|].
    destruct (HasPrefix _ "_"); [by destruct output|].
    rewrite Hs. by destruct output.
Qed.

Lemma renderFile_fold (input : InputMessageRenderV1) (files : list SourceFile) :
  forall output,
    fold_left (renderFile input (filesOf input) (masterOf input)) files output
    = {| RenderedFiles := fold_left (emit input) files (RenderedFiles output);
         ModifiedSourceFiles := ModifiedSourceFiles output;
         Errors := Errors output ++ concat (List.map (failure input) files) |}.
Proof.
  induction files as [|file rest IH]; intros output; simpl.
  - rewrite app_nil_r. by destruct output.
  - rewrite renderFile_step, IH. simpl. by rewrite <- app_assoc.
Qed.

(** The run on a decoded input, in closed form. *)
Lemma HelmPluginMain_decoded (inputBytes : string) (input : InputMessageRenderV1) :
  Unmarshal inputBytes = Ok input ->
  HelmPluginMain Unmarshal inputBytes
  = Exit 0 {| RenderedFiles := fold_left (emit input) (SourceFiles input) ∅;
              ModifiedSourceFiles := [];
              Errors := registerErrors master0 (SourceFiles input)
                        ++ concat (List.map (failure input) (SourceFiles input)) |}.
Proof.
  intros Hin. unfold HelmPluginMain. rewrite Hin.
  rewrite parsePartial_fold.
  change (fold_left register (SourceFiles input) (tmpl_Funcs (tmpl_New "gotpl") funcMap))
    with (masterOf input).
  change (Files.mk (filesMap (Files input))) with (filesOf input).
  rewrite renderFile_fold. reflexivity.
Qed.

End Render.

Section RenderProperties.

Import strings GotemplateRender.

Variable Unmarshal : string -> result InputMessageRenderV1.

Context `{TT : TextTemplate TemplateData}.

Lemma emit_fold_other (input : InputMessageRenderV1) (n : string)
  (files : list SourceFile) :
  Forall (fun f => Name f = n -> emitted input f = None) files ->
  forall m, fold_left (emit input) files m !! n = m !! n.
Proof.
  induction 1 as [|f rest Hf _ IH]; intros m; simpl; [done|].
  rewrite IH. unfold emit.
  destruct (emitted input f) as [rendered|] eqn:He; [|done].
  destruct (decide (Name f = n)) as [Heq|Hne].
  - by specialize (Hf Heq).
  - by rewrite lookup_insert_ne.
Qed.

Lemma emit_fold_none (input : InputMessageRenderV1) (files : list SourceFile) :
  Forall (fun f => emitted input f = None) files ->
  forall m, fold_left (emit input) files m = m.
Proof.
  induction 1 as [|f rest Hf _ IH]; intros m; simpl; [done|].
  rewrite IH. unfold emit. by rewrite Hf.
Qed.

Lemma rendersBlank_emitted (input : InputMessageRenderV1) (f : SourceFile) :
  rendersBlank input f -> emitted input f = None.
Proof.
  unfold rendersBlank, emitted, whitespace. intros Hb.
  destruct (isPrimary f); [|done].
  destruct (Hb eq_refl) as (rendered & -> & Hws). by rewrite Hws.
Qed.

(** C2, as amended.  A primary file whose output is white space only adds
    no entry to [RenderedFiles]: when every primary file of a given name
    renders to white space only, that name is not a key of [RenderedFiles],
    and when every primary file does, [RenderedFiles] is empty. *)
Theorem C2_blank_output_not_emitted
  (inputBytes : string) (input : InputMessageRenderV1) :
  Unmarshal inputBytes = Ok input ->
  exists output,
    HelmPluginMain Unmarshal inputBytes = Exit 0 output
    /\ (forall n,
           Forall (fun f => Name f = n -> rendersBlank input f) (SourceFiles input) ->
           RenderedFiles output !! n = None)
    /\ (Forall (rendersBlank input) (SourceFiles input) ->
        RenderedFiles output = ∅).
Proof.
  intros Hin. rewrite (HelmPluginMain_decoded _ _ _ Hin).
  eexists. split; [reflexivity|]. simpl. split.
  - intros n Hall. rewrite (emit_fold_other input n); [done|].
    eapply Forall_impl; [exact Hall|]. simpl.
    intros f Hf Hn. by apply rendersBlank_emitted, Hf.
  - intros Hall. apply emit_fold_none.
    eapply Forall_impl; [exact Hall|]. apply rendersBlank_emitted.
Qed.

Lemma register_skip (pre post : list SourceFile) (f : SourceFile) (m : Tmpl) :
  isPartial f = false ->
  fold_left register (pre ++ f :: post) m = fold_left register (pre ++ post) m.
Proof.
  intros Hf. rewrite !fold_left_app. simpl. unfold register at 2. by rewrite Hf.
Qed.

Lemma registerErrors_app (l1 l2 : list SourceFile) :
  forall m, registerErrors m (l1 ++ l2)
            = registerErrors m l1 ++ registerErrors (fold_left register l1 m) l2.
Proof.
  induction l1 as [|f l1 IH]; intros m; simpl; [done|].
  by rewrite IH, app_assoc.
Qed.

Lemma registerErrors_skip (pre post : list SourceFile) (f : SourceFile) (m : Tmpl) :
  isPartial f = false ->
  registerErrors m (pre ++ f :: post) = registerErrors m (pre ++ post).
Proof.
  intros Hf. rewrite !registerErrors_app. simpl.
  unfold registerError, register at 2. by rewrite Hf.
Qed.


(** Removing a primary file from the source files changes neither the
    master template nor what any file renders to. *)
Lemma outcome_skip (input : InputMessageRenderV1) (pre post : list SourceFile)
  (f g : SourceFile) :
  SourceFiles input = pre ++ f :: post ->
  isPartial f = false ->
  outcome (withSourceFiles input (pre ++ post)) g = outcome input g.
Proof.
  intros Hfiles Hf. unfold outcome, masterOf, filesOf. simpl.
  rewrite Hfiles, (register_skip pre post f master0 Hf). reflexivity.
Qed.

Lemma emit_skip (input : InputMessageRenderV1) (pre post : list SourceFile)
  (f : SourceFile) :
  SourceFiles input = pre ++ f :: post ->
  isPartial f = false ->
  forall l m,
    fold_left (emit (withSourceFiles input (pre ++ post))) l m
    = fold_left (emit input) l m.
Proof.
  intros Hfiles Hf. induction l as [|g l IH]; intros m; simpl; [done|].
  rewrite IH. f_equal. unfold emit, emitted.
  by rewrite (outcome_skip input pre post f g Hfiles Hf).
Qed.

Lemma failure_skip (input : InputMessageRenderV1) (pre post : list SourceFile)
  (f : SourceFile) :
  SourceFiles input = pre ++ f :: post ->
  isPartial f = false ->
  forall l,
    List.map (failure (withSourceFiles input (pre ++ post))) l
    = List.map (failure input) l.
Proof.
  intros Hfiles Hf. induction l as [|g l IH]; simpl; [done|].
  rewrite IH. f_equal. unfold failure.
  by rewrite (outcome_skip input pre post f g Hfiles Hf).
Qed.


(** C4. When the input bytes do not decode, the run returns status 1 with
    an output message whose [RenderedFiles] is empty and whose [Errors]
    holds the one message; the message is written without a
    [modifiedSourceFiles] member. *)
Theorem C4_malformed_envelope (inputBytes err : string) :
  Unmarshal inputBytes = Err err ->
  exists output,
    HelmPluginMain Unmarshal inputBytes = Exit 1 output
    /\ RenderedFiles output = ∅
    /\ Errors output = ["failed to parse input: " +:+ err]
    /\ ModifiedSourceFiles output = []
    /\ json_fields output = ["renderedFiles"; "errors"].
Proof.
  intros Hin. unfold HelmPluginMain, outputError. rewrite Hin.
  eexists. split; [reflexivity|]. simpl. auto.
Qed.

(** C10. Whatever the input, the output message of gotemplate-render has
    no [modifiedSourceFiles]: the field is nil and is left out of the
    encoded message, so the next stage works on the source files this one
    received. *)
Theorem C10_source_files_unchanged (inputBytes : string) :
  exists status output,
    HelmPluginMain Unmarshal inputBytes = Exit status output
    /\ ModifiedSourceFiles output = []
    /\ ("modifiedSourceFiles" ∉ json_fields output)
    /\ forall received, nextSourceFiles received output = received.
Proof.
  assert (forall output, ModifiedSourceFiles output = [] ->
            ("modifiedSourceFiles" ∉ json_fields output)
            /\ forall received, nextSourceFiles received output = received)
    as Hfields.
  { intros output Hnil.
    assert ("modifiedSourceFiles" ∉ json_fields output) as Hnot.
    { unfold json_fields. rewrite Hnil. simpl.
      destruct (Errors output); simpl; intros Hel;
        repeat (apply elem_of_cons in Hel as [Hel|Hel]; [discriminate|]);
        by apply elem_of_nil in Hel. }
    split; [done|]. intros received. unfold nextSourceFiles.
    by rewrite bool_decide_eq_false_2. }
  destruct (Unmarshal inputBytes) as [input|err] eqn:Hin.
  - rewrite (HelmPluginMain_decoded _ _ _ Hin).
    eexists _, _. split; [reflexivity|]. split; [done|]. by apply Hfields.
  - unfold HelmPluginMain, outputError. rewrite Hin.
    eexists _, _. split; [reflexivity|]. split; [done|]. by apply Hfields.
Qed.


End RenderProperties.

(** ** The name space of the model of [text/template] *)

Section NameSpace.

Import parse template.


Lemma map_set_keys {A} (key : string) (v : A) (m : list (string * A)) :
  (dyn.map_set key v m).*1 = if decide (key ∈ m.*1) then m.*1 else m.*1 ++ [key].
Proof.
  induction m as [|[k x] m IH].
  - destruct (decide (key ∈ (@nil (string * A)).*1)) as [Hin|_]; [|done].
    by apply elem_of_nil in Hin.
  - cbn [dyn.map_set]. destruct (String.eqb_spec k key) as [->|Hne].
    + destruct (decide (key ∈ ((key, x) :: m).*1)) as [_|Hnin]; [done|].
      exfalso. apply Hnin. left.
    + rewrite fmap_cons, IH. cbn [fst].
      destruct (decide (key ∈ m.*1)) as [Hin|Hnin];
        destruct (decide (key ∈ ((k, x) :: m).*1)) as [Hin'|Hnin']; try done.
      * exfalso. apply Hnin'. by right.
      * apply elem_of_cons in Hin' as [->|Hin']; done.
Qed.

Lemma map_set_NoDup {A} (key : string) (v : A) (m : list (string * A)) :
  NoDup m.*1 -> NoDup (dyn.map_set key v m).*1.
Proof.
  intros Hnd. rewrite map_set_keys. case_decide; [done|].
  apply NoDup_app. split; [done|]. split; [|apply NoDup_singleton].
  intros x Hx Hx'. apply list_elem_of_singleton in Hx'. by subst.
Qed.









End NameSpace.

(** ** Partials and primary files on the model of [text/template] *)

Section LastWins.

Import strings parse template GotemplateRender.

Local Existing Instance Engine.

Local Abbreviation T := (@Tmpl TemplateData Engine).








Lemma append_empty_r (s : string) : s +:+ "" = s.
Proof.
  induction s as [|a s IH]; [done|].
  change (String a (s +:+ "") = String a s). by rewrite IH.
Qed.











End LastWins.

(** ** The placeholders [include] and [tpl] *)

Section Placeholders.

Import strings parse template GotemplateRender.

Local Existing Instance Engine.




End Placeholders.

(** ** The function library *)

Section FunctionLibrary.

Import GotemplateRender.

(** C6, as amended.  [default(def, val)] is [def] when [val] is nil or the
    empty string and [val] otherwise; so [default("", "fallback")] and
    [default(0, "fallback")] are both ["fallback"], the second argument.
    Numeric zero is not empty: [default("fallback", 0)] is [0], for an
    integer constant and for a decoded number alike. *)
Theorem C6_default_rule :
  (forall def val : Value,
      funcs.default def val = if nilOrEmpty val then def else val)
  /\ funcs.default (VString "") (VString "fallback") = VString "fallback"
  /\ funcs.default (VInt 0) (VString "fallback") = VString "fallback"
  /\ funcs.default (VString "fallback") (VInt 0) = VInt 0
  /\ funcs.default (VString "fallback") (VFloat "0") = VFloat "0"
  /\ funcs.default (VString "fallback") (VString "") = VString "fallback"
  /\ funcs.default (VString "fallback") VNil = VString "fallback".
Proof.
  split; [|repeat split].
  intros def val. destruct val as [| | | |s| | |]; try reflexivity.
  by destruct s.
Qed.

(** C6 as stated fails at [default(0, "fallback")]: the result is
    ["fallback"], not [0], also from inside a template. *)
Lemma C6_counterexample :
  funcs.default (VInt 0) (VString "fallback") = VString "fallback"
  /\ funcs.default (VInt 0) (VString "fallback") <> VInt 0
  /\ run (envelope [ {| Name := "templates/d.yaml";
                        Data := q "{{ default 0 'fallback' }}" |} ])
     = Exit 0 {| RenderedFiles := {[ "templates/d.yaml" := "fallback" ]};
                 ModifiedSourceFiles := []; Errors := [] |}.
Proof. split; [reflexivity|]. split; [discriminate|]. vm_compute. reflexivity. Qed.






End FunctionLibrary.

(** ** The plugin on concrete inputs *)

Section Scenarios.

Import strings parse template GotemplateRender.

Local Existing Instance Engine.

Lemma envelope_example :
  json_Unmarshal (envelope [ {| Name := "a.yaml"; Data := "a: 1" |} ])
  = Ok (inputOf [ {| Name := "a.yaml"; Data := "a: 1" |} ]).
Proof. by vm_compute. Qed.







(** C2 as stated fails: the second file renders to white space only, and its
    name is a key of [RenderedFiles], written by the first file. *)
Lemma C2_counterexample :
  isPrimary blank_same_name = true
  /\ outcome (inputOf [manifest_file; blank_same_name]) blank_same_name
     = Ok ("  " +:+ json.newline)
  /\ TrimSpace ("  " +:+ json.newline) = ""
  /\ run (envelope [manifest_file; blank_same_name])
     = Exit 0 {| RenderedFiles := {[ "templates/a.yaml" := "kind: ConfigMap" ]};
                 ModifiedSourceFiles := []; Errors := [] |}.
Proof.
  split; [vm_compute; reflexivity|]. split; [vm_compute; reflexivity|].
  split; vm_compute; reflexivity.
Qed.

Lemma C2_blank_output_not_emitted_witness :
  exists output,
    run (envelope [partial_a; blank_file]) = Exit 0 output
    /\ RenderedFiles output !! "templates/blank.yaml" = None
    /\ RenderedFiles output = ∅.
Proof.
  destruct (C2_blank_output_not_emitted json_Unmarshal
              (envelope [partial_a; blank_file])
              (inputOf [partial_a; blank_file]))
    as (output & Hrun & Hname & Hall).
  - vm_compute. reflexivity.
  - assert (Forall (rendersBlank (inputOf [partial_a; blank_file]))
              [partial_a; blank_file]) as Hblank.
    { constructor; [|constructor; [|constructor]].
      - intros Hprim. vm_compute in Hprim. discriminate Hprim.
      - intros _. exists (json.newline +:+ json.newline).
        split; vm_compute; reflexivity. }
    exists output. split; [exact Hrun|]. split.
    + apply Hname. eapply Forall_impl; [exact Hblank|]. auto.
    + by apply Hall.
Defined.


Lemma C4_malformed_envelope_witness :
  exists output,
    run (q "{'release': {'name': 'demo'}, 'sourceFiles': [{'name': 'a.yaml', 'da")
    = Exit 1 output
    /\ RenderedFiles output = ∅
    /\ Errors output = ["failed to parse input: unexpected end of JSON input"]
    /\ ModifiedSourceFiles output = []
    /\ json_fields output = ["renderedFiles"; "errors"].
Proof.
  apply (C4_malformed_envelope json_Unmarshal
           (q "{'release': {'name': 'demo'}, 'sourceFiles': [{'name': 'a.yaml', 'da")
           "unexpected end of JSON input").
  vm_compute. reflexivity.
Defined.

End Scenarios.

(** * Further properties of the plugins *)

(** ** Prefixes, suffixes, [Split] and [Join] *)

Section MoreStringFacts.

Import strings.

Lemma take_drop (n : nat) (s : string) : String.substring 0 n s +:+ drop n s = s.
Proof.
  revert s. induction n as [|n IH]; intros [|c s]; try done.
  simpl. change (String c (String.substring 0 n s +:+ drop n s) = String c s).
  by rewrite IH.
Qed.

Lemma substring_tail (n : nat) (s : string) :
  String.substring n (String.length s - n) s = drop n s.
Proof.
  revert s. induction n as [|n IH]; intros [|c s]; try done.
  - simpl. by rewrite substring_all.
  - simpl. apply IH.
Qed.

Lemma HasPrefix_inv (s p : string) :
  HasPrefix s p = true -> s = p +:+ drop (len p) s.
Proof.
  unfold HasPrefix, slice. intros [_ Heq%String.eqb_eq]%andb_true_iff.
  rewrite Nat.sub_0_r in Heq. rewrite <- Heq at 1. symmetry. apply take_drop.
Qed.

Lemma HasPrefix_app (p x : string) : HasPrefix (p +:+ x) p = true.
Proof.
  unfold HasPrefix, slice. rewrite len_app, Nat.sub_0_r. unfold len.
  rewrite substring_app_l, String.eqb_refl, andb_true_r.
  apply Nat.leb_le. lia.
Qed.

Lemma HasSuffix_inv (s suffix : string) :
  HasSuffix s suffix = true -> s = slice s 0 (len s - len suffix) +:+ suffix.
Proof.
  unfold HasSuffix, slice.
  intros [_ Heq%String.eqb_eq]%andb_true_iff.
  unfold len in *. rewrite substring_tail in Heq.
  rewrite Nat.sub_0_r.
  transitivity (String.substring 0 (String.length s - String.length suffix) s
                +:+ drop (String.length s - String.length suffix) s).
  - symmetry. apply take_drop.
  - by rewrite Heq.
Qed.

Lemma last_byte_inj (a b : string) (c d : ascii) :
  a +:+ String c "" = b +:+ String d "" -> c = d.
Proof.
  revert b. induction a as [|x a IH]; intros [|y b] Heq.
  - by injection Heq.
  - injection Heq as _ Heq. by destruct b.
  - injection Heq as _ Heq. by destruct a.
  - injection Heq as _ Heq. by apply IH in Heq.
Qed.

(** A name that ends in [.renamed] does not end in [.test]. *)
Lemma TrimSuffix_renamed (stem : string) :
  TrimSuffix (stem +:+ ".renamed") ".test" = stem +:+ ".renamed".
Proof.
  unfold TrimSuffix. destruct (HasSuffix _ ".test") eqn:Hs; [|done].
  apply HasSuffix_inv in Hs. exfalso.
  set (pre := slice _ _ _) in Hs. clearbody pre.
  change ".renamed" with (".rename" +:+ "d") in Hs.
  change ".test" with (".tes" +:+ "t") in Hs.
  rewrite !app_assoc_s in Hs. by apply last_byte_inj in Hs.
Qed.

(** *** [Split] and [Join] *)

Lemma rev_app_acc (s : string) :
  forall acc, String.rev_app s acc = String.rev s +:+ acc.
Proof.
  unfold String.rev. induction s as [|c s IH]; intros acc; simpl; [done|].
  rewrite (IH (String c acc)), (IH (String c "")), <- app_assoc_s. done.
Qed.

Lemma rev_cons (c : ascii) (s : string) :
  String.rev (String c s) = String.rev s +:+ String c "".
Proof. unfold String.rev at 1. simpl. apply rev_app_acc. Qed.





Lemma split_go_app (a b : string) (sep : ascii) :
  forall cur,
    split_go cur (a +:+ String sep b) sep = split_go cur a sep ++ SplitByte b sep.
Proof.
  induction a as [|c a IH]; intros cur.
  - change ("" +:+ String sep b) with (String sep b). simpl.
    by rewrite Ascii.eqb_refl.
  - change (String c a +:+ String sep b) with (String c (a +:+ String sep b)).
    simpl. destruct (Ascii.eqb c sep); rewrite IH; done.
Qed.

Lemma SplitByte_app (a b : string) (sep : ascii) :
  SplitByte (a +:+ String sep b) sep = SplitByte a sep ++ SplitByte b sep.
Proof. apply split_go_app. Qed.



End MoreStringFacts.

(** ** The function library: [indent], [dict], [coalesce], [required], [empty] *)

Section FunctionLibraryMore.

Import strings GotemplateRender.

Lemma Contains_byte (c : ascii) (s : string) :
  Contains s (String c "") = false <-> Forall (fun a => a <> c) (list_ascii_of_string s).
Proof.
  induction s as [|a s IH]; simpl.
  - split; [constructor | done].
  - unfold HasPrefix, slice. simpl.
    replace (String.substring 0 0 s) with "" by by destruct s.
    rewrite orb_false_iff, IH, Forall_cons.
    destruct (Ascii.eqb_spec a c) as [->|Hne]; simpl.
    + split; [by intros [? _] | by intros [? _]].
    + split; [by intros [_ ?] | by intros [_ ?]].
Qed.

Lemma split_go_plain (s : string) (sep : ascii) :
  Forall (fun a => a <> sep) (list_ascii_of_string s) ->
  forall cur, split_go cur s sep = [String.rev cur +:+ s].
Proof.
  induction s as [|a s IH]; intros Hs cur; simpl.
  - by rewrite append_empty_r.
  - apply Forall_cons in Hs as [Ha Hs].
    destruct (Ascii.eqb_spec a sep) as [|_]; [done|].
    rewrite IH, rev_cons, <- app_assoc_s; done.
Qed.

Lemma SplitByte_plain (s : string) (sep : ascii) :
  Contains s (String sep "") = false -> SplitByte s sep = [s].
Proof.
  intros Hs%Contains_byte. unfold SplitByte. by rewrite split_go_plain.
Qed.





(** X14. [nindent(n, s)] is a newline followed by [indent(n, s)].  With a
    negative number of spaces both fail, with the panic of
    [strings.Repeat]. *)
Theorem nindent_rule :
  (forall (spaces : Z) (s : string),
      funcs.nindent spaces s
      = let* r := funcs.indent spaces s in Ok (json.newline +:+ r))
  /\ (forall (spaces : Z) (s : string),
         spaces < 0 ->
         funcs.indent spaces s = Err "strings: negative Repeat count"
         /\ funcs.nindent spaces s = Err "strings: negative Repeat count").
Proof.
  split.
  - intros spaces s. unfold funcs.nindent, funcs.indent.
    by destruct (Repeat " " spaces).
  - intros spaces s Hneg. unfold funcs.nindent, funcs.indent, Repeat.
    destruct (Z.ltb_spec spaces 0) as [_|Hge]; [done | lia].
Qed.

Lemma map_get_set {A} (k key : string) (v : A) (m : list (string * A)) :
  dyn.map_get k (dyn.map_set key v m)
  = if String.eqb key k then Some v else dyn.map_get k m.
Proof.
  induction m as [|[k' x] m IH]; simpl.
  - done.
  - destruct (String.eqb_spec k' key) as [->|Hne]; simpl.
    + by destruct (String.eqb key k).
    + rewrite IH. destruct (String.eqb_spec k' k) as [->|Hk]; [|done].
      by destruct (String.eqb_spec key k) as [->|_].
Qed.

Lemma map_get_app {A} (k : string) (l1 l2 : list (string * A)) :
  dyn.map_get k (l1 ++ l2)
  = match dyn.map_get k l1 with
    | Some v => Some v
    | None => dyn.map_get k l2
    end.
Proof.
  induction l1 as [|[k' x] l1 IH]; simpl; [done|].
  by destruct (String.eqb k' k).
Qed.

Lemma dict_loop_pairs (k : string) (pairs : list (string * Value)) :
  forall acc,
    dyn.map_get k (funcs.dict_loop (pairs_args pairs) acc)
    = match dyn.map_get k (rev pairs) with
      | Some v => Some v
      | None => dyn.map_get k acc
      end.
Proof.
  induction pairs as [|[k0 v0] pairs IH]; intros acc; [done|].
  cbn [pairs_args funcs.dict_loop rev]. rewrite IH, map_get_app, map_get_set.
  cbn [dyn.map_get]. destruct (dyn.map_get k (rev pairs)); [done|].
  by destruct (String.eqb k0 k).
Qed.

Lemma dict_loop_odd (pairs : list (string * Value)) (x : Value) :
  forall acc,
    funcs.dict_loop (pairs_args pairs ++ [x]) acc
    = funcs.dict_loop (pairs_args pairs) acc.
Proof.
  induction pairs as [|[k0 v0] pairs IH]; intros acc; [done|].
  cbn [pairs_args app funcs.dict_loop]. apply IH.
Qed.

Lemma dict_loop_NoDup (vals : list Value) :
  forall n acc, (length vals <= n)%nat ->
    NoDup acc.*1 -> NoDup (funcs.dict_loop vals acc).*1.
Proof.
  intros n. revert vals. induction n as [|n IH]; intros vals acc Hlen Hnd.
  - destruct vals; [done | simpl in Hlen; lia].
  - destruct vals as [|k [|v rest]]; [done..|].
    cbn [funcs.dict_loop]. apply IH; [simpl in Hlen; lia|].
    destruct k; try done. by apply map_set_NoDup.
Qed.

(** X12. [dict] reads its arguments in pairs.  The keys of the result are
    pairwise distinct; for arguments that list pairs of a string key and a
    value, a key is mapped to the value of its last pair; an unpaired last
    argument is dropped, and so is a pair whose key is not a string. *)
Theorem dict_rule :
  (forall vals : list Value,
      exists entries, funcs.dict vals = VMap entries /\ NoDup entries.*1)
  /\ (forall (pairs : list (string * Value)) (k : string),
         exists entries,
           funcs.dict (pairs_args pairs) = VMap entries
           /\ dyn.map_get k entries = dyn.map_get k (rev pairs))
  /\ (forall (pairs : list (string * Value)) (x : Value),
         funcs.dict (pairs_args pairs ++ [x]) = funcs.dict (pairs_args pairs))
  /\ (forall (k v : Value) (rest : list Value),
         (forall s, k <> VString s) ->
         funcs.dict (k :: v :: rest) = funcs.dict rest).
Proof.
  split; [|split; [|split]].
  - intros vals. eexists. split; [reflexivity|].
    eapply dict_loop_NoDup; [reflexivity | constructor].
  - intros pairs k. eexists. split; [reflexivity|].
    rewrite dict_loop_pairs. by destruct (dyn.map_get k (rev pairs)).
  - intros pairs x. unfold funcs.dict. by rewrite dict_loop_odd.
  - intros k v rest Hk. unfold funcs.dict. cbn [funcs.dict_loop].
    destruct k; try done. by destruct (Hk s).
Qed.

(** X11. [coalesce] returns the first argument that is neither nil nor
    the empty string, and nil when there is none; [coalesce(v, rest...)] is
    [default(coalesce(rest...), v)]. *)
Theorem coalesce_rule :
  (forall (v : Value) (rest : list Value),
      funcs.coalesce (v :: rest) = funcs.default (funcs.coalesce rest) v)
  /\ (forall (pre post : list Value) (v : Value),
         Forall (fun x => nilOrEmpty x = true) pre ->
         nilOrEmpty v = false ->
         funcs.coalesce (pre ++ v :: post) = v)
  /\ (forall vals : list Value,
         Forall (fun x => nilOrEmpty x = true) vals ->
         funcs.coalesce vals = VNil).
Proof.
  assert (forall v rest,
            funcs.coalesce (v :: rest)
            = if nilOrEmpty v then funcs.coalesce rest else v) as Hstep.
  { intros v rest. destruct v as [| | | |s| | |]; try done. by destruct s. }
  split; [|split].
  - intros v rest. by destruct v.
  - intros pre post v Hpre Hv. induction Hpre as [|x pre Hx _ IH].
    + simpl app. by rewrite Hstep, Hv.
    + change ((x :: pre) ++ v :: post) with (x :: (pre ++ v :: post)).
      by rewrite Hstep, Hx.
  - intros vals Hall. induction Hall as [|x vals Hx _ IH]; [done|].
    by rewrite Hstep, Hx.
Qed.

(** X9. [required(msg, val)] fails when [val] is nil or the empty string
    and returns [val] otherwise; it succeeds exactly for the values that
    [default] keeps.  For a message without [%] the error is the message
    itself, and called from a template the failure is the error of the
    call. *)
Theorem required_rule (msg : string) (val : Value) :
  is_ok (funcs.required msg val) = negb (nilOrEmpty val)
  /\ (forall def v : Value,
         funcs.required msg val = Ok v -> v = val /\ funcs.default def val = val)
  /\ (Contains msg "%" = false ->
      funcs.required msg val = (if nilOrEmpty val then Err msg else Ok val)
      /\ template.call funcMap "required" [VString msg; val]
         = if nilOrEmpty val
           then Err ("error calling required: " +:+ msg)
           else Ok val).
Proof.
  assert (funcs.required msg val
          = if nilOrEmpty val then Err (fmt_Errorf msg) else Ok val) as Hreq.
  { destruct val as [| | | |s| | |]; try done. by destruct s. }
  split; [rewrite Hreq; by destruct (nilOrEmpty val)|]. split.
  - intros def v. rewrite Hreq.
    destruct val as [| | | |s| | |]; try (by intros [= <-]).
    destruct s; [done | by intros [= <-]].
  - intros Hplain.
    assert (fmt_Errorf msg = msg) as Hmsg by (unfold fmt_Errorf; by rewrite Hplain).
    rewrite Hmsg in Hreq. split; [exact Hreq|].
    change (template.call funcMap "required" [VString msg; val])
      with (match funcs.required msg val with
            | Ok v => Ok v
            | Err e => Err ("error calling required: " +:+ e)
            end).
    rewrite Hreq. by destruct (nilOrEmpty val).
Qed.

(** X10. [empty(val)] holds for nil, the empty string, the empty sequence
    and the empty mapping, and for nothing else: numbers and booleans are
    never empty.  It holds for every value that [default] replaces, but
    [default] keeps an empty sequence or mapping. *)
Theorem empty_rule :
  (forall val : Value,
      funcs.empty val = true
      <-> val = VNil \/ val = VString "" \/ val = VList [] \/ val = VMap [])
  /\ (forall val : Value, nilOrEmpty val = true -> funcs.empty val = true)
  /\ (forall def : Value,
         funcs.default def (VList []) = VList []
         /\ funcs.default def (VMap []) = VMap []).
Proof.
  split; [|split].
  - intros val. split.
    + destruct val as [| | | |s|items|entries|]; simpl; try discriminate; auto.
      * destruct s; [auto | discriminate].
      * destruct items; [auto | discriminate].
      * destruct entries; [auto | discriminate].
    + intros [->|[->|[->| ->]]]; reflexivity.
  - intros val. by destruct val.
  - done.
Qed.

End FunctionLibraryMore.

(** ** Loops that write into a map *)

Section FoldInsert.

Context {A : Type}.


Variable step : gmap string string -> A -> gmap string string.

(** What an element writes: a key and a value, or nothing. *)
Variable entry : A -> option (string * string).

Hypothesis step_entry :
  forall m a, step m a = match entry a with
                         | Some (k, v) => <[k := v]> m
                         | None => m
                         end.


Lemma fold_insert_other (k : string) (l : list A) :
  Forall (fun a => ~ writes entry k a) l ->
  forall m, fold_left step l m !! k = m !! k.
Proof.
  induction 1 as [|a l Ha _ IH]; intros m; simpl; [done|].
  rewrite IH, step_entry. destruct (entry a) as [[k' v]|] eqn:He; [|done].
  apply lookup_insert_ne. intros ->. apply Ha. by exists v.
Qed.

Lemma fold_insert_last (k v : string) (pre post : list A) (a : A) :
  entry a = Some (k, v) ->
  Forall (fun b => ~ writes entry k b) post ->
  forall m, fold_left step (pre ++ a :: post) m !! k = Some v.
Proof.
  intros He Hpost m. rewrite fold_left_app. simpl.
  rewrite fold_insert_other, step_entry, He; [|done].
  apply lookup_insert_eq.
Qed.

Lemma fold_insert_origin (k v : string) (l : list A) :
  forall m, fold_left step l m !! k = Some v ->
            m !! k = Some v \/ exists a, a ∈ l /\ entry a = Some (k, v).
Proof.
  induction l as [|a l IH]; intros m; simpl; [auto|].
  intros [Hm | (b & Hb & He)]%IH.
  - rewrite step_entry in Hm. destruct (entry a) as [[k' v']|] eqn:He; [|auto].
    destruct (decide (k' = k)) as [->|Hne].
    + rewrite lookup_insert_eq in Hm. injection Hm as ->.
      right. exists a. split; [left | done].
    + rewrite lookup_insert_ne in Hm by done. auto.
  - right. exists b. split; [by right | done].
Qed.

Lemma fold_insert_dom (l : list A) :
  forall m k, k ∈ dom (fold_left step l m)
              <-> k ∈ dom m \/ exists a, a ∈ l /\ writes entry k a.
Proof.
  induction l as [|a l IH]; intros m k; simpl.
  - split; [auto|]. intros [?|(a & Ha%elem_of_nil & _)]; done.
  - rewrite IH, step_entry. split.
    + intros [Hk | (b & Hb & Hw)].
      * destruct (entry a) as [[k' v']|] eqn:He; [|auto].
        apply elem_of_dom in Hk as [x Hx].
        destruct (decide (k' = k)) as [->|Hne].
        -- right. exists a. split; [left | by exists v'].
        -- rewrite lookup_insert_ne in Hx by done. left. by apply elem_of_dom.
      * right. exists b. split; [by right | done].
    + intros [Hk | (b & [->|Hb]%elem_of_cons & Hw)].
      * left. destruct (entry a) as [[k' v']|]; [|done].
        apply dom_insert_subseteq, Hk.
      * left. destruct Hw as [v ->]. apply elem_of_dom.
        exists v. apply lookup_insert_eq.
      * right. by exists b.
Qed.

End FoldInsert.

(** ** [Files]: the static files of a chart *)

Section FilesAccess.

Import strings GotemplateRender.

Lemma filesMap_step (m : gmap string string) (f : SourceFile) :
  <[Name f := Data f]> m
  = match Some (Name f, Data f) with
    | Some (k, v) => <[k := v]> m
    | None => m
    end.
Proof. done. Qed.

Lemma not_writes_name {A} (entry : A -> option (string * string))
  (key : A -> string) (k : string) (l : list A) :
  (forall a kv, entry a = Some kv -> kv.1 = key a) ->
  Forall (fun a => key a <> k) l ->
  Forall (fun a => ~ writes entry k a) l.
Proof.
  intros Hkey Hall. eapply Forall_impl; [exact Hall|]. intros a Hne [v He].
  apply Hkey in He. simpl in He. congruence.
Qed.

(** X1. The files map is built from [input.Files] in order, so the last
    file of a name is the one the templates see: [Get] and [GetBytes]
    return its data and [Lines] its lines.  For a name that no file has,
    [Get] returns the empty string, [GetBytes] nil (no bytes) and [Lines]
    nil. *)
Theorem Files_Get_last_wins (input : InputMessageRenderV1) :
  (forall (pre post : list SourceFile) (f : SourceFile),
      Files input = pre ++ f :: post ->
      Forall (fun g => Name g <> Name f) post ->
      Files.Get (filesOf input) (Name f) = Data f
      /\ Files.GetBytes (filesOf input) (Name f) = Data f
      /\ Files.Lines (filesOf input) (Name f)
         = Some (SplitByte (Data f) "010"))
  /\ (forall name : string,
         Forall (fun g => Name g <> name) (Files input) ->
         Files.Get (filesOf input) name = ""
         /\ Files.GetBytes (filesOf input) name = ""
         /\ Files.Lines (filesOf input) name = None).
Proof.
  split.
  - intros pre post f Hfiles Hpost.
    assert (filesMap (Files input) !! Name f = Some (Data f)) as Hget.
    { unfold filesMap. rewrite Hfiles.
      apply (fold_insert_last _ (fun g => Some (Name g, Data g)) filesMap_step);
        [done|].
      eapply not_writes_name; [|exact Hpost]. by intros a kv [= <-]. }
    unfold Files.Get, Files.GetBytes, Files.Lines, filesOf. simpl.
    by rewrite Hget.
  - intros name Hall.
    assert (filesMap (Files input) !! name = None) as Hget.
    { unfold filesMap.
      rewrite (fold_insert_other _ (fun g => Some (Name g, Data g)) filesMap_step);
        [done|].
      eapply not_writes_name; [|exact Hall]. by intros a kv [= <-]. }
    unfold Files.Get, Files.GetBytes, Files.Lines, filesOf. simpl.
    by rewrite Hget.
Qed.

Section Ranges.

Variable range : gmap string string -> list (string * string).

Hypothesis range_enumerates : Files.enumerates range.

Lemma range_elem (m : gmap string string) (name data : string) :
  (name, data) ∈ range m <-> m !! name = Some data.
Proof. by rewrite (range_enumerates m), elem_of_map_to_list. Qed.

Lemma range_NoDup (m : gmap string string) : NoDup (range m).*1.
Proof. rewrite (range_enumerates m). apply NoDup_fst_map_to_list. Qed.

(** An entry of the map is visited, and no entry visited after it has its
    name. *)
Lemma range_split (m : gmap string string) (name data : string) :
  m !! name = Some data ->
  exists pre post,
    range m = pre ++ (name, data) :: post
    /\ Forall (fun e => e.1 <> name) post.
Proof.
  intros Hin%range_elem. apply list_elem_of_split in Hin as (pre & post & Heq).
  exists pre, post. split; [done|].
  pose proof (range_NoDup m) as Hnd. rewrite Heq, fmap_app, fmap_cons in Hnd.
  apply NoDup_app in Hnd as (_ & _ & Hnd). apply NoDup_cons in Hnd as [Hnot _].
  apply Forall_forall. intros [n d] Hel Heqn. simpl in Heqn. subst n.
  apply Hnot. apply list_elem_of_fmap. by exists (name, d).
Qed.

Lemma AsConfig_step (m : gmap string string) (e : string * string) :
  (let '(name, data) := e in <[path.Base name := data]> m)
  = match Some (path.Base e.1, e.2) with
    | Some (k, v) => <[k := v]> m
    | None => m
    end.
Proof. by destruct e. Qed.

(** X2. Whatever the order in which the map is visited, the keys of
    [AsConfig] are the base names of the files.  When no two files share a
    base name, [AsConfig] maps the base name of every file to its data, and
    so does [AsSecrets]: the data is not base64-encoded. *)
Theorem Files_AsConfig_base_names (f : Files.t) :
  (forall key : string,
      key ∈ dom (Files.AsConfig range f)
      <-> exists name, name ∈ dom (Files.files f) /\ key = path.Base name)
  /\ ((forall n1 n2 : string,
          n1 ∈ dom (Files.files f) -> n2 ∈ dom (Files.files f) ->
          path.Base n1 = path.Base n2 -> n1 = n2) ->
      forall name data : string,
        Files.files f !! name = Some data ->
        Files.AsConfig range f !! path.Base name = Some data
        /\ Files.AsSecrets range f !! path.Base name = Some data).
Proof.
  split.
  - intros key. unfold Files.AsConfig.
    rewrite (fold_insert_dom _ (fun e => Some (path.Base e.1, e.2)) AsConfig_step).
    rewrite dom_empty_L. split.
    + intros [Hk | ([n d] & Hel & v & Hw)]; [by apply elem_of_empty in Hk|].
      injection Hw as <- <-. exists n. split; [|done].
      apply elem_of_dom. exists d. by apply range_elem.
    + intros (name & [d Hd]%elem_of_dom & ->). right.
      exists (name, d). split; [by apply range_elem | by exists d].
  - intros Hinj name data Hget.
    destruct (range_split _ _ _ Hget) as (pre & post & Heq & Hpost).
    assert (Forall (fun e => ~ writes (fun e => Some (path.Base e.1, e.2))
                                (path.Base name) e) post) as Hnot.
    { apply Forall_forall. intros [n d] Hel [v Hw]. injection Hw as Hb _.
      assert ((n, d) ∈ range (Files.files f)) as Hnd.
      { rewrite Heq. apply elem_of_app. right. by right. }
      apply range_elem in Hnd.
      assert (n = name) as ->.
      { apply Hinj; [by apply elem_of_dom; eexists.. | done]. }
      rewrite Forall_forall in Hpost. by apply (Hpost _ Hel). }
    unfold Files.AsConfig, Files.AsSecrets. rewrite Heq.
    split;
      by apply (fold_insert_last _ (fun e => Some (path.Base e.1, e.2)) AsConfig_step).
Qed.

Variable Match : string -> string -> result bool.

Lemma Glob_step (pattern : string) (m : gmap string string) (e : string * string) :
  (let '(name, data) := e in
   match Match pattern name with
   | Ok true => <[name := data]> m
   | _ => m
   end)
  = match (match Match pattern e.1 with
           | Ok true => Some (e.1, e.2)
           | _ => None
           end) with
    | Some (k, v) => <[k := v]> m
    | None => m
    end.
Proof. destruct e as [n d]. simpl. by destruct (Match pattern n) as [[]|]. Qed.

(** X3. Whatever the order in which the map is visited, [Glob] returns
    the entries of the files map whose name [path.Match] accepts, with their
    data: it adds and changes nothing.  A pattern that matches no name, or
    that [path.Match] rejects, gives the empty map and no error. *)
Theorem Files_Glob_selects (f : Files.t) (pattern : string) :
  (forall name data : string,
      Files.Glob range Match f pattern !! name = Some data
      <-> Files.files f !! name = Some data /\ Match pattern name = Ok true)
  /\ ((forall name : string, Match pattern name <> Ok true) ->
      Files.Glob range Match f pattern = ∅).
Proof.
  assert (forall name data : string,
      Files.Glob range Match f pattern !! name = Some data
      <-> Files.files f !! name = Some data /\ Match pattern name = Ok true)
    as Hiff.
  { intros name data. unfold Files.Glob. split.
    - intros [Hm | ([n d] & Hel & He)]%(fold_insert_origin _ _ (Glob_step pattern)).
      + by rewrite lookup_empty in Hm.
      + simpl in He. destruct (Match pattern n) as [[]|] eqn:Hmatch; try done.
        injection He as -> ->. split; [by apply range_elem | done].
    - intros [Hget Hmatch].
      destruct (range_split _ _ _ Hget) as (pre & post & Heq & Hpost).
      rewrite Heq.
      apply (fold_insert_last _ _ (Glob_step pattern)); simpl.
      + by rewrite Hmatch.
      + eapply Forall_impl; [exact Hpost|]. intros [n d] Hne [v Hw].
        simpl in *. destruct (Match pattern n) as [[]|]; try done.
        by injection Hw as ->. }
  split; [exact Hiff|].
  intros Hnone. apply map_eq. intros name. rewrite lookup_empty.
  destruct (Files.Glob range Match f pattern !! name) as [data|] eqn:Hg; [|done].
  apply Hiff in Hg as [_ Hm]. by apply Hnone in Hm.
Qed.

End Ranges.

End FilesAccess.

(** ** gotemplate-render: what the two passes write *)

Section RenderMore.

Import strings GotemplateRender.

Variable Unmarshal : string -> result InputMessageRenderV1.

Context `{TT : TextTemplate TemplateData}.

Lemma emit_step (input : InputMessageRenderV1) (m : gmap string string)
  (f : SourceFile) :
  emit input m f
  = match (fun g => (fun r => (Name g, r)) <$> emitted input g) f with
    | Some (k, v) => <[k := v]> m
    | None => m
    end.
Proof. unfold emit. by destruct (emitted input f). Qed.

Lemma emitted_Some (input : InputMessageRenderV1) (f : SourceFile)
  (rendered : string) :
  emitted input f = Some rendered
  <-> isPartial f = false /\ hasTemplateSuffix (Name f) = true
      /\ outcome input f = Ok rendered /\ TrimSpace rendered <> "".
Proof.
  unfold emitted, isPrimary, whitespace.
  destruct (isPartial f); simpl.
  - split; [done | by intros [? _]].
  - destruct (hasTemplateSuffix (Name f)); simpl.
    + destruct (outcome input f) as [r|e].
      * destruct (String.eqb_spec (TrimSpace r) "") as [Heq|Hne].
        -- split; [done|]. by intros (_ & _ & [= ->] & Hne).
        -- split; [by intros [= <-] | by intros (_ & _ & [= ->] & _)].
      * split; [done | by intros (_ & _ & ? & _)].
    + split; [done | by intros (_ & ? & _)].
Qed.

(** X4. Every key of [RenderedFiles] is the name of a source file that is
    no partial, has a template extension and rendered to the text stored
    under the key, which is not white space only: partials and files of
    other extensions are never rendered. *)
Theorem rendered_files_are_primary
  (inputBytes : string) (input : InputMessageRenderV1) :
  Unmarshal inputBytes = Ok input ->
  exists output,
    HelmPluginMain Unmarshal inputBytes = Exit 0 output
    /\ forall name rendered : string,
         RenderedFiles output !! name = Some rendered ->
         exists f,
           f ∈ SourceFiles input /\ Name f = name
           /\ isPartial f = false /\ hasTemplateSuffix name = true
           /\ outcome input f = Ok rendered /\ TrimSpace rendered <> "".
Proof.
  intros Hin. rewrite (HelmPluginMain_decoded _ _ _ Hin).
  eexists. split; [reflexivity|]. simpl. intros name rendered Hget.
  apply (fold_insert_origin _ _ (emit_step input)) in Hget
    as [Hm | (f & Hf & He)]; [by rewrite lookup_empty in Hm|].
  destruct (emitted input f) as [r|] eqn:Hem; [|done].
  injection He as <- ->. exists f.
  apply emitted_Some in Hem as (? & ? & ? & ?). auto 10.
Qed.

Lemma emit_last (input : InputMessageRenderV1) (pre post : list SourceFile)
  (f : SourceFile) (rendered : string) :
  emitted input f = Some rendered ->
  Forall (fun g => Name g <> Name f) post ->
  fold_left (emit input) (pre ++ f :: post) ∅ !! Name f = Some rendered.
Proof.
  intros Hem Hpost.
  apply (fold_insert_last _ _ (emit_step input)).
  - simpl. by rewrite Hem.
  - eapply Forall_impl; [exact Hpost|]. intros g Hne [v Hw]. simpl in Hw.
    destruct (emitted input g); [|done]. by injection Hw as ? _.
Qed.







Lemma register_partials (files : list SourceFile) :
  forall m : Tmpl,
    fold_left register files m
    = fold_left register (List.filter isPartial files) m.
Proof.
  induction files as [|f files IH]; intros m; simpl; [done|].
  destruct (isPartial f) eqn:Hp; simpl; [apply IH|].
  rewrite IH. unfold register at 2. by rewrite Hp.
Qed.

(** X7. What a file renders to depends on the partials among the source
    files only: a regular template is parsed into a clone of the master
    template, so it changes nothing for the other files.  Two inputs that
    differ in their source files but have the same partials, in the same
    order, render a file to the same text or error; without partials a file
    is rendered with the master template as it was created. *)
Theorem rendering_depends_on_partials_only
  (input : InputMessageRenderV1) (files : list SourceFile) (f : SourceFile) :
  List.filter isPartial files = List.filter isPartial (SourceFiles input) ->
  outcome (withSourceFiles input files) f = outcome input f
  /\ (List.filter isPartial (SourceFiles input) = [] ->
      outcome input f = executeFile input (filesOf input) master0 f).
Proof.
  intros Hsame. unfold outcome, masterOf, filesOf. simpl.
  rewrite (register_partials files), (register_partials (SourceFiles input)), Hsame.
  split; [done|]. by intros ->.
Qed.

Lemma outcome_partials (input : InputMessageRenderV1) (files : list SourceFile)
  (f : SourceFile) :
  List.filter isPartial files = List.filter isPartial (SourceFiles input) ->
  outcome (withSourceFiles input files) f = outcome input f.
Proof.
  intros Hsame. unfold outcome, masterOf, filesOf. simpl.
  by rewrite (register_partials files), (register_partials (SourceFiles input)),
    Hsame.
Qed.

Lemma registerErrors_partials (files : list SourceFile) :
  forall m : Tmpl,
    registerErrors m files = registerErrors m (List.filter isPartial files).
Proof.
  induction files as [|f files IH]; intros m; simpl; [done|].
  destruct (isPartial f) eqn:Hp; simpl.
  - by rewrite IH.
  - rewrite IH. unfold registerError, register. by rewrite Hp.
Qed.

(** With pairwise distinct names, a name is rendered when one of the files
    has it and renders. *)
Lemma emit_lookup (input : InputMessageRenderV1) (l : list SourceFile)
  (n r : string) :
  NoDup (List.map Name l) ->
  fold_left (emit input) l ∅ !! n = Some r
  <-> exists f, f ∈ l /\ Name f = n /\ emitted input f = Some r.
Proof.
  intros Hnd. split.
  - intros [Hm | (f & Hf & He)]%(fold_insert_origin _ _ (emit_step input));
      [by rewrite lookup_empty in Hm|].
    simpl in He. destruct (emitted input f) as [r'|] eqn:Hem; [|done].
    injection He as <- <-. by exists f.
  - intros (f & Hf & <- & He).
    apply list_elem_of_split in Hf as (pre & post & ->).
    apply emit_last; [done|].
    rewrite List.map_app in Hnd. apply NoDup_app in Hnd as (_ & _ & Hnd).
    simpl in Hnd. apply NoDup_cons in Hnd as [Hnot _].
    apply Forall_forall. intros g Hg Heq. apply Hnot.
    rewrite <- Heq. apply list_elem_of_fmap. by exists g.
Qed.

Lemma failures_Permutation (input : InputMessageRenderV1) (l l' : list SourceFile) :
  l' ≡ₚ l ->
  concat (List.map (failure input) l') ≡ₚ concat (List.map (failure input) l).
Proof.
  induction 1 as [|x l1 l2 _ IH|x y l1|l1 l2 l3 _ IH1 _ IH2]; simpl.
  - done.
  - by rewrite IH.
  - rewrite !app_assoc. f_equiv. apply Permutation_app_comm.
  - by rewrite IH1.
Qed.

(** X28. The order of the regular templates does not matter.  Two inputs
    with the same source files in different orders, the partials in the
    same order and all names distinct, give the same [RenderedFiles] and
    the same errors, up to the order of the errors of the second pass. *)
Theorem order_of_regular_templates_is_irrelevant
  (inputBytes inputBytes' : string) (input : InputMessageRenderV1)
  (files' : list SourceFile) :
  Unmarshal inputBytes = Ok input ->
  Unmarshal inputBytes' = Ok (withSourceFiles input files') ->
  files' ≡ₚ SourceFiles input ->
  List.filter isPartial files' = List.filter isPartial (SourceFiles input) ->
  NoDup (List.map Name (SourceFiles input)) ->
  exists output output',
    HelmPluginMain Unmarshal inputBytes = Exit 0 output
    /\ HelmPluginMain Unmarshal inputBytes' = Exit 0 output'
    /\ RenderedFiles output' = RenderedFiles output
    /\ Errors output' ≡ₚ Errors output.
Proof.
  intros Hin Hin' Hperm Hpartials Hnd.
  rewrite (HelmPluginMain_decoded _ _ _ Hin), (HelmPluginMain_decoded _ _ _ Hin').
  eexists _, _. split; [reflexivity|]. split; [reflexivity|].
  cbn [RenderedFiles Errors SourceFiles withSourceFiles].
  assert (forall g, emitted (withSourceFiles input files') g = emitted input g)
    as Hemitted.
  { intros g. unfold emitted. by rewrite outcome_partials. }
  assert (forall g, failure (withSourceFiles input files') g = failure input g)
    as Hfailure.
  { intros g. unfold failure. by rewrite outcome_partials. }
  assert (NoDup (List.map Name files')) as Hnd'.
  { change (NoDup (Name <$> files')). rewrite Hperm. exact Hnd. }
  split.
  - apply map_eq. intros n.
    assert (forall l m,
              fold_left (emit (withSourceFiles input files')) l m
              = fold_left (emit input) l m) as ->.
    { induction l as [|g l IH]; intros m; simpl; [done|].
      rewrite IH. f_equal. unfold emit. by rewrite Hemitted. }
    destruct (fold_left (emit input) (SourceFiles input) ∅ !! n) as [r|] eqn:Hr.
    + apply (emit_lookup input _ n r Hnd) in Hr as (f & Hf & Hn & He).
      apply (emit_lookup input _ n r Hnd'). exists f.
      split; [by rewrite Hperm | done].
    + destruct (fold_left (emit input) files' ∅ !! n) as [r'|] eqn:Hr'; [|done].
      apply (emit_lookup input _ n r' Hnd') in Hr' as (f & Hf & Hn & He).
      assert (fold_left (emit input) (SourceFiles input) ∅ !! n = Some r') as Hr''.
      { apply (emit_lookup input _ n r' Hnd). exists f.
        split; [by rewrite <- Hperm | done]. }
      congruence.
  - rewrite (registerErrors_partials files'), Hpartials,
      <- (registerErrors_partials (SourceFiles input)).
    apply Permutation_app; [done|].
    rewrite (List.map_ext _ _ Hfailure). by apply failures_Permutation.
Qed.

(** X29. A source file that is neither a partial nor named with a
    template extension is inert: the run on the input without it returns
    the same status and the same output message. *)
Theorem skipped_files_are_inert
  (inputBytes inputBytes' : string) (input : InputMessageRenderV1)
  (pre post : list SourceFile) (f : SourceFile) :
  Unmarshal inputBytes = Ok input ->
  SourceFiles input = pre ++ f :: post ->
  Unmarshal inputBytes' = Ok (withSourceFiles input (pre ++ post)) ->
  isPartial f = false ->
  hasTemplateSuffix (Name f) = false ->
  HelmPluginMain Unmarshal inputBytes' = HelmPluginMain Unmarshal inputBytes.
Proof.
  intros Hin Hfiles Hin' Hpartial Hsuffix.
  rewrite (HelmPluginMain_decoded _ _ _ Hin), (HelmPluginMain_decoded _ _ _ Hin').
  simpl SourceFiles.
  rewrite (emit_skip input pre post f Hfiles Hpartial).
  rewrite (failure_skip input pre post f Hfiles Hpartial).
  rewrite Hfiles, (registerErrors_skip pre post f master0 Hpartial).
  assert (isPrimary f = false) as Hprim.
  { unfold isPrimary. by rewrite Hsuffix, andb_false_r. }
  assert (forall m, emit input m f = m) as Hemit.
  { intros m. unfold emit, emitted. by rewrite Hprim. }
  assert (failure input f = []) as Hfail.
  { unfold failure. by rewrite Hprim. }
  do 2 f_equal.
  - rewrite !fold_left_app. cbn [fold_left]. by rewrite Hemit.
  - f_equal. rewrite !List.map_app, !concat_app. cbn [List.map concat].
    by rewrite Hfail.
Qed.

End RenderMore.

(** ** sourcefiles-modifier on any number of files *)

Section ModifierMore.

Import strings SourcefilesModifier.

Variable Unmarshal : string -> result InputMessageRenderV1.

(** From the fourth file on, every file is passed through. *)
Lemma processFiles_pass (files : list SourceFile) :
  forall (i : nat) (modified : list SourceFile) (actions : list string),
    (3 <= i)%nat ->
    processFiles i files (modified, actions)
    = (modified ++ files,
       actions ++ List.map (fun f => "PASSED: " +:+ Name f) files).
Proof.
  induction files as [|f files IH]; intros i modified actions Hi; simpl.
  - by rewrite !app_nil_r.
  - destruct i as [|[|[|i]]]; try lia. simpl.
    rewrite IH by lia. by rewrite <- !app_assoc.
Qed.

(** X15. On three or more source files, sourcefiles-modifier removes the
    first, prefixes the content of the second, renames the third (its
    suffix [.test], if it has it, replaced by [.renamed]; otherwise
    [.renamed] is appended to the whole name), passes every further file
    through unchanged and in order, and appends [templates/file4.test].  The
    only rendered file is the summary, which lists one action per source
    file and the addition, and the two counts. *)
Theorem modifier_passes_the_rest_through
  (inputBytes : string) (input : InputMessageRenderV1)
  (A B C : SourceFile) (rest : list SourceFile) :
  Unmarshal inputBytes = Ok input ->
  SourceFiles input = A :: B :: C :: rest ->
  HelmPluginMain Unmarshal inputBytes
  = Exit 0
      {| RenderedFiles :=
           {[ "sourcefiles-modifier-summary.yaml" :=
                summary
                  (["REMOVED: " +:+ Name A;
                    "MODIFIED: " +:+ Name B;
                    "RENAMED: " +:+ Name C +:+ " -> "
                    +:+ TrimSuffix (Name C) ".test" +:+ ".renamed"]
                   ++ List.map (fun f => "PASSED: " +:+ Name f) rest
                   ++ ["ADDED: templates/file4.test"])
                  (3 + length rest) (3 + length rest) ]};
         ModifiedSourceFiles :=
           [ {| Name := Name B;
                Data := "[MODIFIED BY PLUGIN 1]" +:+ json.newline +:+ Data B |};
             {| Name := TrimSuffix (Name C) ".test" +:+ ".renamed";
                Data := Data C |} ]
           ++ rest
           ++ [ {| Name := "templates/file4.test"; Data := newFileContent |} ];
         Errors := [] |}.
Proof.
  intros Hin Hfiles. unfold HelmPluginMain. rewrite Hin, Hfiles.
  cbn [processFiles processFile]. rewrite processFiles_pass by lia.
  cbn [app length]. rewrite length_app. cbn [length].
  replace (S (S (length rest + 1))) with (3 + length rest)%nat by lia.
  reflexivity.
Qed.

(** X16. On a decoded input, sourcefiles-modifier always replaces the
    source files: [ModifiedSourceFiles] ends with the added file, so it is
    never empty and is always written to the output message, next to
    [renderedFiles] and without [errors].  It has as many files as the
    input, and one for an empty input; for an input of at most one file it
    is the added file alone. *)
Theorem modifier_always_hands_off
  (inputBytes : string) (input : InputMessageRenderV1) :
  Unmarshal inputBytes = Ok input ->
  exists output,
    HelmPluginMain Unmarshal inputBytes = Exit 0 output
    /\ last (ModifiedSourceFiles output)
       = Some {| Name := "templates/file4.test"; Data := newFileContent |}
    /\ length (ModifiedSourceFiles output)
       = Nat.max 1 (length (SourceFiles input))
    /\ json_fields output = ["renderedFiles"; "modifiedSourceFiles"]
    /\ ((length (SourceFiles input) <= 1)%nat ->
        ModifiedSourceFiles output
        = [ {| Name := "templates/file4.test"; Data := newFileContent |} ]).
Proof.
  intros Hin. unfold HelmPluginMain. rewrite Hin.
  destruct (SourceFiles input) as [|A [|B [|C rest]]].
  - eexists. split; [reflexivity|]. simpl. auto.
  - eexists. split; [reflexivity|]. simpl. auto.
  - eexists. split; [reflexivity|]. simpl. repeat split; lia.
  - cbn [processFiles processFile]. rewrite processFiles_pass by lia.
    eexists. split; [reflexivity|]. cbn [ModifiedSourceFiles Errors app].
    split; [|split; [|split]].
    + change ([] ++ ?x) with x.
      rewrite !app_comm_cons, last_snoc. done.
    + cbn [length]. rewrite length_app. cbn [length]. lia.
    + unfold json_fields. cbn [ModifiedSourceFiles Errors app]. done.
    + cbn [length]. lia.
Qed.

End ModifierMore.

(** ** Replacing one byte *)

Section ReplaceByte.

Import strings.

Lemma chars_app (a b : string) :
  list_ascii_of_string (a +:+ b) = list_ascii_of_string a ++ list_ascii_of_string b.
Proof.
  induction a as [|c a IH]; [done|].
  change (String c a +:+ b) with (String c (a +:+ b)). simpl. by rewrite IH.
Qed.

Lemma replace_go_byte (c : ascii) (new : string) (fuel : nat) (a : ascii) (r : string) :
  replace_go (S fuel) (String a r) (String c "") new
  = if Ascii.eqb a c then new +:+ replace_go fuel r (String c "") new
    else String a (replace_go fuel r (String c "") new).
Proof.
  cbn [replace_go String.eqb]. unfold HasPrefix, slice. cbn [len String.length Nat.leb Nat.sub].
  cbn [String.substring]. replace (String.substring 0 0 r) with "" by by destruct r.
  cbn [andb drop]. destruct (Ascii.eqb_spec a c) as [->|Hne].
  - by rewrite String.eqb_refl.
  - assert (String.eqb (String a "") (String c "") = false) as ->; [|done].
    apply String.eqb_neq. congruence.
Qed.

(** [ReplaceAll(s, old, new)] for a one-byte [old], byte by byte. *)
Lemma ReplaceAll_byte (c : ascii) (new s : string) :
  list_ascii_of_string (ReplaceAll s (String c "") new)
  = flat_map (fun a => if Ascii.eqb a c then list_ascii_of_string new else [a])
      (list_ascii_of_string s).
Proof.
  unfold ReplaceAll. induction s as [|a s IH]; [done|].
  cbn [len String.length]. rewrite replace_go_byte.
  cbn [list_ascii_of_string flat_map].
  destruct (Ascii.eqb a c).
  - rewrite chars_app. by rewrite <- IH.
  - simpl. by rewrite <- IH.
Qed.

Lemma substring_chars (P : ascii -> Prop) (s : string) :
  Forall P (list_ascii_of_string s) ->
  forall n m, Forall P (list_ascii_of_string (String.substring n m s)).
Proof.
  induction s as [|a s IH]; intros Hs n m.
  - destruct n, m; constructor.
  - apply Forall_cons in Hs as [Ha Hs].
    destruct n as [|n]; [destruct m as [|m]|]; simpl.
    + constructor.
    + apply Forall_cons. split; [done | by apply IH].
    + by apply IH.
Qed.

End ReplaceByte.

(** ** The test-processor plugin *)

Section TestProcessorFacts.

Import strings TestProcessor.

Variable Unmarshal : string -> result InputMessageRenderV1.

(** X19. The name that [sanitizeName] returns contains no slash and no
    dot. *)
Theorem sanitizeName_has_no_separator (name : string) :
  Contains (sanitizeName name) "/" = false
  /\ Contains (sanitizeName name) "." = false.
Proof.
  assert (forall (c : ascii) (s : string),
            c <> "-"%char ->
            Forall (fun a => a <> c)
              (list_ascii_of_string (ReplaceAll s (String c "") "-"))) as Hgone.
  { intros c s Hc. rewrite ReplaceAll_byte.
    induction (list_ascii_of_string s) as [|a l IH]; simpl; [constructor|].
    destruct (Ascii.eqb_spec a c) as [->|Hne]; simpl.
    - apply Forall_cons. split; [congruence | done].
    - apply Forall_cons. split; done. }
  assert (forall (c d : ascii) (s : string),
            d <> "-"%char ->
            Forall (fun a => a <> d) (list_ascii_of_string s) ->
            Forall (fun a => a <> d)
              (list_ascii_of_string (ReplaceAll s (String c "") "-"))) as Hkept.
  { intros c d s Hd Hs. rewrite ReplaceAll_byte.
    induction Hs as [|a l Ha _ IH]; simpl; [constructor|].
    destruct (Ascii.eqb a c); simpl.
    - apply Forall_cons. split; [congruence | done].
    - apply Forall_cons. split; done. }
  assert (forall (P : ascii -> Prop) (s prefix : string),
            Forall P (list_ascii_of_string s) ->
            Forall P (list_ascii_of_string (TrimPrefix s prefix))) as Htrim.
  { intros P s prefix Hs. unfold TrimPrefix, slice.
    destruct (HasPrefix s prefix); [by apply substring_chars | done]. }
  unfold sanitizeName. split; apply Contains_byte, Htrim.
  - apply Hkept; [done|]. by apply Hgone.
  - by apply Hgone.
Qed.

Lemma writeLines_app (l1 l2 : list string) :
  writeLines (l1 ++ l2) = writeLines l1 +:+ writeLines l2.
Proof.
  induction l1 as [|line l1 IH]; [done|].
  simpl. rewrite IH. by rewrite <- !app_assoc_s.
Qed.

(** X20. [indentContent] writes every line of the content, prefixed by
    four spaces and followed by a newline: it distributes over texts joined
    by a newline, and a text without newline gives one line (the empty
    content gives one line of four spaces). *)
Theorem indentContent_by_lines :
  (forall a b : string,
      indentContent (a +:+ json.newline +:+ b)
      = indentContent a +:+ indentContent b)
  /\ (forall line : string,
         Contains line json.newline = false ->
         indentContent line = "    " +:+ line +:+ json.newline).
Proof.
  split.
  - intros a b. unfold indentContent.
    change (a +:+ json.newline +:+ b) with (a +:+ String "010" b).
    by rewrite SplitByte_app, writeLines_app.
  - intros line Hline. unfold indentContent.
    rewrite (SplitByte_plain _ _ Hline). simpl. by rewrite append_empty_r.
Qed.

Lemma processFile_step (m : gmap string string) (f : SourceFile) :
  <[outputName f := content f]> m
  = match Some (outputName f, content f) with
    | Some (k, v) => <[k := v]> m
    | None => m
    end.
Proof. done. Qed.

Lemma processFile_fold (files : list SourceFile) :
  forall (rendered : gmap string string) (fileList : list string),
    fold_left processFile files (rendered, fileList)
    = (fold_left (fun m f => <[outputName f := content f]> m) files rendered,
       fileList ++ List.map Name files).
Proof.
  induction files as [|f files IH]; intros rendered fileList; simpl.
  - by rewrite app_nil_r.
  - rewrite IH. by rewrite <- app_assoc.
Qed.

(** X17. On a decoded input, test-processor returns status 0, no errors
    and no modified source files.  The keys of [RenderedFiles] are the
    summary name and the output names of the source files (the name
    without a suffix [.test], plus [.yaml]); the entry of the summary name
    is always the summary, which reports the number and the names of the
    source files in order. *)
Theorem test_processor_output
  (inputBytes : string) (input : InputMessageRenderV1) :
  Unmarshal inputBytes = Ok input ->
  exists output,
    HelmPluginMain Unmarshal inputBytes = Exit 0 output
    /\ RenderedFiles output !! summaryName
       = Some (summaryContent (length (SourceFiles input))
                 (List.map Name (SourceFiles input)))
    /\ (forall key : string,
           key ∈ dom (RenderedFiles output)
           <-> key = summaryName
               \/ exists f, f ∈ SourceFiles input /\ key = outputName f)
    /\ ModifiedSourceFiles output = []
    /\ Errors output = [].
Proof.
  intros Hin. unfold HelmPluginMain. rewrite Hin, processFile_fold.
  eexists. split; [reflexivity|]. cbn [RenderedFiles ModifiedSourceFiles Errors app].
  split; [apply lookup_insert_eq|]. split; [|done].
  intros key. rewrite dom_insert, elem_of_union, elem_of_singleton.
  rewrite (fold_insert_dom _ (fun f => Some (outputName f, content f)) processFile_step),
    dom_empty.
  split.
  - intros [->|[Hk|(f & Hf & v & Hw)]]; [auto | by apply elem_of_empty in Hk |].
    injection Hw as <- _. right. by exists f.
  - intros [->|(f & Hf & ->)]; [auto|]. right. right.
    exists f. split; [done|]. by exists (content f).
Qed.

(** X18. test-processor stores the rendering of a source file under its
    output name; it is the entry of the output when no later source file
    has the same output name and the name is not that of the summary. *)
Theorem test_processor_last_wins
  (inputBytes : string) (input : InputMessageRenderV1)
  (pre post : list SourceFile) (f : SourceFile) :
  Unmarshal inputBytes = Ok input ->
  SourceFiles input = pre ++ f :: post ->
  Forall (fun g => outputName g <> outputName f) post ->
  outputName f <> summaryName ->
  exists output,
    HelmPluginMain Unmarshal inputBytes = Exit 0 output
    /\ RenderedFiles output !! outputName f = Some (content f).
Proof.
  intros Hin Hfiles Hpost Hsum. unfold HelmPluginMain.
  rewrite Hin, processFile_fold.
  eexists. split; [reflexivity|]. cbn [RenderedFiles].
  rewrite lookup_insert_ne by done. rewrite Hfiles.
  apply (fold_insert_last _ (fun f => Some (outputName f, content f)) processFile_step);
    [done|].
  eapply Forall_impl; [exact Hpost|]. intros g Hne [v Hw].
  by injection Hw as ? _.
Qed.

End TestProcessorFacts.

(** ** sourcefiles-modifier followed by test-processor *)

Section HandoffToTestProcessor.

Import strings.

Variable Unmarshal1 : string -> result SourcefilesModifier.InputMessageRenderV1.

Variable Unmarshal2 : string -> result TestProcessor.InputMessageRenderV1.

(** X21. The two plugins in sequence.  sourcefiles-modifier runs on three
    source files [A; B; C], the third named with the suffix [.test]; its
    modified source files are the source files of test-processor.  Then
    test-processor reports three files received, [B], the renamed [C] and
    [templates/file4.test], and renders them under the names of [B] with
    [.test] replaced by [.yaml], of the renamed file with [.yaml] appended,
    and [templates/file4.yaml], next to its summary. *)
Theorem modifier_then_test_processor
  (bytes1 bytes2 : string)
  (input1 : SourcefilesModifier.InputMessageRenderV1)
  (input2 : TestProcessor.InputMessageRenderV1)
  (out1 : OutputMessageRenderV1)
  (A B C : SourceFile) (stem : string) :
  Unmarshal1 bytes1 = Ok input1 ->
  SourcefilesModifier.SourceFiles input1 = [A; B; C] ->
  Name C = stem +:+ ".test" ->
  SourcefilesModifier.HelmPluginMain Unmarshal1 bytes1 = Exit 0 out1 ->
  Unmarshal2 bytes2 = Ok input2 ->
  TestProcessor.SourceFiles input2 = ModifiedSourceFiles out1 ->
  exists out2,
    TestProcessor.HelmPluginMain Unmarshal2 bytes2 = Exit 0 out2
    /\ RenderedFiles out2 !! TestProcessor.summaryName
       = Some (TestProcessor.summaryContent 3
                 [Name B; stem +:+ ".renamed"; "templates/file4.test"])
    /\ dom (RenderedFiles out2)
       = {[ TestProcessor.summaryName;
            TrimSuffix (Name B) ".test" +:+ ".yaml";
            (stem +:+ ".renamed") +:+ ".yaml";
            "templates/file4.yaml" ]}
    /\ RenderedFiles out2 !! "templates/file4.yaml"
       = Some (TestProcessor.content
                 {| Name := "templates/file4.test";
                    Data := SourcefilesModifier.newFileContent |}).
Proof.
  intros Hin1 Hfiles HC Hrun1 Hin2 Hfiles2.
  unfold SourcefilesModifier.HelmPluginMain in Hrun1.
  rewrite Hin1, Hfiles in Hrun1. cbn [SourcefilesModifier.processFiles
    SourcefilesModifier.processFile app] in Hrun1.
  injection Hrun1 as <-. cbn [ModifiedSourceFiles] in Hfiles2.
  rewrite HC, TrimSuffix_app in Hfiles2.
  unfold TestProcessor.HelmPluginMain. rewrite Hin2, Hfiles2.
  rewrite processFile_fold. cbn [fold_left List.map Name app length].
  eexists. split; [reflexivity|]. cbn [RenderedFiles].
  unfold TestProcessor.outputName. cbn [Name]. rewrite TrimSuffix_renamed.
  change (TrimSuffix SourcefilesModifier.newFileName ".test" +:+ ".yaml")
    with "templates/file4.yaml".
  split; [apply lookup_insert_eq|]. split.
  - rewrite !dom_insert_L, dom_empty_L. apply set_eq. intros x. set_unfold. tauto.
  - rewrite lookup_insert_ne by done. apply lookup_insert_eq.
Qed.

End HandoffToTestProcessor.

(** ** echo-render: status, names and contents *)

Section EchoMore.

Import strings EchoRender.

Variable Unmarshal : string -> result InputMessage.

Lemma echo_step (releaseName : string) (m : gmap string string) (sf : SourceFile) :
  <[echoName (Name sf) := echoContent releaseName sf]> m
  = match Some (echoName (Name sf), echoContent releaseName sf) with
    | Some (k, v) => <[k := v]> m
    | None => m
    end.
Proof. done. Qed.

Lemma renderFiles_fold (releaseName : string) (files : list SourceFile) :
  Forall long_enough files ->
  forall rendered,
    renderFiles releaseName files rendered
    = Ok (fold_left
            (fun m sf => <[echoName (Name sf) := echoContent releaseName sf]> m)
            files rendered).
Proof.
  induction 1 as [|sf files Hsf _ IH]; intros rendered; [done|].
  cbn [renderFiles fold_left]. rewrite (dropLast5_ok _ Hsf). cbn [bind].
  rewrite IH. reflexivity.
Qed.

(** C9. echo-render names each output by the source name without its last
    5 bytes, plus [.yaml].  On a decoded, non-empty input whose source file
    names all have at least 5 bytes the run returns status 0, the keys of
    [RenderedFiles] are exactly these names, and the entry of a source file
    is its header and data when no later file gets the same output name.
    As soon as one name is shorter than 5 bytes the slice expression
    panics, at the first such file and with the negative bound in the
    message, and the run returns no output message; there is a well-formed
    input of this kind. *)
Theorem C9_echo_short_name_traps :
  (forall (inputData : string) (input : InputMessage),
      len inputData <> 0%nat ->
      Unmarshal inputData = Ok input ->
      (Forall long_enough (SourceFiles input) ->
       exists output,
         HelmPluginMain Unmarshal inputData = Exit 0 output
         /\ (forall key : string,
                key ∈ dom (RenderedFiles output)
                <-> exists sf, sf ∈ SourceFiles input
                               /\ key = slice (Name sf) 0 (len (Name sf) - 5)
                                        +:+ ".yaml")
         /\ (forall (pre post : list SourceFile) (sf : SourceFile),
                SourceFiles input = pre ++ sf :: post ->
                Forall (fun g => echoName (Name g) <> echoName (Name sf)) post ->
                RenderedFiles output
                  !! (slice (Name sf) 0 (len (Name sf) - 5) +:+ ".yaml")
                = Some (echoContent (releaseName (Release input)) sf)))
      /\ (forall (pre post : list SourceFile) (sf : SourceFile),
             SourceFiles input = pre ++ sf :: post ->
             Forall long_enough pre -> too_short sf ->
             HelmPluginMain Unmarshal inputData
             = Panic ("runtime error: slice bounds out of range [:"
                      +:+ dyn.digits (Z.of_nat (len (Name sf)) - 5) +:+ "]"))
      /\ (Exists too_short (SourceFiles input) ->
          exists msg, HelmPluginMain Unmarshal inputData = Panic msg))
  /\ (exists (inputData : string) (input : InputMessage),
         json_Unmarshal inputData = Ok input
         /\ Exists too_short (SourceFiles input)
         /\ run inputData
            = Panic "runtime error: slice bounds out of range [:-1]").
Proof.
  split.
  - intros inputData input Hne Hin.
    assert (forall pre post sf,
               SourceFiles input = pre ++ sf :: post ->
               Forall long_enough pre -> too_short sf ->
               HelmPluginMain Unmarshal inputData
               = Panic ("runtime error: slice bounds out of range [:"
                        +:+ dyn.digits (Z.of_nat (len (Name sf)) - 5) +:+ "]"))
      as Hpanic.
    { intros pre post sf Hfiles Hpre Hshort. unfold HelmPluginMain.
      destruct (Nat.eqb_spec (len inputData) 0) as [|_]; [done|].
      by rewrite Hin, Hfiles, (renderFiles_first_short _ _ _ _ Hpre Hshort). }
    split; [|split; [exact Hpanic|]].
    + intros Hlong. unfold HelmPluginMain.
      destruct (Nat.eqb_spec (len inputData) 0) as [|_]; [done|].
      rewrite Hin, (renderFiles_fold _ _ Hlong).
      eexists. split; [reflexivity|]. cbn [RenderedFiles]. split.
      * intros key.
        rewrite (fold_insert_dom _
                   (fun sf => Some (echoName (Name sf),
                                    echoContent (releaseName (Release input)) sf))
                   (echo_step _)), dom_empty.
        split.
        -- intros [Hk | (g & Hg & v & Hw)]; [by apply elem_of_empty in Hk|].
           injection Hw as <- _. by exists g.
        -- intros (g & Hg & ->). right. exists g. split; [done|]. by eexists.
      * intros pre post sf Hfiles Hpost. rewrite Hfiles.
        apply (fold_insert_last _
                 (fun sf => Some (echoName (Name sf),
                                  echoContent (releaseName (Release input)) sf))
                 (echo_step _)); [done|].
        eapply Forall_impl; [exact Hpost|]. intros g Hg [v Hw].
        by injection Hw as ? _.
    + intros (pre & sf & post & Hfiles & Hpre & Hshort)%first_short.
      eexists. by eapply Hpanic.
  - exists (envelope [ {| Name := "a.ec"; Data := "x" |} ]),
      (mkInput VNil VNil VNil [ {| Name := "a.ec"; Data := "x" |} ]).
    split; [by vm_compute|]. split; [|by vm_compute].
    apply Exists_cons_hd. unfold too_short. vm_compute. lia.
Qed.

(** X22. echo-render reports an empty input as "no input provided" and
    an input that does not decode with the error of the decoder, both with
    status 1.  An output message with status 1 has no rendered files and
    one error; one with status 0 has no errors. *)
Theorem echo_status_and_errors (inputData : string) :
  (len inputData = 0%nat ->
   HelmPluginMain Unmarshal inputData
   = Exit 1 {| RenderedFiles := ∅; Errors := ["no input provided"] |})
  /\ (forall err : string,
         len inputData <> 0%nat ->
         Unmarshal inputData = Err err ->
         HelmPluginMain Unmarshal inputData
         = Exit 1 {| RenderedFiles := ∅;
                     Errors := ["failed to parse input: " +:+ err] |})
  /\ (forall (status : Z) (output : OutputMessage),
         HelmPluginMain Unmarshal inputData = Exit status output ->
         (status = 0 /\ Errors output = [])
         \/ (status = 1 /\ RenderedFiles output = ∅
             /\ length (Errors output) = 1%nat)).
Proof.
  unfold HelmPluginMain. split; [|split].
  - by intros ->.
  - intros err Hne Hin. destruct (Nat.eqb_spec (len inputData) 0); [done|].
    by rewrite Hin.
  - intros status output.
    destruct (len inputData =? 0)%nat; [intros [= <- <-]; auto|].
    destruct (Unmarshal inputData) as [input|err]; [|intros [= <- <-]; auto].
    destruct (renderFiles _ _ _); [|done]. intros [= <- <-]. auto.
Qed.

(** X23. On a decoded input whose source file names have at least five
    bytes, echo-render returns status 0; the keys of [RenderedFiles] are
    the names of the source files with their last five bytes replaced by
    [.yaml], whatever these bytes are, and the entry of a source file,
    when no later file gets the same output name, is the two header lines
    (with the release name) followed by its data. *)
Theorem echo_replaces_last_five_bytes
  (inputData : string) (input : InputMessage)
  (pre post : list SourceFile) (f : SourceFile) :
  len inputData <> 0%nat ->
  Unmarshal inputData = Ok input ->
  Forall long_enough (SourceFiles input) ->
  SourceFiles input = pre ++ f :: post ->
  Forall (fun g => echoName (Name g) <> echoName (Name f)) post ->
  exists output,
    HelmPluginMain Unmarshal inputData = Exit 0 output
    /\ RenderedFiles output !! echoName (Name f)
       = Some (echoContent (releaseName (Release input)) f)
    /\ (forall key : string,
           key ∈ dom (RenderedFiles output)
           <-> exists g, g ∈ SourceFiles input /\ key = echoName (Name g))
    /\ (forall stem ext : string,
           len ext = 5%nat -> echoName (stem +:+ ext) = stem +:+ ".yaml").
Proof.
  intros Hne Hin Hlong Hfiles Hpost. unfold HelmPluginMain.
  destruct (Nat.eqb_spec (len inputData) 0); [done|].
  rewrite Hin, (renderFiles_fold _ _ Hlong).
  eexists. split; [reflexivity|]. cbn [RenderedFiles]. split; [|split].
  - rewrite Hfiles.
    apply (fold_insert_last _
             (fun sf => Some (echoName (Name sf),
                              echoContent (releaseName (Release input)) sf))
             (echo_step _)); [done|].
    eapply Forall_impl; [exact Hpost|]. intros g Hg [v Hw].
    by injection Hw as ? _.
  - intros key.
    rewrite (fold_insert_dom _
               (fun sf => Some (echoName (Name sf),
                                echoContent (releaseName (Release input)) sf))
               (echo_step _)), dom_empty.
    split.
    + intros [Hk | (g & Hg & v & Hw)]; [by apply elem_of_empty in Hk|].
      injection Hw as <- _. by exists g.
    + intros (g & Hg & ->). right. exists g. split; [done|]. by eexists.
  - intros stem ext Hext. unfold echoName, slice.
    rewrite len_app, Hext.
    replace (len stem + 5 - 5 - 0)%nat with (len stem) by lia.
    unfold len. by rewrite substring_app_l.
Qed.

End EchoMore.

Lemma C9_echo_short_name_traps_witness :
  (exists output,
      EchoRender.run (envelope [ {| Name := "templates/app.echo"; Data := "x" |} ])
      = Exit 0 output
      /\ (forall key : string,
             key ∈ dom (EchoRender.RenderedFiles output)
             <-> exists sf, sf ∈ [ {| Name := "templates/app.echo"; Data := "x" |} ]
                            /\ key = bytestr.slice (Name sf) 0 (bytestr.len (Name sf) - 5)
                                     +:+ ".yaml")
      /\ (forall (pre post : list SourceFile) (sf : SourceFile),
             [ {| Name := "templates/app.echo"; Data := "x" |} ] = pre ++ sf :: post ->
             Forall (fun g => echoName (Name g) <> echoName (Name sf)) post ->
             EchoRender.RenderedFiles output
               !! (bytestr.slice (Name sf) 0 (bytestr.len (Name sf) - 5) +:+ ".yaml")
             = Some (echoContent (EchoRender.releaseName VNil) sf)))
  /\ EchoRender.run (envelope [ {| Name := "templates/app.echo"; Data := "x" |};
                                {| Name := "b.e"; Data := "y" |};
                                {| Name := "c"; Data := "z" |} ])
     = Panic "runtime error: slice bounds out of range [:-2]".
Proof.
  split.
  - refine (proj1 (proj1 (C9_echo_short_name_traps EchoRender.json_Unmarshal)
             (envelope [ {| Name := "templates/app.echo"; Data := "x" |} ])
             (EchoRender.mkInput VNil VNil VNil
                [ {| Name := "templates/app.echo"; Data := "x" |} ]) _ _) _).
    + vm_compute. lia.
    + vm_compute. reflexivity.
    + constructor; [unfold long_enough; vm_compute; lia | constructor].
  - refine (proj1 (proj2 (proj1 (C9_echo_short_name_traps EchoRender.json_Unmarshal)
             (envelope [ {| Name := "templates/app.echo"; Data := "x" |};
                         {| Name := "b.e"; Data := "y" |};
                         {| Name := "c"; Data := "z" |} ])
             (EchoRender.mkInput VNil VNil VNil
                [ {| Name := "templates/app.echo"; Data := "x" |};
                  {| Name := "b.e"; Data := "y" |};
                  {| Name := "c"; Data := "z" |} ]) _ _))
             [ {| Name := "templates/app.echo"; Data := "x" |} ]
             [ {| Name := "c"; Data := "z" |} ]
             {| Name := "b.e"; Data := "y" |} _ _ _).
    + vm_compute. lia.
    + vm_compute. reflexivity.
    + reflexivity.
    + constructor; [unfold long_enough; vm_compute; lia | constructor].
    + unfold too_short. vm_compute. lia.
Defined.

(** ** The globally-installed-fallback plugin *)

Section FallbackFacts.

Import strings GloballyInstalledFallback.

Variable Unmarshal : string -> result InputMessageRenderV1.

Lemma fallback_fold (files : list SourceFile) :
  forall m : gmap string string,
    (m = ∅ \/ exists v, m = {[ resultName := v ]}) ->
    fold_left processFile files m
    = match last files with
      | Some f => {[ resultName := content f ]}
      | None => m
      end.
Proof.
  induction files as [|f files IH]; intros m Hm; [done|].
  assert (processFile m f = {[ resultName := content f ]}) as Hstep.
  { unfold processFile.
    destruct Hm as [->|[v ->]]; [apply insert_empty|].
    rewrite insert_singleton. by case_decide. }
  cbn [fold_left]. rewrite IH, Hstep by eauto.
  destruct files as [|g files]; [done|].
  change (last (f :: g :: files)) with (last (g :: files)).
  destruct (last (g :: files)) eqn:Hlast; [done|].
  by apply last_None in Hlast.
Qed.

(** X24. globally-installed-fallback writes every source file under the
    one name [fallback-test-result.yaml]: on a decoded input the output has
    status 0, no errors, and [RenderedFiles] holds the rendering of the
    last source file only; it is empty when there is no source file. *)
Theorem fallback_keeps_the_last_file_only
  (inputBytes : string) (input : InputMessageRenderV1) :
  Unmarshal inputBytes = Ok input ->
  HelmPluginMain Unmarshal inputBytes
  = Exit 0 {| RenderedFiles :=
                match last (SourceFiles input) with
                | Some f => {[ resultName := content f ]}
                | None => ∅
                end;
              ModifiedSourceFiles := [];
              Errors := [] |}.
Proof.
  intros Hin. unfold HelmPluginMain. rewrite Hin.
  rewrite fallback_fold by auto. reflexivity.
Qed.

End FallbackFacts.

(** ** [ReplaceAll] on a text without the pattern *)

Section ReplaceAbsent.

Import strings.

Lemma HasPrefix_shorter (s p rest : string) :
  HasPrefix s (p +:+ rest) = true -> HasPrefix s p = true.
Proof.
  intros Hs%HasPrefix_inv. rewrite Hs, <- app_assoc_s. apply HasPrefix_app.
Qed.

Lemma Contains_cons (a : ascii) (r p : string) :
  Contains (String a r) p = false ->
  HasPrefix (String a r) p = false /\ Contains r p = false.
Proof. cbn [Contains]. by intros [? ?]%orb_false_iff. Qed.

Lemma replace_go_absent (p rest new : string) :
  p <> "" ->
  forall (fuel : nat) (s : string),
    Contains s p = false ->
    replace_go fuel s (p +:+ rest) new = s.
Proof.
  intros Hp. induction fuel as [|fuel IH]; intros s Hs; [done|].
  cbn [replace_go].
  assert (String.eqb (p +:+ rest) "" = false) as ->.
  { apply String.eqb_neq. by destruct p. }
  destruct (HasPrefix s (p +:+ rest)) eqn:Hpre.
  - apply HasPrefix_shorter in Hpre. destruct s as [|a r].
    + cbn [Contains] in Hs. by rewrite Hpre in Hs.
    + apply Contains_cons in Hs as [Hs _]. congruence.
  - destruct s as [|a r]; [done|].
    apply Contains_cons in Hs as [_ Hs]. by rewrite IH.
Qed.

(** A text without the first bytes of [old] has no occurrence of [old]. *)
Lemma ReplaceAll_absent (s p rest new : string) :
  p <> "" -> Contains s p = false -> ReplaceAll s (p +:+ rest) new = s.
Proof. intros Hp Hs. by apply replace_go_absent. Qed.

End ReplaceAbsent.

(** ** The Pkl plugin *)

Section PklFacts.

Import strings PklRender.

Variable Unmarshal : string -> result InputMessageRenderV1.

Variable Sprintv : Value -> string.

Lemma renderPklFile_ok (file : SourceFile) (input : InputMessageRenderV1) :
  exists rendered, renderPklFile Sprintv file input = Ok rendered.
Proof. unfold renderPklFile. eauto. Qed.

Lemma pkl_processFile_fold (input : InputMessageRenderV1) (files : list SourceFile) :
  forall output,
    fold_left (processFile Sprintv input) files output
    = {| RenderedFiles :=
           fold_left
             (fun m f => match pklEntry Sprintv input f with
                         | Some (k, v) => <[k := v]> m
                         | None => m
                         end)
             files (RenderedFiles output);
         Errors := Errors output |}.
Proof.
  induction files as [|f files IH]; intros output; [by destruct output|].
  cbn [fold_left]. rewrite IH. f_equal.
  - f_equal. unfold processFile, pklEntry.
    destruct (HasSuffix (Name f) ".pkl"); [|done]. cbn [negb].
    by destruct (renderPklFile_ok f input) as [rendered ->].
  - unfold processFile.
    destruct (HasSuffix (Name f) ".pkl"); [|done]. cbn [negb].
    by destruct (renderPklFile_ok f input) as [rendered ->].
Qed.

(** X25. On a decoded input the Pkl plugin returns status 0 and no
    errors: rendering a file never fails.  The keys of [RenderedFiles] are
    the names of the source files that end in [.pkl], with this suffix
    replaced by [.yaml]; other files are skipped.  The entry of such a file
    is its rendering, when no later source file has its name. *)
Theorem pkl_renders_pkl_files_only
  (inputBytes : string) (input : InputMessageRenderV1) :
  Unmarshal inputBytes = Ok input ->
  exists output,
    HelmPluginMain Unmarshal Sprintv inputBytes = Exit 0 output
    /\ Errors output = []
    /\ (forall key : string,
           key ∈ dom (RenderedFiles output)
           <-> exists stem data,
                 {| Name := stem +:+ ".pkl"; Data := data |} ∈ SourceFiles input
                 /\ key = stem +:+ ".yaml")
    /\ (forall (pre post : list SourceFile) (stem data : string),
           SourceFiles input
           = pre ++ {| Name := stem +:+ ".pkl"; Data := data |} :: post ->
           Forall (fun g => Name g <> stem +:+ ".pkl") post ->
           exists rendered,
             renderPklFile Sprintv
               {| Name := stem +:+ ".pkl"; Data := data |} input = Ok rendered
             /\ RenderedFiles output !! (stem +:+ ".yaml") = Some rendered).
Proof.
  intros Hin. unfold HelmPluginMain. rewrite Hin, pkl_processFile_fold.
  eexists. split; [reflexivity|]. cbn [RenderedFiles Errors].
  split; [done|].
  assert (forall f key v,
            pklEntry Sprintv input f = Some (key, v)
            <-> exists stem, Name f = stem +:+ ".pkl" /\ key = stem +:+ ".yaml"
                             /\ renderPklFile Sprintv f input = Ok v) as Hentry.
  { intros f key v. unfold pklEntry. split.
    - destruct (HasSuffix (Name f) ".pkl") eqn:Hs; [|done].
      apply HasSuffix_inv in Hs.
      destruct (renderPklFile Sprintv f input) as [rendered|]; [|done].
      intros [= <- <-]. eexists. split; [exact Hs|].
      rewrite Hs at 1. by rewrite TrimSuffix_app.
    - intros (stem & Hname & -> & Hr).
      by rewrite Hname, HasSuffix_app, TrimSuffix_app, Hr. }
  split.
  - intros key. rewrite (fold_insert_dom _ (pklEntry Sprintv input) (fun m f => eq_refl)), dom_empty.
    split.
    + intros [Hk | (f & Hf & v & Hw)]; [by apply elem_of_empty in Hk|].
      apply Hentry in Hw as (stem & Hname & -> & _).
      exists stem, (Data f). split; [|done]. rewrite <- Hname. by destruct f.
    + intros (stem & data & Hf & ->). right. eexists. split; [exact Hf|].
      destruct (renderPklFile_ok {| Name := stem +:+ ".pkl"; Data := data |} input)
        as [rendered Hr].
      exists rendered. apply Hentry. by exists stem.
  - intros pre post stem data Hfiles Hpost. rewrite Hfiles.
    destruct (renderPklFile_ok {| Name := stem +:+ ".pkl"; Data := data |} input)
      as [rendered Hr].
    exists rendered. split; [exact Hr|].
    apply (fold_insert_last _ (pklEntry Sprintv input) (fun m f => eq_refl)).
    + apply Hentry. by exists stem.
    + eapply Forall_impl; [exact Hpost|]. intros g Hg [v Hw].
      apply Hentry in Hw as (stem' & Hname & Heq & _). apply Hg.
      rewrite Hname. f_equal.
      assert (TrimSuffix (stem +:+ ".yaml") ".yaml"
              = TrimSuffix (stem' +:+ ".yaml") ".yaml") as Ht by by rewrite Heq.
      by rewrite !TrimSuffix_app in Ht.
Qed.

(** X26. A Pkl file without the bytes [${] is rendered to its content,
    unchanged, whatever the release, the chart and the values. *)
Theorem pkl_plain_content_unchanged
  (file : SourceFile) (input : InputMessageRenderV1) :
  Contains (Data file) "${" = false ->
  renderPklFile Sprintv file input = Ok (Data file).
Proof.
  intros Hplain. unfold renderPklFile.
  assert (forall rest new, ReplaceAll (Data file) ("${" +:+ rest) new = Data file)
    as Hsame.
  { intros rest new. by apply ReplaceAll_absent. }
  change "${release.name}" with ("${" +:+ "release.name}").
  change "${release.namespace}" with ("${" +:+ "release.namespace}").
  change "${chart.name}" with ("${" +:+ "chart.name}").
  change "${chart.version}" with ("${" +:+ "chart.version}").
  change "${values.replicas}" with ("${" +:+ "values.replicas}").
  change "${values.image.repository}" with ("${" +:+ "values.image.repository}").
  change "${values.image.tag}" with ("${" +:+ "values.image.tag}").
  rewrite !Hsame.
  destruct (index (Values input) "replicas"); rewrite ?Hsame;
    (destruct (index (Values input) "image") as [[]|]; [done..| |done| done]);
    (destruct (dyn.map_get "repository" entries); rewrite ?Hsame;
     destruct (dyn.map_get "tag" entries); by rewrite ?Hsame).
Qed.

End PklFacts.

(** ** gotemplate-render on a template without actions *)

Section PlainText.

Import strings parse template GotemplateRender.

Local Existing Instance Engine.

Variable Unmarshal : string -> result InputMessageRenderV1.






End PlainText.

(** ** Input that does not decode, in the other plugins *)

Section MalformedInput.

(** X27. sourcefiles-modifier, test-processor, globally-installed-fallback
    and the Pkl plugin report an input that does not decode like
    gotemplate-render does: status 1, no rendered files, the one error
    "failed to parse input: " followed by the error of the decoder, and no
    modified source files in the output message. *)
Theorem other_plugins_reject_malformed_input (inputBytes err : string) :
  (forall Unmarshal,
      Unmarshal inputBytes = Err err ->
      SourcefilesModifier.HelmPluginMain Unmarshal inputBytes
      = Exit 1 {| RenderedFiles := ∅; ModifiedSourceFiles := [];
                  Errors := ["failed to parse input: " +:+ err] |})
  /\ (forall Unmarshal,
         Unmarshal inputBytes = Err err ->
         TestProcessor.HelmPluginMain Unmarshal inputBytes
         = Exit 1 {| RenderedFiles := ∅; ModifiedSourceFiles := [];
                     Errors := ["failed to parse input: " +:+ err] |})
  /\ (forall Unmarshal,
         Unmarshal inputBytes = Err err ->
         GloballyInstalledFallback.HelmPluginMain Unmarshal inputBytes
         = Exit 1 {| RenderedFiles := ∅; ModifiedSourceFiles := [];
                     Errors := ["failed to parse input: " +:+ err] |})
  /\ (forall Unmarshal Sprintv,
         Unmarshal inputBytes = Err err ->
         PklRender.HelmPluginMain Unmarshal Sprintv inputBytes
         = Exit 1 {| PklRender.RenderedFiles := ∅;
                     PklRender.Errors := ["failed to parse input: " +:+ err] |})
  /\ json_fields {| RenderedFiles := ∅; ModifiedSourceFiles := [];
                    Errors := ["failed to parse input: " +:+ err] |}
     = ["renderedFiles"; "errors"].
Proof.
  split; [|split; [|split; [|split]]]; try reflexivity.
  - intros Unmarshal Hin. unfold SourcefilesModifier.HelmPluginMain.
    by rewrite Hin.
  - intros Unmarshal Hin. unfold TestProcessor.HelmPluginMain. by rewrite Hin.
  - intros Unmarshal Hin. unfold GloballyInstalledFallback.HelmPluginMain.
    by rewrite Hin.
  - intros Unmarshal Sprintv Hin. unfold PklRender.HelmPluginMain.
    by rewrite Hin.
Qed.

End MalformedInput.

(** ** The further properties on concrete inputs *)

Section FurtherScenarios.

Import strings GotemplateRender.

Local Existing Instance Engine.

Lemma Files_Get_last_wins_witness :
  Files.Get (filesOf assets_input) "config/a.txt" = "four"
  /\ Files.GetBytes (filesOf assets_input) "config/a.txt" = "four"
  /\ Files.Lines (filesOf assets_input) "config/a.txt" = Some ["four"].
Proof.
  refine (proj1 (Files_Get_last_wins assets_input)
            [ {| Name := "config/a.txt"; Data := "one" |};
              {| Name := "config/b.txt";
                 Data := "two" +:+ json.newline +:+ "three" |} ]
            []
            {| Name := "config/a.txt"; Data := "four" |} _ _).
  - reflexivity.
  - constructor.
Defined.

Lemma Files_AsConfig_base_names_witness :
  Files.AsConfig map_to_list assets !! "a.txt" = Some "one"
  /\ Files.AsSecrets map_to_list assets !! "a.txt" = Some "one".
Proof.
  refine (proj2 (Files_AsConfig_base_names map_to_list _ assets) _
            "config/a.txt" "one" _).
  - intros m. reflexivity.
  - intros n1 n2 H1 H2 Hbase. unfold assets in H1, H2. cbn [Files.files] in H1, H2.
    rewrite dom_insert_L, dom_singleton_L in H1, H2.
    apply elem_of_union in H1 as [H1|H1], H2 as [H2|H2];
      apply elem_of_singleton in H1, H2; subst n1 n2;
      try reflexivity; vm_compute in Hbase; discriminate Hbase.
  - vm_compute. reflexivity.
Defined.

Lemma Files_Glob_selects_witness :
  Files.Glob map_to_list Match_literal assets "config/a.txt" !! "config/a.txt"
  = Some "one".
Proof.
  refine (proj2 (proj1 (Files_Glob_selects map_to_list _ Match_literal assets
                          "config/a.txt")
                   "config/a.txt" "one") _).
  - intros m. reflexivity.
  - split; vm_compute; reflexivity.
Defined.

Lemma rendered_files_are_primary_witness :
  exists output,
    run (envelope [partial_a; manifest_file]) = Exit 0 output
    /\ forall name rendered : string,
         RenderedFiles output !! name = Some rendered ->
         exists f,
           f ∈ [partial_a; manifest_file] /\ Name f = name
           /\ isPartial f = false /\ hasTemplateSuffix name = true
           /\ outcome (inputOf [partial_a; manifest_file]) f = Ok rendered
           /\ TrimSpace rendered <> "".
Proof.
  refine (rendered_files_are_primary json_Unmarshal
            (envelope [partial_a; manifest_file])
            (inputOf [partial_a; manifest_file]) _).
  vm_compute. reflexivity.
Defined.



Lemma rendering_depends_on_partials_only_witness :
  outcome (withSourceFiles (inputOf [partial_a; main_template])
             [partial_a; manifest_file; main_template]) main_template
  = outcome (inputOf [partial_a; main_template]) main_template.
Proof.
  refine (proj1 (rendering_depends_on_partials_only
                   (inputOf [partial_a; main_template])
                   [partial_a; manifest_file; main_template] main_template _)).
  vm_compute. reflexivity.
Defined.

Lemma order_of_regular_templates_is_irrelevant_witness :
  exists output output',
    run (envelope [partial_a; manifest_file; main_template]) = Exit 0 output
    /\ run (envelope [partial_a; main_template; manifest_file]) = Exit 0 output'
    /\ RenderedFiles output' = RenderedFiles output
    /\ Errors output' ≡ₚ Errors output.
Proof.
  refine (order_of_regular_templates_is_irrelevant json_Unmarshal
            (envelope [partial_a; manifest_file; main_template])
            (envelope [partial_a; main_template; manifest_file])
            (inputOf [partial_a; manifest_file; main_template])
            [partial_a; main_template; manifest_file] _ _ _ _ _).
  - vm_compute. reflexivity.
  - vm_compute. reflexivity.
  - apply perm_skip, perm_swap.
  - vm_compute. reflexivity.
  - refine (bool_decide_unpack _ _). vm_compute. exact I.
Defined.

Lemma skipped_files_are_inert_witness :
  run (envelope [partial_a; main_template])
  = run (envelope [partial_a; {| Name := "README.md"; Data := "{{ fail }}" |};
                   main_template]).
Proof.
  refine (skipped_files_are_inert json_Unmarshal
            (envelope [partial_a; {| Name := "README.md"; Data := "{{ fail }}" |};
                       main_template])
            (envelope [partial_a; main_template])
            (inputOf [partial_a; {| Name := "README.md"; Data := "{{ fail }}" |};
                      main_template])
            [partial_a] [main_template]
            {| Name := "README.md"; Data := "{{ fail }}" |} _ _ _ _ _).
  - vm_compute. reflexivity.
  - reflexivity.
  - vm_compute. reflexivity.
  - vm_compute. reflexivity.
  - vm_compute. reflexivity.
Defined.


Lemma required_rule_witness :
  funcs.required "a value is required" VNil = Err "a value is required"
  /\ template.call funcMap "required" [VString "a value is required"; VNil]
     = Err "error calling required: a value is required".
Proof.
  refine (proj2 (proj2 (required_rule "a value is required" VNil)) _).
  reflexivity.
Defined.

Lemma empty_rule_witness : funcs.empty (VString "") = true.
Proof.
  refine (proj1 (proj2 empty_rule) (VString "") _). reflexivity.
Defined.

Lemma coalesce_rule_witness :
  funcs.coalesce ([VNil; VString ""] ++ VInt 0 :: [VString "x"]) = VInt 0.
Proof.
  refine (proj1 (proj2 coalesce_rule) [VNil; VString ""] [VString "x"] (VInt 0) _ _).
  - constructor; [reflexivity|]. constructor; [reflexivity | constructor].
  - reflexivity.
Defined.

Lemma dict_rule_witness :
  funcs.dict (VInt 1 :: VString "one" :: [VString "a"; VInt 2])
  = funcs.dict [VString "a"; VInt 2].
Proof.
  refine (proj2 (proj2 (proj2 dict_rule)) (VInt 1) (VString "one")
            [VString "a"; VInt 2] _).
  intros s. discriminate.
Defined.


Lemma nindent_rule_witness :
  funcs.indent (-1) "a" = Err "strings: negative Repeat count"
  /\ funcs.nindent (-1) "a" = Err "strings: negative Repeat count".
Proof.
  refine (proj2 nindent_rule (-1) "a" _). lia.
Defined.

Lemma modifier_passes_the_rest_through_witness :
  exists summaryContent,
    SourcefilesModifier.run (envelope four_files)
    = Exit 0
        {| RenderedFiles :=
             {[ "sourcefiles-modifier-summary.yaml" := summaryContent ]};
           ModifiedSourceFiles :=
             [ {| Name := "templates/b.test";
                  Data := "[MODIFIED BY PLUGIN 1]" +:+ json.newline +:+ "b: 2" |};
               {| Name := "templates/c.renamed"; Data := "c: 3" |};
               {| Name := "templates/d.test"; Data := "d: 4" |};
               {| Name := "templates/file4.test";
                  Data := SourcefilesModifier.newFileContent |} ];
           Errors := [] |}.
Proof.
  eexists.
  refine (modifier_passes_the_rest_through SourcefilesModifier.json_Unmarshal
            (envelope four_files)
            (SourcefilesModifier.mkInput VNil VNil VNil VNil [] VNil four_files)
            {| Name := "templates/a.test"; Data := "a: 1" |}
            {| Name := "templates/b.test"; Data := "b: 2" |}
            {| Name := "templates/c.test"; Data := "c: 3" |}
            [ {| Name := "templates/d.test"; Data := "d: 4" |} ] _ _).
  - vm_compute. reflexivity.
  - reflexivity.
Defined.

Lemma modifier_always_hands_off_witness :
  exists output,
    SourcefilesModifier.run (envelope []) = Exit 0 output
    /\ last (ModifiedSourceFiles output)
       = Some {| Name := "templates/file4.test";
                 Data := SourcefilesModifier.newFileContent |}
    /\ length (ModifiedSourceFiles output) = 1%nat
    /\ json_fields output = ["renderedFiles"; "modifiedSourceFiles"]
    /\ ((0 <= 1)%nat ->
        ModifiedSourceFiles output
        = [ {| Name := "templates/file4.test";
               Data := SourcefilesModifier.newFileContent |} ]).
Proof.
  refine (modifier_always_hands_off SourcefilesModifier.json_Unmarshal
            (envelope [])
            (SourcefilesModifier.mkInput VNil VNil VNil VNil [] VNil []) _).
  vm_compute. reflexivity.
Defined.

Lemma indentContent_by_lines_witness :
  TestProcessor.indentContent "a: 1" = "    " +:+ "a: 1" +:+ json.newline.
Proof.
  refine (proj2 indentContent_by_lines "a: 1" _).
  vm_compute. reflexivity.
Defined.

Lemma test_processor_output_witness :
  exists output,
    TestProcessor.run (envelope handoff_files) = Exit 0 output
    /\ RenderedFiles output !! TestProcessor.summaryName
       = Some (TestProcessor.summaryContent 3
                 ["templates/a.test"; "templates/b.test"; "templates/c.test"])
    /\ (forall key : string,
           key ∈ dom (RenderedFiles output)
           <-> key = TestProcessor.summaryName
               \/ exists f, f ∈ handoff_files /\ key = TestProcessor.outputName f)
    /\ ModifiedSourceFiles output = []
    /\ Errors output = [].
Proof.
  refine (test_processor_output TestProcessor.json_Unmarshal
            (envelope handoff_files)
            (SourcefilesModifier.mkInput VNil VNil VNil VNil [] VNil handoff_files)
            _).
  vm_compute. reflexivity.
Defined.

Lemma test_processor_last_wins_witness :
  exists output,
    TestProcessor.run (envelope colliding_files) = Exit 0 output
    /\ RenderedFiles output !! "templates/x.yaml"
       = Some (TestProcessor.content {| Name := "templates/x"; Data := "second" |}).
Proof.
  refine (test_processor_last_wins TestProcessor.json_Unmarshal
            (envelope colliding_files)
            (SourcefilesModifier.mkInput VNil VNil VNil VNil [] VNil colliding_files)
            [ {| Name := "templates/x.test"; Data := "first" |} ] []
            {| Name := "templates/x"; Data := "second" |} _ _ _ _).
  - vm_compute. reflexivity.
  - reflexivity.
  - constructor.
  - vm_compute. discriminate.
Defined.

Lemma modifier_then_test_processor_witness :
  exists out2,
    TestProcessor.run (envelope (ModifiedSourceFiles handoff_output))
    = Exit 0 out2
    /\ RenderedFiles out2 !! TestProcessor.summaryName
       = Some (TestProcessor.summaryContent 3
                 ["templates/b.test"; "templates/c.renamed";
                  "templates/file4.test"])
    /\ dom (RenderedFiles out2)
       = {[ TestProcessor.summaryName; "templates/b.yaml";
            "templates/c.renamed.yaml"; "templates/file4.yaml" ]}
    /\ RenderedFiles out2 !! "templates/file4.yaml"
       = Some (TestProcessor.content
                 {| Name := "templates/file4.test";
                    Data := SourcefilesModifier.newFileContent |}).
Proof.
  refine (modifier_then_test_processor
            SourcefilesModifier.json_Unmarshal TestProcessor.json_Unmarshal
            (envelope handoff_files)
            (envelope (ModifiedSourceFiles handoff_output))
            (SourcefilesModifier.mkInput VNil VNil VNil VNil [] VNil handoff_files)
            (SourcefilesModifier.mkInput VNil VNil VNil VNil [] VNil
               (ModifiedSourceFiles handoff_output))
            handoff_output
            {| Name := "templates/a.test"; Data := "a: 1" |}
            {| Name := "templates/b.test"; Data := "b: 2" |}
            {| Name := "templates/c.test"; Data := "c: 3" |}
            "templates/c" _ _ _ _ _ _).
  - vm_compute. reflexivity.
  - reflexivity.
  - reflexivity.
  - vm_compute. reflexivity.
  - vm_compute. reflexivity.
  - reflexivity.
Defined.

Lemma echo_status_and_errors_witness :
  EchoRender.run ""
  = Exit 1 {| EchoRender.RenderedFiles := ∅;
              EchoRender.Errors := ["no input provided"] |}.
Proof.
  refine (proj1 (echo_status_and_errors EchoRender.json_Unmarshal "") _).
  reflexivity.
Defined.

Lemma echo_replaces_last_five_bytes_witness :
  exists output,
    EchoRender.run (envelope [ {| Name := "templates/app.echo"; Data := "x" |} ])
    = Exit 0 output
    /\ EchoRender.RenderedFiles output !! "templates/app.yaml"
       = Some (echoContent "unknown" {| Name := "templates/app.echo"; Data := "x" |}).
Proof.
  destruct (echo_replaces_last_five_bytes EchoRender.json_Unmarshal
              (envelope [ {| Name := "templates/app.echo"; Data := "x" |} ])
              (EchoRender.mkInput VNil VNil VNil
                 [ {| Name := "templates/app.echo"; Data := "x" |} ])
              [] [] {| Name := "templates/app.echo"; Data := "x" |})
    as (output & Hrun & Hget & _).
  - vm_compute. lia.
  - vm_compute. reflexivity.
  - constructor; [unfold long_enough; vm_compute; lia | constructor].
  - reflexivity.
  - constructor.
  - exists output. split; [exact Hrun | exact Hget].
Defined.

Lemma fallback_keeps_the_last_file_only_witness :
  GloballyInstalledFallback.run (envelope handoff_files)
  = Exit 0 {| RenderedFiles :=
                {[ GloballyInstalledFallback.resultName :=
                     GloballyInstalledFallback.content
                       {| Name := "templates/c.test"; Data := "c: 3" |} ]};
              ModifiedSourceFiles := [];
              Errors := [] |}.
Proof.
  refine (fallback_keeps_the_last_file_only
            GloballyInstalledFallback.json_Unmarshal (envelope handoff_files)
            (SourcefilesModifier.mkInput VNil VNil VNil VNil [] VNil handoff_files)
            _).
  vm_compute. reflexivity.
Defined.

Lemma pkl_renders_pkl_files_only_witness :
  exists output,
    PklRender.run (fun _ => "") pkl_envelope = Exit 0 output
    /\ PklRender.Errors output = []
    /\ dom (PklRender.RenderedFiles output) = {[ "templates/app.yaml" ]}.
Proof.
  destruct (pkl_renders_pkl_files_only PklRender.json_Unmarshal (fun _ => "")
              pkl_envelope pkl_input)
    as (output & Hrun & Herr & _ & _).
  - vm_compute. reflexivity.
  - exists output. split; [exact Hrun|]. split; [exact Herr|].
    assert (PklRender.run (fun _ => "") pkl_envelope = Exit 0 output) as Hrun'
      by exact Hrun.
    vm_compute in Hrun'. injection Hrun' as <-. vm_compute. reflexivity.
Defined.

Lemma pkl_plain_content_unchanged_witness :
  PklRender.renderPklFile (fun _ => "") plain_pkl pkl_input = Ok "replicas = 1".
Proof.
  refine (pkl_plain_content_unchanged (fun _ => "") plain_pkl pkl_input _).
  vm_compute. reflexivity.
Defined.

Lemma other_plugins_reject_malformed_input_witness :
  SourcefilesModifier.run (q "{'sourceFiles': [{'name': 'a.test', 'da")
  = Exit 1 {| RenderedFiles := ∅; ModifiedSourceFiles := [];
              Errors := ["failed to parse input: unexpected end of JSON input"] |}.
Proof.
  refine (proj1 (other_plugins_reject_malformed_input
                   (q "{'sourceFiles': [{'name': 'a.test', 'da")
                   "unexpected end of JSON input")
            SourcefilesModifier.json_Unmarshal _).
  vm_compute. reflexivity.
Defined.

End FurtherScenarios.
